(** * FullStack-Todo-App: the frontend services and task views, verified

    A shallow embedding of the TypeScript sources
      - frontend/services/authApi.ts   (cookie helpers, signup, login, logout,
                                        getCurrentUser, isAuthenticated,
                                        getTokenFromCookie)
      - frontend/services/api.ts       (the axios based ApiClient)
      - frontend/app/tasks/page.tsx    (filter, sort, search composition,
                                        counters, edit handler)
      - frontend/components/tasks/TaskForm.tsx  (validation, tag handling)
      - frontend/components/tasks/TaskModal.tsx (validation, tag buttons)
      - frontend/app/notifications/page.tsx     (filters, relative times)
      - the signup and login forms     (email and password validation)

    JavaScript strings are sequences of UTF-16 code units, JavaScript values
    are a JSON-like tree, and every function that touches the browser is a
    state transformer over [Browser] that either returns or throws. *)

From Stdlib Require Import ZArith List String Ascii Bool Lia DecimalString Permutation.
From stdpp Require Import base gmap list.
Import ListNotations.

Local Open Scope Z_scope.

(* ====================================================================== *)
(** * JavaScript values *)
(* ====================================================================== *)

Module Js.

(** A JavaScript string: its UTF-16 code units. *)
Definition jsstring : Type := list N.

(** An ASCII literal of the source as a JavaScript string. *)
Definition js (s : string) : jsstring :=
  List.map N_of_ascii (list_ascii_of_string s).
Arguments js : simpl never.

(** Values as the services see them: what [response.json()] and axios hand
    back, plus [undefined]. Numbers are the integral ones. *)
#[warnings="-register-all"]
Inductive jsval : Type :=
| JUndefined
| JNull
| JBool (b : bool)
| JNum (n : Z)
| JStr (s : jsstring)
| JArr (xs : list jsval)
| JObj (fields : list (jsstring * jsval)).

(** What a [throw] carries. *)
Inductive exn : Type :=
| TypeError (property : jsstring)        (* reading a property of null/undefined *)
| SyntaxError                            (* response.json() on a malformed body *)
| NetworkError (message : jsstring)      (* fetch() rejected *)
| Error (message : jsstring)             (* new Error(x): the message is String(x) *)
| AxiosError (status : option Z) (data : jsval) (message : jsstring).

Inductive outcome (A : Type) : Type :=
| Returned (a : A)
| Thrown (e : exn).
Arguments Returned {A} a.
Arguments Thrown {A} e.

(** ToBoolean. *)
Definition truthy (v : jsval) : bool :=
  match v with
  | JUndefined | JNull => false
  | JBool b => b
  | JNum n => negb (n =? 0)
  | JStr s => match s with [] => false | _ :: _ => true end
  | JArr _ | JObj _ => true
  end.

Definition nullish (v : jsval) : bool :=
  match v with
  | JUndefined | JNull => true
  | _ => false
  end.

Definition jsstring_eqb (a b : jsstring) : bool := bool_decide (a = b).

Fixpoint assoc (k : jsstring) (fields : list (jsstring * jsval)) : option jsval :=
  match fields with
  | [] => None
  | (k', v) :: rest => if jsstring_eqb k k' then Some v else assoc k rest
  end.

(** [v.k] where it does not throw: own data properties of objects, and
    [undefined] everywhere else. *)
Definition prop (v : jsval) (k : jsstring) : jsval :=
  match v with
  | JObj fields => match assoc k fields with Some x => x | None => JUndefined end
  | _ => JUndefined
  end.

(** [v.k]: a TypeError on [null] and [undefined]. *)
Definition get_prop (v : jsval) (k : jsstring) : outcome jsval :=
  if nullish v then Thrown (TypeError k) else Returned (prop v k).

(** [a || b] *)
Definition js_or (a b : jsval) : jsval := if truthy a then a else b.

(** ** Whitespace and trimming (ECMAScript WhiteSpace and LineTerminator) *)

Definition is_whitespace (c : N) : bool :=
  match c with
  | 9 | 10 | 11 | 12 | 13 | 32 | 160 | 5760
  | 8192 | 8193 | 8194 | 8195 | 8196 | 8197 | 8198 | 8199 | 8200 | 8201 | 8202
  | 8232 | 8233 | 8239 | 8287 | 12288 | 65279 => true
  | _ => false
  end%N.

Fixpoint trimStart (s : jsstring) : jsstring :=
  match s with
  | c :: rest => if is_whitespace c then trimStart rest else s
  | [] => []
  end.

Definition trimEnd (s : jsstring) : jsstring := rev (trimStart (rev s)).

Definition trim (s : jsstring) : jsstring := trimEnd (trimStart s).

(** ** Substring search *)

Fixpoint startsWith (s q : jsstring) : bool :=
  match q, s with
  | [], _ => true
  | _ :: _, [] => false
  | cq :: q', cs :: s' => (cq =? cs)%N && startsWith s' q'
  end.

(** [s.includes(q)] *)
Fixpoint includes (s q : jsstring) : bool :=
  startsWith s q ||
  match s with
  | [] => false
  | _ :: s' => includes s' q
  end.

(** ** The ASCII range, where [toLowerCase] only shifts A..Z *)

Definition is_ascii (c : N) : bool := (c <? 128)%N.

Definition ascii_lower (c : N) : N :=
  if ((65 <=? c) && (c <=? 90))%N then (c + 32)%N else c.

End Js.
Export Js.

(* ====================================================================== *)
(** * What the runtime provides *)
(* ====================================================================== *)

(** Library functions of the JavaScript runtime that the sources call and
    whose algorithms are not part of this repository. *)
Class Platform : Type := {
  (** [date.toUTCString()] of the instant [t] milliseconds after the epoch *)
  Date_toUTCString : Z -> jsstring;
  (** how the cookie store reads an [expires=] date *)
  Date_parse : jsstring -> option Z;
  (** [String(JSON.stringify(v))], the text a Storage keeps for it *)
  JSON_stringify : jsval -> jsstring;
  (** string coercion in template literals and Storage.setItem *)
  ToString : jsval -> jsstring;
  (** [s.toLowerCase()] *)
  toLowerCase : jsstring -> jsstring;
  (** [new URLSearchParams(...).toString()] over the appended pairs *)
  URLSearchParams_toString : list (jsstring * jsstring) -> jsstring;
}.

(** Laws of the runtime that some results rely on. *)
Definition ToString_of_string `{Platform} : Prop :=
  forall s, ToString (JStr s) = s.

Definition toLowerCase_on_ascii `{Platform} : Prop :=
  forall s, forallb is_ascii s = true -> toLowerCase s = List.map ascii_lower s.

Definition epoch_literal : jsstring := js "Thu, 01 Jan 1970 00:00:00 UTC".

Definition epoch_parses `{Platform} : Prop :=
  Date_parse epoch_literal = Some 0.

(** What [deleteCookie('auth_token')] assigns to document.cookie. *)
Definition auth_token_deletion : jsstring :=
  js "auth_token=;expires=Thu, 01 Jan 1970 00:00:00 UTC;path=/;".

(* ====================================================================== *)
(** * The browser *)
(* ====================================================================== *)

Inductive console_level : Type := LevelLog | LevelError.

Inductive console_arg : Type :=
| CStr (s : jsstring)
| CVal (v : jsval)
| CExn (e : exn).

Record Browser : Type := mkBrowser {
  (** window.localStorage *)
  localStorage : gmap jsstring jsstring;
  (** the cookie store behind document.cookie, by cookie name *)
  cookies : gmap jsstring jsstring;
  (** every string assigned to document.cookie, newest first *)
  document_cookie_writes : list jsstring;
  (** window.location.href *)
  location_href : jsstring;
  (** console output, newest first *)
  console : list (console_level * list console_arg);
  (** the instant [new Date()] reads, in milliseconds since the epoch *)
  clock : Z;
}.

(** ** The cookie store's reading of an assignment to document.cookie *)

Fixpoint split_on (sep : N) (s : jsstring) : list jsstring :=
  match s with
  | [] => [[]]
  | c :: rest =>
      if (c =? sep)%N then [] :: split_on sep rest
      else match split_on sep rest with
           | [] => [[c]]
           | w :: ws => (c :: w) :: ws
           end
  end.

Fixpoint cut_at (sep : N) (s : jsstring) : jsstring * jsstring :=
  match s with
  | [] => ([], [])
  | c :: rest =>
      if (c =? sep)%N then ([], rest)
      else let '(a, b) := cut_at sep rest in (c :: a, b)
  end.

Definition semicolon : N := 59.
Definition equals_sign : N := 61.

Fixpoint cookie_expires `{Platform} (attrs : list jsstring) : option Z :=
  match attrs with
  | [] => None
  | a :: rest =>
      let '(k, v) := cut_at equals_sign a in
      if jsstring_eqb k (js "expires") then Date_parse v
      else cookie_expires rest
  end.

(** A cookie whose expiry is not in the future is dropped from the store,
    any other assignment stores the value under the name. *)
Definition store_cookie `{Platform} (now : Z) (s : jsstring)
    (jar : gmap jsstring jsstring) : gmap jsstring jsstring :=
  match split_on semicolon s with
  | [] => jar
  | binding :: attrs =>
      let '(name, value) := cut_at equals_sign binding in
      match cookie_expires attrs with
      | Some t => if t <=? now then delete name jar else <[name := value]> jar
      | None => <[name := value]> jar
      end
  end.

(* ====================================================================== *)
(** * Effects: browser state, return or throw *)
(* ====================================================================== *)

Definition M (A : Type) : Type := Browser -> Browser * outcome A.

Definition ret {A} (a : A) : M A := fun b => (b, Returned a).

Definition throw {A} (e : exn) : M A := fun b => (b, Thrown e).

Definition bind {A B} (m : M A) (k : A -> M B) : M B :=
  fun b =>
    match m b with
    | (b1, Returned a) => k a b1
    | (b1, Thrown e) => (b1, Thrown e)
    end.

(** [try { body } catch (e) { handler e }] *)
Definition try_catch {A} (body : M A) (handler : exn -> M A) : M A :=
  fun b =>
    match body b with
    | (b1, Returned a) => (b1, Returned a)
    | (b1, Thrown e) => handler e b1
    end.

(** [try { body } finally { cleanup }]: the cleanup runs on both exits; the
    body's outcome stands unless the cleanup itself throws. *)
Definition try_finally {A} (body : M A) (cleanup : M unit) : M A :=
  fun b =>
    match body b with
    | (b1, r) =>
        match cleanup b1 with
        | (b2, Returned _) => (b2, r)
        | (b2, Thrown e) => (b2, Thrown e)
        end
    end.

(** Lifting a pure step that may throw. *)
Definition lift {A} (r : outcome A) : M A := fun b => (b, r).

Declare Scope js_scope.
Delimit Scope js_scope with js.
Notation "'let*' x ':=' m 'in' k" := (bind m (fun x => k))
  (at level 10, x name, m at level 100, k at level 200) : js_scope.
Notation "'let*' ' pat ':=' m 'in' k" :=
  (bind m (fun x => match x with pat => k end))
  (at level 10, pat pattern, m at level 100, k at level 200) : js_scope.
Notation "m ';;' k" := (bind m (fun _ => k))
  (at level 100, k at level 200, right associativity) : js_scope.
Local Open Scope js_scope.

(** ** Browser primitives *)

Definition localStorage_getItem (k : jsstring) : M (option jsstring) :=
  fun b => (b, Returned (localStorage b !! k)).

Definition localStorage_setItem (k v : jsstring) : M unit :=
  fun '(mkBrowser storage jar writes href out now) =>
    (mkBrowser (<[k := v]> storage) jar writes href out now, Returned tt).

Definition localStorage_removeItem (k : jsstring) : M unit :=
  fun '(mkBrowser storage jar writes href out now) =>
    (mkBrowser (delete k storage) jar writes href out now, Returned tt).

(** [document.cookie = s] *)
Definition set_document_cookie `{Platform} (s : jsstring) : M unit :=
  fun '(mkBrowser storage jar writes href out now) =>
    (mkBrowser storage (store_cookie now s jar) (s :: writes) href out now,
     Returned tt).

(** [window.location.href = url] *)
Definition set_location_href (url : jsstring) : M unit :=
  fun '(mkBrowser storage jar writes href out now) =>
    (mkBrowser storage jar writes url out now, Returned tt).

Definition console_write (lvl : console_level) (args : list console_arg) : M unit :=
  fun '(mkBrowser storage jar writes href out now) =>
    (mkBrowser storage jar writes href ((lvl, args) :: out) now, Returned tt).

Definition console_log := console_write LevelLog.
Definition console_error := console_write LevelError.

(** [new Date().getTime()] *)
Definition Date_getTime : M Z := fun b => (b, Returned (clock b)).

(** ** States the results speak about *)

(** The client-side credentials are gone: both localStorage entries, the
    cookie, and the last assignment to document.cookie is the deletion. *)
Definition credentials_cleared (b : Browser) : Prop :=
  localStorage b !! js "auth_token" = None
  /\ localStorage b !! js "user" = None
  /\ cookies b !! js "auth_token" = None
  /\ head (document_cookie_writes b) = Some auth_token_deletion.

(** The forced logout of a 401: both localStorage entries are gone and the
    browser is on the login page. *)
Definition session_ended (b : Browser) : Prop :=
  localStorage b !! js "auth_token" = None
  /\ localStorage b !! js "user" = None
  /\ location_href b = js "/login".

(** The cookie assignment that carries [token], written at instant [now]:
    thirty days of expiry, path=/, SameSite=Lax and Secure. *)
Definition token_cookie `{Platform} (token : jsstring) (now : Z) : jsstring :=
  js "auth_token=" ++ token
    ++ js ";expires=" ++ Date_toUTCString (now + 2592000000)
    ++ js ";path=/;SameSite=Lax;Secure".

(** The token of [data] is mirrored into the cookie and the localStorage,
    next to the serialised user. *)
Definition token_stored `{Platform} (data : jsval) (token : jsstring)
    (before after : Browser) : Prop :=
  head (document_cookie_writes after) = Some (token_cookie token (clock before))
  /\ localStorage after !! js "auth_token" = Some token
  /\ localStorage after !! js "user" = Some (JSON_stringify (prop data (js "user"))).

(** Two states that differ at most in the console output. *)
Definition same_but_console (b b' : Browser) : Prop :=
  localStorage b' = localStorage b
  /\ cookies b' = cookies b
  /\ document_cookie_writes b' = document_cookie_writes b
  /\ location_href b' = location_href b
  /\ clock b' = clock b.

(** ** Non-ASCII glyphs of the log messages, as UTF-16 code units *)

Definition check_mark : jsstring := [9989%N].
Definition cross_mark : jsstring := [10060%N].
Definition outbox : jsstring := [55357%N; 56548%N].
Definition no_entry : jsstring := [55357%N; 57003%N].

(* ====================================================================== *)
(** * services/authApi.ts *)
(* ====================================================================== *)

Module AuthApi.

(** What [fetch] is called with. Every call of this module passes
    [credentials: 'include']. *)
Record request : Type := mkRequest {
  req_url : jsstring;
  req_method : jsstring;
  req_headers : list (jsstring * jsstring);
  req_body : option jsstring;
}.

(** What [fetch] settles to: a rejection, or a response with its status and
    what [response.json()] settles to. *)
Inductive fetch_result : Type :=
| FetchRejected (e : exn)
| FetchResponse (status : Z) (json : outcome jsval).

(** [response.ok] *)
Definition response_ok (status : Z) : bool := (200 <=? status) && (status <=? 299).

Section WithEnvironment.

Context `{Platform}.

(** [process.env.NEXT_PUBLIC_API_URL] *)
Variable NEXT_PUBLIC_API_URL : option jsstring.

(** The network and the server behind it. *)
Variable network : request -> fetch_result.

Definition API_URL : jsstring :=
  match NEXT_PUBLIC_API_URL with
  | Some (c :: u) => c :: u
  | _ => js "http://localhost:8000/api/v1"
  end.

(** [await fetch(...)] followed by [await response.json()]: the status and
    the parsed body. *)
Definition fetch_json (req : request) : M (Z * jsval) :=
  match network req with
  | FetchRejected e => throw e
  | FetchResponse status (Thrown e) => throw e
  | FetchResponse status (Returned data) => ret (status, data)
  end.

(** [...(token && { 'Authorization': `Bearer ${token}` })] *)
Definition authorization_header (token : option jsstring) : list (jsstring * jsstring) :=
  match token with
  | Some (c :: t) => [(js "Authorization", js "Bearer " ++ c :: t)]
  | _ => []
  end.

Definition setCookie (name : jsstring) (value : jsval) (days : option Z) : M unit :=
  let days := default 30 days in
  let* now := Date_getTime in
  let date := now + days * 24 * 60 * 60 * 1000 in
  let expires := js "expires=" ++ Date_toUTCString date in
  set_document_cookie
    (name ++ js "=" ++ ToString value ++ js ";" ++ expires
          ++ js ";path=/;SameSite=Lax;Secure") ;;
  console_log [CStr (check_mark ++ js " Cookie set:"); CStr name].

Definition deleteCookie (name : jsstring) : M unit :=
  set_document_cookie
    (name ++ js "=;expires=Thu, 01 Jan 1970 00:00:00 UTC;path=/;") ;;
  console_log [CStr (check_mark ++ js " Cookie deleted:"); CStr name].

Definition credentials_body (email password : jsstring) : option jsstring :=
  Some (JSON_stringify
          (JObj [(js "email", JStr email); (js "password", JStr password)])).

(** The shared second half of [signup] and [login]: mirror the token into the
    cookie and the local storage. *)
Definition store_token (data : jsval) (done_message : jsstring) : M unit :=
  let* token := lift (get_prop data (js "token")) in
  if truthy token then
    setCookie (js "auth_token") token (Some 30) ;;
    localStorage_setItem (js "auth_token") (ToString token) ;;
    let* user := lift (get_prop data (js "user")) in
    localStorage_setItem (js "user") (JSON_stringify user) ;;
    console_log [CStr (check_mark ++ done_message)]
  else ret tt.

(** [throw new Error(data.detail || fallback)]: the constructor turns its
    argument into a string, so a [detail] that is an array or an object is
    thrown as its string form. *)
Definition throw_detail {A} (data : jsval) (fallback : jsstring) : M A :=
  let* detail := lift (get_prop data (js "detail")) in
  throw (Error (ToString (js_or detail (JStr fallback)))).

Definition signup_request (email password : jsstring) : request :=
  mkRequest (API_URL ++ js "/auth/signup") (js "POST")
    [(js "Content-Type", js "application/json")]
    (credentials_body email password).

Definition signup (email password : jsstring) : M jsval :=
  let* '(status, data) := fetch_json (signup_request email password) in
  if negb (response_ok status) then
    throw_detail data (js "Signup failed. Please try again.")
  else
    store_token data (js " User signed up and token stored") ;;
    ret data.

Definition login_request (email password : jsstring) : request :=
  mkRequest (API_URL ++ js "/auth/login") (js "POST")
    [(js "Content-Type", js "application/json")]
    (credentials_body email password).

Definition login (email password : jsstring) : M jsval :=
  let* '(status, data) := fetch_json (login_request email password) in
  if negb (response_ok status) then
    throw_detail data (js "Login failed. Please try again.")
  else
    store_token data (js " User logged in and token stored") ;;
    ret data.

Definition logout_request (token : option jsstring) : request :=
  mkRequest (API_URL ++ js "/auth/logout") (js "POST")
    (authorization_header token) None.

Definition logout : M jsval :=
  let* token := localStorage_getItem (js "auth_token") in
  try_finally
    (let* '(status, data) := fetch_json (logout_request token) in
     if negb (response_ok status) then
       throw_detail data (js "Logout failed. Please try again.")
     else ret data)
    (deleteCookie (js "auth_token") ;;
     localStorage_removeItem (js "auth_token") ;;
     localStorage_removeItem (js "user") ;;
     console_log [CStr (check_mark ++ js " User logged out and token cleared")]).

Definition me_request (token : option jsstring) : request :=
  mkRequest (API_URL ++ js "/auth/me") (js "GET")
    (authorization_header token) None.

Definition getCurrentUser : M jsval :=
  let* token := localStorage_getItem (js "auth_token") in
  let* '(status, data) := fetch_json (me_request token) in
  if negb (response_ok status) then
    throw_detail data (js "Session validation failed.")
  else ret data.

Definition isAuthenticated : M bool :=
  try_catch (getCurrentUser ;; ret true) (fun _ => ret false).

End WithEnvironment.

End AuthApi.

(* ====================================================================== *)
(** * services/api.ts *)
(* ====================================================================== *)

Module ApiClient.

Inductive verb : Type := GET | POST | PUT | PATCH | DELETE.

(** The axios request configuration that reaches the adapter. The JSON
    content type and [withCredentials: true] are the same on every request
    and are left out. *)
Record config : Type := mkConfig {
  cfg_baseURL : jsstring;
  cfg_timeout : Z;
  cfg_verb : verb;
  cfg_url : jsstring;
  cfg_data : jsval;
  cfg_authorization : option jsstring;
}.

(** What the HTTP adapter settles to: a response with its status and its
    body, or no response at all (network failure, timeout). *)
Inductive http_result : Type :=
| HttpResponse (status : Z) (data : jsval)
| HttpFailure (message : jsstring).

Definition API_BASE_URL : jsstring := js "/api".
Definition API_TIMEOUT : Z := 30000.

(** axios' default [validateStatus] *)
Definition validateStatus (status : Z) : bool := (200 <=? status) && (status <? 300).

Section WithEnvironment.

Context `{Platform}.

(** The backend as seen through axios' adapter. *)
Variable adapter : config -> http_result.

(** How the dynamically imported and awaited [sessionExpired()] alert of
    utils/authAlerts settles: it resolves, or the import or the call throws.
    The alert only shows a dialog; the interceptor goes on once it has
    settled. *)
Variable sessionExpired : outcome unit.

(** [typeof window !== "undefined"] *)
Variable window_defined : bool.

(** ** The interceptors installed by the constructor *)

Definition request_interceptor (cfg : config) : M config :=
  let* token := localStorage_getItem (js "auth_token") in
  match token with
  | Some (c :: t) =>
      console_log [CStr (outbox ++ js " Attaching token to:"); CStr (cfg_url cfg)] ;;
      ret (mkConfig (cfg_baseURL cfg) (cfg_timeout cfg) (cfg_verb cfg) (cfg_url cfg)
             (cfg_data cfg) (Some (js "Bearer " ++ c :: t)))
  | _ =>
      console_log [CStr (outbox ++ js " No token, using cookies for:"); CStr (cfg_url cfg)] ;;
      ret cfg
  end.

Definition response_fulfilled (cfg : config) (status : Z) (data : jsval) : M jsval :=
  console_log [CStr (check_mark ++ js " Response from:");
               CStr (cfg_url cfg); CVal (JNum status)] ;;
  ret data.

Definition error_status (e : exn) : option Z :=
  match e with
  | AxiosError status _ _ => status
  | _ => None
  end.

(** [error.response?.status === n] *)
Definition status_is (e : exn) (n : Z) : bool :=
  match error_status e with
  | Some status => status =? n
  | None => false
  end.

Definition error_message (e : exn) : jsval :=
  match e with
  | AxiosError _ _ message => JStr message
  | NetworkError message => JStr message
  | Error message => JStr message
  | TypeError _ | SyntaxError => JUndefined
  end.

Definition status_value (status : option Z) : jsval :=
  match status with
  | Some n => JNum n
  | None => JUndefined
  end.

Definition response_rejected {A} (cfg : config) (error : exn) : M A :=
  console_error
    [CStr (cross_mark ++ js " API Error:");
     CVal (JObj [(js "url", JStr (cfg_url cfg));
                 (js "status", status_value (error_status error));
                 (js "message", error_message error)])] ;;
  (if status_is error 401 then
     console_error [CStr (no_entry ++ js " 401 Unauthorized - redirecting to login")] ;;
     localStorage_removeItem (js "auth_token") ;;
     localStorage_removeItem (js "user") ;;
     try_catch (lift sessionExpired)
       (fun _ => console_log [CStr (js "Could not show session expired alert")]) ;;
     if window_defined then set_location_href (js "/login") else ret tt
   else ret tt) ;;
  throw error.

(** ** One request through the client: request interceptor, adapter, status
    validation, response interceptor. Yields [response.data]. *)

Definition request (v : verb) (url : jsstring) (data : jsval) : M jsval :=
  let* cfg := request_interceptor
                (mkConfig API_BASE_URL API_TIMEOUT v url data None) in
  match adapter cfg with
  | HttpResponse status body =>
      if validateStatus status then response_fulfilled cfg status body
      else response_rejected cfg
             (AxiosError (Some status) body
                (js "Request failed with status code " ++ ToString (JNum status)))
  | HttpFailure message =>
      response_rejected cfg (AxiosError None JUndefined message)
  end.

(** The configuration the adapter receives for a request issued in the
    browser state [b]: the request interceptor only reads the stored token. *)
Definition sent_config (b : Browser) (v : verb) (url : jsstring) (data : jsval)
    : config :=
  mkConfig API_BASE_URL API_TIMEOUT v url data
    match localStorage b !! js "auth_token" with
    | Some (c :: t) => Some (js "Bearer " ++ c :: t)
    | _ => None
    end.

(** [catch (error) { console.error(label, error); throw error; }] *)
Definition log_and_rethrow {A} (label : jsstring) (error : exn) : M A :=
  console_error [CStr label; CExn error] ;;
  throw error.

(** ** The methods *)

Definition health_down : jsval :=
  JObj [(js "status", JStr (js "down"));
        (js "service", JStr (js "todo-app-backend"))].

Definition getHealth : M jsval :=
  try_catch
    (let* body := request GET (js "/health") JUndefined in
     lift (get_prop body (js "data")))
    (fun error =>
       console_error [CStr (js "Health check failed:"); CExn error] ;;
       ret health_down).

Definition getTasks : M jsval :=
  try_catch
    (let* body := request GET (js "/tasks") JUndefined in
     let* data := lift (get_prop body (js "data")) in
     ret (js_or data (JArr [])))
    (log_and_rethrow (js "Failed to fetch tasks:")).

Definition getTask (id : jsstring) : M jsval :=
  try_catch
    (let* body := request GET (js "/tasks/" ++ id) JUndefined in
     lift (get_prop body (js "data")))
    (log_and_rethrow (js "Failed to fetch task " ++ id ++ js ":")).

(** [...(x && { x })] for an optional string argument *)
Definition spread_string (name : jsstring) (x : option jsstring) : list (jsstring * jsval) :=
  match x with
  | Some (c :: s) => [(name, JStr (c :: s))]
  | _ => []
  end.

(** [...(tags && tags.length > 0 && { tags })] *)
Definition spread_tags (tags : option (list jsstring)) : list (jsstring * jsval) :=
  match tags with
  | Some (t :: ts) => [(js "tags", JArr (List.map JStr (t :: ts)))]
  | _ => []
  end.

Definition createTask_payload (title : jsstring) (description due_date : option jsstring)
    (tags : option (list jsstring)) : jsval :=
  JObj ((js "title", JStr title)
          :: spread_string (js "description") description
          ++ spread_string (js "due_date") due_date
          ++ spread_tags tags).

Definition createTask (title : jsstring) (description due_date : option jsstring)
    (tags : option (list jsstring)) : M jsval :=
  try_catch
    (let* body := request POST (js "/tasks")
                    (createTask_payload title description due_date tags) in
     lift (get_prop body (js "data")))
    (log_and_rethrow (js "Failed to create task:")).

Definition updateTask (id : jsstring) (updates : jsval) : M jsval :=
  try_catch
    (let* body := request PUT (js "/tasks/" ++ id) updates in
     lift (get_prop body (js "data")))
    (log_and_rethrow (js "Failed to update task " ++ id ++ js ":")).

Definition completeTask (id : jsstring) : M jsval :=
  try_catch
    (let* body := request PATCH (js "/tasks/" ++ id ++ js "/complete") JUndefined in
     lift (get_prop body (js "data")))
    (log_and_rethrow (js "Failed to complete task " ++ id ++ js ":")).

Definition incompleteTask (id : jsstring) : M jsval :=
  try_catch
    (let* body := request PATCH (js "/tasks/" ++ id ++ js "/incomplete") JUndefined in
     lift (get_prop body (js "data")))
    (log_and_rethrow (js "Failed to mark task incomplete " ++ id ++ js ":")).

Definition deleteTask (id : jsstring) : M jsval :=
  try_catch
    (request DELETE (js "/tasks/" ++ id) JUndefined ;;
     ret JUndefined)
    (log_and_rethrow (js "Failed to delete task " ++ id ++ js ":")).

(** [if (x) params.append(name, x)] *)
Definition append_if (name : jsstring) (x : option jsstring) : list (jsstring * jsstring) :=
  match x with
  | Some (c :: s) => [(name, c :: s)]
  | _ => []
  end.

Definition history_url (page limit : option Z) (taskId actionType : option jsstring)
    : jsstring :=
  let page := default 1 page in
  let limit := default 10 limit in
  let params :=
    [(js "page", ToString (JNum page)); (js "limit", ToString (JNum limit))]
      ++ append_if (js "task_id") taskId
      ++ append_if (js "action_type") actionType in
  js "/history?" ++ URLSearchParams_toString params.

Definition getHistory (page limit : option Z) (taskId actionType : option jsstring)
    : M jsval :=
  try_catch
    (let* body := request GET (history_url page limit taskId actionType)
                    JUndefined in
     let* data := lift (get_prop body (js "data")) in
     let* backendPagination := lift (get_prop data (js "pagination")) in
     let* success := lift (get_prop body (js "success")) in
     let* items := lift (get_prop data (js "items")) in
     let* current_page := lift (get_prop backendPagination (js "current_page")) in
     let* page_size := lift (get_prop backendPagination (js "page_size")) in
     let* total_count := lift (get_prop backendPagination (js "total_count")) in
     let* total_pages := lift (get_prop backendPagination (js "total_pages")) in
     let* has_next := lift (get_prop backendPagination (js "has_next")) in
     let* has_prev := lift (get_prop backendPagination (js "has_prev")) in
     let* popup := lift (get_prop body (js "popup")) in
     let* error := lift (get_prop body (js "error")) in
     ret (JObj [(js "success", success);
                (js "data", items);
                (js "pagination",
                  JObj [(js "page", current_page);
                        (js "limit", page_size);
                        (js "total_count", total_count);
                        (js "total_pages", total_pages);
                        (js "has_next", has_next);
                        (js "has_prev", has_prev)]);
                (js "popup", popup);
                (js "error", error)]))
    (log_and_rethrow (js "Failed to fetch history:")).

Definition deleteHistoryEntry (historyId : jsstring) : M jsval :=
  try_catch
    (request DELETE (js "/history/" ++ historyId) JUndefined ;;
     ret JUndefined)
    (log_and_rethrow (js "Failed to delete history entry " ++ historyId ++ js ":")).

Definition getWeeklyStats : M jsval :=
  try_catch
    (let* body := request GET (js "/stats/weekly") JUndefined in
     lift (get_prop body (js "data")))
    (log_and_rethrow (js "Failed to fetch weekly stats:")).

Definition notifications_url (unreadOnly : option bool) : jsstring :=
  let unreadOnly := default false unreadOnly in
  let params := if unreadOnly then [(js "unread", js "true")] else [] in
  js "/notifications?" ++ URLSearchParams_toString params.

Definition getNotifications (unreadOnly : option bool) : M jsval :=
  try_catch
    (request GET (notifications_url unreadOnly) JUndefined)
    (log_and_rethrow (js "Failed to fetch notifications:")).

Definition markNotificationAsRead (notificationId : jsstring) : M jsval :=
  try_catch
    (let* body := request PATCH (js "/notifications/" ++ notificationId ++ js "/read")
                    JUndefined in
     let* data := lift (get_prop body (js "data")) in
     ret (js_or data body))
    (log_and_rethrow
       (js "Failed to mark notification " ++ notificationId ++ js " as read:")).

Definition markAllNotificationsAsRead : M jsval :=
  try_catch
    (let* body := request PATCH (js "/notifications/mark-all-read") JUndefined in
     lift (get_prop body (js "data")))
    (log_and_rethrow (js "Failed to mark all notifications as read:")).

Definition getUnreadCount : M jsval :=
  try_catch
    (let* body := request GET (js "/notifications/unread/count") JUndefined in
     let* data := lift (get_prop body (js "data")) in
     lift (get_prop data (js "count")))
    (log_and_rethrow (js "Failed to get unread count:")).

End WithEnvironment.

(** ** Every way of calling the client *)

Inductive call : Type :=
| GetHealth
| GetTasks
| GetTask (id : jsstring)
| CreateTask (title : jsstring) (description due_date : option jsstring)
             (tags : option (list jsstring))
| UpdateTask (id : jsstring) (updates : jsval)
| CompleteTask (id : jsstring)
| IncompleteTask (id : jsstring)
| DeleteTask (id : jsstring)
| GetHistory (page limit : option Z) (taskId actionType : option jsstring)
| DeleteHistoryEntry (historyId : jsstring)
| GetWeeklyStats
| GetNotifications (unreadOnly : option bool)
| MarkNotificationAsRead (notificationId : jsstring)
| MarkAllNotificationsAsRead
| GetUnreadCount.

(** The client-facing pagination the spec asks for, read off the backend's
    pagination metadata. *)
Definition expected_pagination (backend : jsval) : jsval :=
  JObj [(js "page", prop backend (js "current_page"));
        (js "limit", prop backend (js "page_size"));
        (js "total_count", prop backend (js "total_count"));
        (js "total_pages", prop backend (js "total_pages"));
        (js "has_next", prop backend (js "has_next"));
        (js "has_prev", prop backend (js "has_prev"))].

(** The paginated envelope [getHistory] is to return for a response body. *)
Definition expected_history (body : jsval) : jsval :=
  JObj [(js "success", prop body (js "success"));
        (js "data", prop (prop body (js "data")) (js "items"));
        (js "pagination",
          expected_pagination (prop (prop body (js "data")) (js "pagination")));
        (js "popup", prop body (js "popup"));
        (js "error", prop body (js "error"))].

(** The one request a call issues, and the label it logs a failure under. *)
Definition call_request `{Platform} (c : call) : verb * jsstring * jsval :=
  match c with
  | GetHealth => (GET, js "/health", JUndefined)
  | GetTasks => (GET, js "/tasks", JUndefined)
  | GetTask id => (GET, js "/tasks/" ++ id, JUndefined)
  | CreateTask title description due_date tags =>
      (POST, js "/tasks", createTask_payload title description due_date tags)
  | UpdateTask id updates => (PUT, js "/tasks/" ++ id, updates)
  | CompleteTask id => (PATCH, js "/tasks/" ++ id ++ js "/complete", JUndefined)
  | IncompleteTask id => (PATCH, js "/tasks/" ++ id ++ js "/incomplete", JUndefined)
  | DeleteTask id => (DELETE, js "/tasks/" ++ id, JUndefined)
  | GetHistory page limit taskId actionType =>
      (GET, history_url page limit taskId actionType, JUndefined)
  | DeleteHistoryEntry historyId => (DELETE, js "/history/" ++ historyId, JUndefined)
  | GetWeeklyStats => (GET, js "/stats/weekly", JUndefined)
  | GetNotifications unreadOnly => (GET, notifications_url unreadOnly, JUndefined)
  | MarkNotificationAsRead notificationId =>
      (PATCH, js "/notifications/" ++ notificationId ++ js "/read", JUndefined)
  | MarkAllNotificationsAsRead => (PATCH, js "/notifications/mark-all-read", JUndefined)
  | GetUnreadCount => (GET, js "/notifications/unread/count", JUndefined)
  end.

Definition call_label (c : call) : jsstring :=
  match c with
  | GetHealth => js "Health check failed:"
  | GetTasks => js "Failed to fetch tasks:"
  | GetTask id => js "Failed to fetch task " ++ id ++ js ":"
  | CreateTask _ _ _ _ => js "Failed to create task:"
  | UpdateTask id _ => js "Failed to update task " ++ id ++ js ":"
  | CompleteTask id => js "Failed to complete task " ++ id ++ js ":"
  | IncompleteTask id => js "Failed to mark task incomplete " ++ id ++ js ":"
  | DeleteTask id => js "Failed to delete task " ++ id ++ js ":"
  | GetHistory _ _ _ _ => js "Failed to fetch history:"
  | DeleteHistoryEntry historyId =>
      js "Failed to delete history entry " ++ historyId ++ js ":"
  | GetWeeklyStats => js "Failed to fetch weekly stats:"
  | GetNotifications _ => js "Failed to fetch notifications:"
  | MarkNotificationAsRead notificationId =>
      js "Failed to mark notification " ++ notificationId ++ js " as read:"
  | MarkAllNotificationsAsRead => js "Failed to mark all notifications as read:"
  | GetUnreadCount => js "Failed to get unread count:"
  end.

(** The adapter's answer to the request of call [c] issued in state [b]. *)
Definition answer `{Platform} (adapter : config -> http_result) (b : Browser)
    (c : call) : http_result :=
  let '(v, url, data) := call_request c in
  adapter (sent_config b v url data).

(** The AxiosError a failed exchange is rejected with. *)
Definition failure_of `{Platform} (r : http_result) : option exn :=
  match r with
  | HttpResponse status body =>
      if validateStatus status then None
      else Some (AxiosError (Some status) body
                   (js "Request failed with status code " ++ ToString (JNum status)))
  | HttpFailure message => Some (AxiosError None JUndefined message)
  end.

Definition run `{Platform} (adapter : config -> http_result)
    (sessionExpired : outcome unit) (window_defined : bool) (c : call) : M jsval :=
  match c with
  | GetHealth => getHealth adapter sessionExpired window_defined
  | GetTasks => getTasks adapter sessionExpired window_defined
  | GetTask id => getTask adapter sessionExpired window_defined id
  | CreateTask title description due_date tags =>
      createTask adapter sessionExpired window_defined title description due_date tags
  | UpdateTask id updates => updateTask adapter sessionExpired window_defined id updates
  | CompleteTask id => completeTask adapter sessionExpired window_defined id
  | IncompleteTask id => incompleteTask adapter sessionExpired window_defined id
  | DeleteTask id => deleteTask adapter sessionExpired window_defined id
  | GetHistory page limit taskId actionType =>
      getHistory adapter sessionExpired window_defined page limit taskId actionType
  | DeleteHistoryEntry historyId =>
      deleteHistoryEntry adapter sessionExpired window_defined historyId
  | GetWeeklyStats => getWeeklyStats adapter sessionExpired window_defined
  | GetNotifications unreadOnly =>
      getNotifications adapter sessionExpired window_defined unreadOnly
  | MarkNotificationAsRead notificationId =>
      markNotificationAsRead adapter sessionExpired window_defined notificationId
  | MarkAllNotificationsAsRead =>
      markAllNotificationsAsRead adapter sessionExpired window_defined
  | GetUnreadCount => getUnreadCount adapter sessionExpired window_defined
  end.

End ApiClient.

(* ====================================================================== *)
(** * Tasks *)
(* ====================================================================== *)

(** Modelled from the spec: types/task.types is not among the sources. The
    status and priority enumerations are the ones of the data model
    ([NOT_STARTED|IN_PROGRESS|COMPLETED], [LOW|MEDIUM|HIGH|VERY_IMPORTANT]);
    the fields are those TaskForm.tsx writes and page.tsx reads. *)
Module TaskTypes.

Inductive TaskStatus : Type := NOT_STARTED | IN_PROGRESS | COMPLETED.

Inductive Priority : Type := LOW | MEDIUM | HIGH | VERY_IMPORTANT.

Record Task : Type := mkTask {
  id : jsstring;
  title : jsstring;
  description : option jsstring;
  dueDate : option jsstring;
  priority : Priority;
  status : TaskStatus;
  tags : option (list jsstring);
  createdAt : jsstring;
  updatedAt : jsstring;
}.

Definition TaskStatus_eqb (a b : TaskStatus) : bool :=
  match a, b with
  | NOT_STARTED, NOT_STARTED | IN_PROGRESS, IN_PROGRESS | COMPLETED, COMPLETED => true
  | _, _ => false
  end.

End TaskTypes.
Export TaskTypes.

(* ====================================================================== *)
(** * app/tasks/page.tsx *)
(* ====================================================================== *)

Module TasksPage.

Section WithHooks.

Context `{Platform}.

(** The state types and the derived lists of the hooks [useFilters] and
    [useSort], which are not among the sources. *)
Variables FilterState SortState : Type.
Variable useFilters_filteredTasks : FilterState -> list Task -> list Task.
Variable useSort_sortedTasks : SortState -> list Task -> list Task.

(** The callback of [sortedTasks.filter(...)]. *)
Definition search_matches (searchQuery : jsstring) (task : Task) : bool :=
  match trim searchQuery with
  | [] => true
  | _ :: _ =>
      let query := toLowerCase searchQuery in
      includes (toLowerCase (title task)) query
      || match description task with
         | Some d => includes (toLowerCase d) query
         | None => false
         end
      || match tags task with
         | Some ts => existsb (fun tag => includes (toLowerCase tag) query) ts
         | None => false
         end
  end.

(** The three lists one render of the page computes. *)
Record view : Type := mkView {
  filteredTasks : list Task;
  sortedTasks : list Task;
  searchedTasks : list Task;
}.

Definition render (tasks : list Task) (filterState : FilterState)
    (sortState : SortState) (searchQuery : jsstring) : view :=
  let filteredTasks := useFilters_filteredTasks filterState tasks in
  let sortedTasks := useSort_sortedTasks sortState filteredTasks in
  let searchedTasks := List.filter (search_matches searchQuery) sortedTasks in
  mkView filteredTasks sortedTasks searchedTasks.

(** ** What the search is to find *)

(** [q] occurs in [s] as a run of consecutive code units. *)
Definition occurs_in (q s : jsstring) : Prop :=
  exists before after, s = before ++ q ++ after.

(** The lower-cased query occurs in the lower-cased title, description or
    one of the tags of the task. *)
Definition found_in (searchQuery : jsstring) (task : Task) : Prop :=
  occurs_in (toLowerCase searchQuery) (toLowerCase (title task))
  \/ (exists d, description task = Some d
                /\ occurs_in (toLowerCase searchQuery) (toLowerCase d))
  \/ (exists ts tag, tags task = Some ts /\ In tag ts
                     /\ occurs_in (toLowerCase searchQuery) (toLowerCase tag)).

End WithHooks.

End TasksPage.

(* ====================================================================== *)
(** * components/tasks/TaskForm.tsx *)
(* ====================================================================== *)

Module TaskForm.

(** The result of [validateSingleTag]. *)
Record ValidationResult : Type := mkValidation {
  valid : bool;
  errors_of : list jsstring;
}.

(** The component's state hooks. *)
Record FormState : Type := mkForm {
  title : jsstring;
  description : jsstring;
  tags : list jsstring;
  tagInput : jsstring;
  showTagSuggestions : bool;
  errors : gmap jsstring jsval;
}.

Section WithProps.

(** The [task] prop: the task being edited, if any. *)
Variable task : option Task.

(** [classifyPriority({ title, dueDate: undefined })] of
    lib/skills/priority-classification, which is not among the sources. *)
Variable classifyPriority : jsstring -> Priority.

(** What [crypto.randomUUID()] and the two [new Date().toISOString()] of a
    submission evaluate to. *)
Variable randomUUID : jsstring.
Variables createdAt_now updatedAt_now : jsstring.

(** The wording of the two rejections of [validateSingleTag]. *)
Variables tag_limit_message tag_duplicate_message : jsstring.

Definition isEditMode : bool :=
  match task with Some _ => true | None => false end.

(** [x || fallback] on strings *)
Definition or_else (x : option jsstring) (fallback : jsstring) : jsstring :=
  match x with
  | Some (c :: s) => c :: s
  | _ => fallback
  end.

Definition initial_state : FormState :=
  mkForm (or_else (TaskTypes.title <$> task) [])
         (or_else (task ≫= TaskTypes.description) [])
         (default [] (task ≫= TaskTypes.tags))
         [] false ∅.

Definition validateForm (st : FormState) : FormState * bool :=
  let newErrors : gmap jsstring jsval := ∅ in
  let trimmedTitle := trim (title st) in
  let newErrors :=
    match trimmedTitle with
    | [] => <[js "title" := JStr (js "Title is required")]> newErrors
    | _ :: _ =>
        if (200 <? length trimmedTitle)%nat
        then <[js "title" := JStr (js "Title must be 200 characters or less")]> newErrors
        else newErrors
    end in
  let newErrors :=
    if (2000 <? length (description st))%nat
    then <[js "description" := JStr (js "Description must be 2000 characters or less")]>
           newErrors
    else newErrors in
  (mkForm (title st) (description st) (tags st) (tagInput st)
     (showTagSuggestions st) newErrors,
   (size newErrors =? 0)%nat).

(** The second component is the argument [onSubmit] is called with, if it is
    called. *)
Definition handleSubmit (st : FormState) : FormState * option Task :=
  let '(st1, ok) := validateForm st in
  if negb ok then (st1, None)
  else
    let trimmedTitle := trim (title st) in
    let trimmedDescription := trim (description st) in
    let priority := classifyPriority trimmedTitle in
    let newTask :=
      mkTask (or_else (id <$> task) randomUUID)
             trimmedTitle
             (match trimmedDescription with [] => None | _ :: _ => Some trimmedDescription end)
             None
             priority
             (default NOT_STARTED (status <$> task))
             (Some (tags st))
             (or_else (createdAt <$> task) createdAt_now)
             updatedAt_now in
    (if isEditMode then st1
     else mkForm [] [] [] (tagInput st1) (showTagSuggestions st1) ∅,
     Some newTask).

(** Modelled from the spec: lib/skills/task-tagging is not among the
    sources. "Tag selection never exceeds 5 entries; duplicate tags
    rejected": a tag already selected is refused, and so is any tag once
    five are selected; every other tag is accepted. *)
Definition validateSingleTag (selected : list jsstring) (tag : jsstring) : ValidationResult :=
  if bool_decide (tag ∈ selected) then mkValidation false [tag_duplicate_message]
  else if (5 <=? length selected)%nat then mkValidation false [tag_limit_message]
  else mkValidation true [].

(** [validation.errors[0]] *)
Definition first_error (v : ValidationResult) : jsval :=
  match errors_of v with
  | e :: _ => JStr e
  | [] => JUndefined
  end.

Definition handleAddTag (st : FormState) (tag : jsstring) : FormState :=
  let validation := validateSingleTag (tags st) tag in
  if negb (valid validation) then
    mkForm (title st) (description st) (tags st) (tagInput st)
      (showTagSuggestions st) (<[js "tags" := first_error validation]> (errors st))
  else
    mkForm (title st) (description st) (tags st ++ [tag]) []
      false (<[js "tags" := JStr []]> (errors st)).

Definition handleRemoveTag (st : FormState) (tagToRemove : jsstring) : FormState :=
  mkForm (title st) (description st)
    (List.filter (fun t => negb (jsstring_eqb t tagToRemove)) (tags st))
    (tagInput st) (showTagSuggestions st) (<[js "tags" := JStr []]> (errors st)).

(** [{tags.length < 5 && ( ...tag input... )}] *)
Definition tag_input_offered (st : FormState) : bool :=
  (length (tags st) <? 5)%nat.

(** The invariant of the tag list: at most five tags, no tag twice. *)
Definition tags_ok (st : FormState) : Prop :=
  (length (tags st) <= 5)%nat /\ NoDup (tags st).

(** ** Sequences of tag operations *)

Inductive tag_op : Type :=
| AddTag (tag : jsstring)
| RemoveTag (tag : jsstring).

Definition apply_op (st : FormState) (op : tag_op) : FormState :=
  match op with
  | AddTag tag => handleAddTag st tag
  | RemoveTag tag => handleRemoveTag st tag
  end.

Definition apply_ops (st : FormState) (ops : list tag_op) : FormState :=
  fold_left apply_op ops st.

End WithProps.

End TaskForm.

(* ====================================================================== *)
(** * A reference runtime *)
(* ====================================================================== *)

(** An executable stand-in for the runtime functions, exact on the ASCII
    inputs of the examples below; it serves to run the services on concrete
    inputs. *)
Module Reference.

Definition decimal (n : Z) : jsstring :=
  js (DecimalString.NilZero.string_of_int (Z.to_int n)).

Fixpoint join (sep : jsstring) (parts : list jsstring) : jsstring :=
  match parts with
  | [] => []
  | [x] => x
  | x :: rest => x ++ sep ++ join sep rest
  end.

Definition quote (s : jsstring) : jsstring := 34%N :: s ++ [34%N].

Fixpoint stringify (v : jsval) : jsstring :=
  match v with
  | JUndefined => js "undefined"
  | JNull => js "null"
  | JBool true => js "true"
  | JBool false => js "false"
  | JNum n => decimal n
  | JStr s => quote s
  | JArr xs => js "[" ++ join (js ",") (List.map stringify xs) ++ js "]"
  | JObj fields =>
      js "{"
        ++ join (js ",")
             (List.map (fun kv => quote (fst kv) ++ js ":" ++ stringify (snd kv)) fields)
        ++ js "}"
  end.

(** [String(v)]: an object reads [[object Object]], an array joins the
    string forms of its elements, [null] and [undefined] among them as the
    empty string. *)
Fixpoint to_string (v : jsval) : jsstring :=
  match v with
  | JStr s => s
  | JObj _ => js "[object Object]"
  | JArr xs =>
      join (js ",")
        (List.map (fun x => match x with
                            | JUndefined | JNull => []
                            | _ => to_string x
                            end) xs)
  | _ => stringify v
  end.

Definition parse_date (s : jsstring) : option Z :=
  if jsstring_eqb s epoch_literal then Some 0 else None.

Definition platform : Platform := {|
  Date_toUTCString := fun t => js "@" ++ decimal t;
  Date_parse := parse_date;
  JSON_stringify := stringify;
  ToString := to_string;
  toLowerCase := List.map ascii_lower;
  URLSearchParams_toString :=
    fun params => join (js "&") (List.map (fun kv => fst kv ++ js "=" ++ snd kv) params);
|}.

End Reference.

(* ====================================================================== *)
(** * Concrete browsers, servers and tasks *)
(* ====================================================================== *)

Module Examples.

Import AuthApi ApiClient.

(** A signed-in browser on the task page, in November 2023. *)
Definition signed_in : Browser :=
  mkBrowser
    (<[js "auth_token" := js "abc123"]> (<[js "user" := js "{}"]> ∅))
    (<[js "auth_token" := js "abc123"]> ∅)
    [] (js "/tasks") [] 1700000000000.

(** A browser without a session, on the login page. *)
Definition signed_out : Browser :=
  mkBrowser ∅ ∅ [] (js "/login") [] 1700000000000.

(** Servers behind [fetch]. *)
Definition unauthorized (req : AuthApi.request) : fetch_result :=
  FetchResponse 401 (Returned (JObj [(js "detail", JStr (js "Not authenticated"))])).

Definition offline (req : AuthApi.request) : fetch_result :=
  FetchRejected (NetworkError (js "Failed to fetch")).

Definition session_response : jsval :=
  JObj [(js "token", JStr (js "abc123"));
        (js "user", JObj [(js "email", JStr (js "ada@example.com"))])].

Definition issues_token (req : AuthApi.request) : fetch_result :=
  FetchResponse 200 (Returned session_response).

(** Servers behind the axios adapter. *)
Definition unreachable (cfg : config) : http_result :=
  HttpFailure (js "Network Error").

Definition answers_401 (cfg : config) : http_result :=
  HttpResponse 401 (JObj [(js "detail", JStr (js "Not authenticated"))]).

Definition backend_pagination : jsval :=
  JObj [(js "current_page", JNum 2); (js "page_size", JNum 10);
        (js "total_count", JNum 25); (js "total_pages", JNum 3);
        (js "has_next", JBool true); (js "has_prev", JBool true)].

Definition history_body : jsval :=
  JObj [(js "success", JBool true);
        (js "data", JObj [(js "items", JArr []); (js "pagination", backend_pagination)]);
        (js "popup", JNull);
        (js "error", JNull)].

Definition serves_history (cfg : config) : http_result :=
  HttpResponse 200 history_body.

(** The two tasks of the composition example. *)
Definition buy_milk : Task :=
  mkTask (js "a") (js "Buy milk") None None LOW COMPLETED (Some [])
    (js "2023-11-14T22:13:20.000Z") (js "2023-11-14T22:13:20.000Z").

Definition write_report : Task :=
  mkTask (js "b") (js "Write report") None None LOW NOT_STARTED (Some [])
    (js "2023-11-14T22:13:20.000Z") (js "2023-11-14T22:13:20.000Z").

(** Stand-ins for the two hooks: keep the tasks of one status (or all), and
    keep or reverse the order. *)
Definition filter_by_status (wanted : option TaskStatus) (tasks : list Task) : list Task :=
  match wanted with
  | Some s => List.filter (fun t => TaskStatus_eqb (status t) s) tasks
  | None => tasks
  end.

Definition order_by_direction (descending : bool) (tasks : list Task) : list Task :=
  if descending then rev tasks else tasks.

(** The empty create form. *)
Definition empty_form : TaskForm.FormState := TaskForm.initial_state None.

End Examples.

(* ====================================================================== *)
(** * services/authApi.ts: reading the token back from the cookie *)
(* ====================================================================== *)

Module CookieReader.

(** The loop of [getTokenFromCookie] over the pieces of
    [document.cookie.split(';')]: [const [name, value] =
    cookie.trim().split('=')], and the first piece named auth_token decides.
    A piece without any '=' has [value] undefined. *)
Fixpoint scan_cookies (cookies : list jsstring) : jsval :=
  match cookies with
  | [] => JNull
  | cookie :: rest =>
      match split_on equals_sign (trim cookie) with
      | name :: more =>
          if jsstring_eqb name (js "auth_token") then
            match more with
            | value :: _ => JStr value
            | [] => JUndefined
            end
          else scan_cookies rest
      | [] => scan_cookies rest
      end
  end.

(** [getTokenFromCookie()], as a function of what [document.cookie] reads. *)
Definition getTokenFromCookie (document_cookie : jsstring) : jsval :=
  scan_cookies (split_on semicolon document_cookie).

(** What [document.cookie] reads for a list of cookies: [name=value] pairs
    joined by a semicolon and a space. *)
Fixpoint cookie_string (pairs : list (jsstring * jsstring)) : jsstring :=
  match pairs with
  | [] => []
  | [(name, value)] => name ++ equals_sign :: value
  | (name, value) :: rest =>
      name ++ equals_sign :: value ++ semicolon :: 32%N :: cookie_string rest
  end.

(** The value of the first cookie with the given name. *)
Fixpoint first_named (name : jsstring) (pairs : list (jsstring * jsstring))
    : option jsstring :=
  match pairs with
  | [] => None
  | (n, v) :: rest => if jsstring_eqb n name then Some v else first_named name rest
  end.

(** A cookie name holds no semicolon, no equals sign and no whitespace; a
    cookie value holds no semicolon and no whitespace. *)
Definition name_char (c : N) : bool :=
  negb (c =? semicolon)%N && negb (c =? equals_sign)%N && negb (is_whitespace c).

Definition value_char (c : N) : bool :=
  negb (c =? semicolon)%N && negb (is_whitespace c).

Definition well_formed (pair : jsstring * jsstring) : bool :=
  forallb name_char (fst pair) && forallb value_char (snd pair).

End CookieReader.

(* ====================================================================== *)
(** * services/authApi.ts: how an exchange fails *)
(* ====================================================================== *)

Module AuthFailure.

Import AuthApi.

(** The exchange did not end in an ok response with a parsed body. *)
Definition exchange_failed (r : fetch_result) : Prop :=
  match r with
  | FetchResponse status (Returned _) => response_ok status = false
  | _ => True
  end.

(** What a failed exchange makes the caller throw: the rejection of
    [fetch], the error of [response.json()], and for a parsed body
    [new Error(data.detail || fallback)], whose message is the string form
    of its argument; reading [detail] of a [null] body is a TypeError. *)
Definition failure_thrown `{Platform} (r : fetch_result) (fallback : jsstring) : exn :=
  match r with
  | FetchRejected e => e
  | FetchResponse _ (Thrown e) => e
  | FetchResponse _ (Returned data) =>
      if nullish data then TypeError (js "detail")
      else Error (ToString (js_or (prop data (js "detail")) (JStr fallback)))
  end.

(** ** The four calls of the service that talk to the server *)

Inductive auth_call : Type :=
| Signup (email password : jsstring)
| Login (email password : jsstring)
| Logout
| GetCurrentUser.

Definition auth_run `{Platform} (NEXT_PUBLIC_API_URL : option jsstring)
    (network : request -> fetch_result) (c : auth_call) : M jsval :=
  match c with
  | Signup email password => signup NEXT_PUBLIC_API_URL network email password
  | Login email password => login NEXT_PUBLIC_API_URL network email password
  | Logout => logout NEXT_PUBLIC_API_URL network
  | GetCurrentUser => getCurrentUser NEXT_PUBLIC_API_URL network
  end.

(** The request the call hands to [fetch] in the browser state [b]. *)
Definition auth_request `{Platform} (NEXT_PUBLIC_API_URL : option jsstring)
    (b : Browser) (c : auth_call) : request :=
  match c with
  | Signup email password => signup_request NEXT_PUBLIC_API_URL email password
  | Login email password => login_request NEXT_PUBLIC_API_URL email password
  | Logout => logout_request NEXT_PUBLIC_API_URL (localStorage b !! js "auth_token")
  | GetCurrentUser => me_request NEXT_PUBLIC_API_URL (localStorage b !! js "auth_token")
  end.

(** The message the call falls back to when the body has no [detail]. *)
Definition auth_fallback (c : auth_call) : jsstring :=
  match c with
  | Signup _ _ => js "Signup failed. Please try again."
  | Login _ _ => js "Login failed. Please try again."
  | Logout => js "Logout failed. Please try again."
  | GetCurrentUser => js "Session validation failed."
  end.

End AuthFailure.

(* ====================================================================== *)
(** * app/tasks/page.tsx: the counters and the edit handler *)
(* ====================================================================== *)

Module TasksPageStats.

(** [tasks.filter(t => t.status === 'COMPLETED').length] *)
Definition completedTasks (tasks : list Task) : nat :=
  length (List.filter (fun t => TaskStatus_eqb (status t) COMPLETED) tasks).

(** [tasks.length - completedTasks], a subtraction of numbers *)
Definition incompleteTasks (tasks : list Task) : Z :=
  Z.of_nat (length tasks) - Z.of_nat (completedTasks tasks).

Definition is_urgent (t : Task) : bool :=
  match priority t with
  | VERY_IMPORTANT | HIGH => true
  | _ => false
  end.

(** [tasks.filter(t => t.priority === 'VERY_IMPORTANT' || t.priority === 'HIGH').length] *)
Definition urgentTasks (tasks : list Task) : nat :=
  length (List.filter is_urgent tasks).

(** [handleEditTask]: the new value of the [editingTask] state. *)
Definition handleEditTask (tasks : list Task) (editingTask : option Task)
    (taskId : jsstring) : option Task :=
  match List.find (fun t => jsstring_eqb (id t) taskId) tasks with
  | Some task => Some task
  | None => editingTask
  end.

End TasksPageStats.

(* ====================================================================== *)
(** * components/tasks/TaskModal.tsx *)
(* ====================================================================== *)

Module TaskModal.

(** The component's state hooks. *)
Record ModalState : Type := mkModal {
  title : jsstring;
  description : jsstring;
  priority : Priority;
  selectedTags : list jsstring;
  isSubmitting : bool;
  error : jsstring;
}.

(** The object [onSubmit] is called with; its [dueDate] is always
    undefined. *)
Record Submission : Type := mkSubmission {
  submitted_title : jsstring;
  submitted_description : option jsstring;
  submitted_priority : Priority;
  submitted_tags : list jsstring;
}.

(** What one run of [handleSubmit] does besides updating the state. *)
Record Effects : Type := mkEffects {
  (** the argument of the call of [onSubmit], if it is called *)
  onSubmit_called : option Submission;
  (** whether [onClose] is called *)
  onClose_called : bool;
}.

Section WithProps.

(** The [task] prop. *)
Variable task : option Task.

(** How the awaited [onSubmit] settles. *)
Variable onSubmit : Submission -> outcome unit.

(** [err instanceof Error ? err.message : 'Failed to save task'] *)
Variable error_text : exn -> jsstring.

Definition isEditing : bool :=
  match task with Some _ => true | None => false end.

Definition initial_state : ModalState :=
  mkModal
    (match TaskTypes.title <$> task with Some (c :: t) => c :: t | _ => [] end)
    (match task ≫= TaskTypes.description with Some (c :: d) => c :: d | _ => [] end)
    (default MEDIUM (TaskTypes.priority <$> task))
    (default [] (task ≫= TaskTypes.tags))
    false [].

Definition with_error (st : ModalState) (message : jsstring) : ModalState :=
  mkModal (title st) (description st) (priority st) (selectedTags st)
    (isSubmitting st) message.

Definition handleSubmit (st : ModalState) : ModalState * Effects :=
  match trim (title st) with
  | [] => (with_error st (js "Title is required"), mkEffects None false)
  | _ :: _ =>
      if (200 <? length (title st))%nat then
        (with_error st (js "Title must be less than 200 characters"),
         mkEffects None false)
      else if (1000 <? length (description st))%nat then
        (with_error st (js "Description must be less than 1000 characters"),
         mkEffects None false)
      else
        let submission :=
          mkSubmission (trim (title st))
            (match trim (description st) with
             | [] => None
             | c :: d => Some (c :: d)
             end)
            (priority st) (selectedTags st) in
        match onSubmit submission with
        | Returned _ =>
            (mkModal (title st) (description st) (priority st) (selectedTags st)
               false [],
             mkEffects (Some submission) true)
        | Thrown err =>
            (mkModal (title st) (description st) (priority st) (selectedTags st)
               false (error_text err),
             mkEffects (Some submission) false)
        end
  end.

(** [prev.includes(tag) ? prev.filter((t) => t !== tag) : [...prev, tag]] *)
Definition toggle (prev : list jsstring) (tag : jsstring) : list jsstring :=
  if existsb (fun t => jsstring_eqb t tag) prev
  then List.filter (fun t => negb (jsstring_eqb t tag)) prev
  else prev ++ [tag].

Definition toggleTag (st : ModalState) (tag : jsstring) : ModalState :=
  mkModal (title st) (description st) (priority st) (toggle (selectedTags st) tag)
    (isSubmitting st) (error st).

(** [disabled={!isSelected && selectedTags.length >= 5}] of a tag button *)
Definition tag_button_disabled (st : ModalState) (tag : jsstring) : bool :=
  negb (existsb (fun t => jsstring_eqb t tag) (selectedTags st))
  && (5 <=? length (selectedTags st))%nat.

(** A click on the button of [tag]: a disabled button does not fire. *)
Definition click_tag (st : ModalState) (tag : jsstring) : ModalState :=
  if tag_button_disabled st tag then st else toggleTag st tag.

Definition click_tags (st : ModalState) (clicks : list jsstring) : ModalState :=
  fold_left click_tag clicks st.

End WithProps.

(** The invariant of the selected tags: at most five, no tag twice. *)
Definition selection_ok (st : ModalState) : Prop :=
  (length (selectedTags st) <= 5)%nat /\ NoDup (selectedTags st).

End TaskModal.

(* ====================================================================== *)
(** * app/notifications/page.tsx *)
(* ====================================================================== *)

Module NotificationsPage.

Record Notification : Type := mkNotification {
  id : jsstring;
  task_id : jsstring;
  message : jsstring;
  priority : jsstring;
  created_at : jsstring;
  read_at : option jsstring;
}.

Inductive Filter : Type := all | unread | read.

(** [!!n.read_at] *)
Definition is_read (n : Notification) : bool :=
  match read_at n with
  | Some (_ :: _) => true
  | _ => false
  end.

Definition filteredNotifications (filter : Filter) (notifications : list Notification)
    : list Notification :=
  List.filter
    (fun n =>
       match filter with
       | unread => negb (is_read n)
       | read => is_read n
       | all => true
       end)
    notifications.

Section WithPlatform.

Context `{Platform}.

(** [`${n} ${unit}${n > 1 ? 's' : ''} ago`] *)
Definition ago (n : Z) (unit : jsstring) : jsstring :=
  ToString (JNum n) ++ js " " ++ unit ++ (if 1 <? n then js "s" else []) ++ js " ago".

(** [formatTime], on the instants [date = new Date(timestamp).getTime()]
    and [now = new Date().getTime()], both whole milliseconds. [Math.floor]
    of the quotient of two such numbers is the floor division. *)
Definition formatTime (date now : Z) : jsstring :=
  let diffMs := now - date in
  let diffMins := diffMs / 60000 in
  let diffHours := diffMs / 3600000 in
  let diffDays := diffMs / 86400000 in
  if diffMins <? 1 then js "Just now"
  else if diffMins <? 60 then ago diffMins (js "min")
  else if diffHours <? 24 then ago diffHours (js "hr")
  else ago diffDays (js "day").

End WithPlatform.

End NotificationsPage.

(* ====================================================================== *)
(** * Regular expressions, as far as the forms use them *)
(* ====================================================================== *)

Module Regex.

(** A pattern over UTF-16 code units. [Class p] is a character class. *)
Inductive regex : Type :=
| Void
| Eps
| Class (p : N -> bool)
| Seq (r1 r2 : regex)
| Alt (r1 r2 : regex)
| Star (r : regex).

(** [r+] *)
Definition Plus (r : regex) : regex := Seq r (Star r).

Fixpoint nullable (r : regex) : bool :=
  match r with
  | Void => false
  | Eps => true
  | Class _ => false
  | Seq r1 r2 => nullable r1 && nullable r2
  | Alt r1 r2 => nullable r1 || nullable r2
  | Star _ => true
  end.

(** The pattern of what may follow the code unit [c]. *)
Fixpoint deriv (c : N) (r : regex) : regex :=
  match r with
  | Void => Void
  | Eps => Void
  | Class p => if p c then Eps else Void
  | Seq r1 r2 =>
      if nullable r1 then Alt (Seq (deriv c r1) r2) (deriv c r2)
      else Seq (deriv c r1) r2
  | Alt r1 r2 => Alt (deriv c r1) (deriv c r2)
  | Star r1 => Seq (deriv c r1) (Star r1)
  end.

(** [/^r$/.test(s)]: the whole string matches. *)
Definition test (r : regex) (s : jsstring) : bool :=
  nullable (fold_left (fun r c => deriv c r) s r).

(** The strings a pattern denotes. *)
Inductive lang : regex -> jsstring -> Prop :=
| lang_eps : lang Eps []
| lang_class p c : p c = true -> lang (Class p) [c]
| lang_seq r1 r2 s1 s2 : lang r1 s1 -> lang r2 s2 -> lang (Seq r1 r2) (s1 ++ s2)
| lang_alt_l r1 r2 s : lang r1 s -> lang (Alt r1 r2) s
| lang_alt_r r1 r2 s : lang r2 s -> lang (Alt r1 r2) s
| lang_star_nil r : lang (Star r) []
| lang_star_app r s1 s2 : lang r s1 -> lang (Star r) s2 -> lang (Star r) (s1 ++ s2).

End Regex.

(* ====================================================================== *)
(** * components/auth/SignupForm.tsx and LoginForm.tsx *)
(* ====================================================================== *)

Module AuthForms.

Import Regex.

Definition at_sign : N := 64.
Definition full_stop : N := 46.

(** [[^\s@]] *)
Definition not_space_or_at (c : N) : bool :=
  negb (is_whitespace c) && negb (c =? at_sign)%N.

(** [/^[^\s@]+@[^\s@]+\.[^\s@]+$/] *)
Definition EMAIL_REGEX : regex :=
  Seq (Plus (Class not_space_or_at))
    (Seq (Class (N.eqb at_sign))
       (Seq (Plus (Class not_space_or_at))
          (Seq (Class (N.eqb full_stop))
             (Plus (Class not_space_or_at))))).

(** A non-empty run of code units that are neither whitespace nor '@'. *)
Definition segment (s : jsstring) : Prop :=
  s <> [] /\ forallb not_space_or_at s = true.

(** [local@domain.tld], each part a segment (a part may hold full stops). *)
Definition address_shaped (s : jsstring) : Prop :=
  exists local domain tld,
    s = local ++ at_sign :: domain ++ full_stop :: tld
    /\ segment local /\ segment domain /\ segment tld.

Definition MIN_PASSWORD_LENGTH : nat := 8.

(** The same in both forms. The empty string is "no error". *)
Definition validateEmail (email : jsstring) : jsstring :=
  match trim email with
  | [] => js "Email is required"
  | _ :: _ =>
      if negb (test EMAIL_REGEX email) then js "Invalid email format"
      else []
  end.

Record FormData : Type := mkFormData {
  email : jsstring;
  password : jsstring;
}.

(** The state hooks the submit handler writes. *)
Record FormState : Type := mkFormState {
  formData : FormData;
  isLoading : bool;
  errors : option jsstring * option jsstring;
  touched : option bool * option bool;
}.

(** [if (emailError || passwordError) { ...; return; } setIsLoading(true);]
    and then the call of the service: the state at that point and the
    arguments of the call, if it is made. *)
Definition submit (validatePassword : jsstring -> jsstring) (st : FormState)
    : FormState * option (jsstring * jsstring) :=
  let emailError := validateEmail (email (formData st)) in
  let passwordError := validatePassword (password (formData st)) in
  match emailError, passwordError with
  | [], [] =>
      (mkFormState (formData st) true (errors st) (touched st),
       Some (email (formData st), password (formData st)))
  | _, _ =>
      (mkFormState (formData st) (isLoading st)
         (Some emailError, Some passwordError) (Some true, Some true),
       None)
  end.

Module SignupForm.

(** The template [`Password must be at least ${MIN_PASSWORD_LENGTH}
    characters`] is written out for the constant 8. *)
Definition validatePassword (password : jsstring) : jsstring :=
  match password with
  | [] => js "Password is required"
  | _ :: _ =>
      if (length password <? MIN_PASSWORD_LENGTH)%nat
      then js "Password must be at least 8 characters"
      else []
  end.

Inductive level : Type := weak | medium | strong.

Definition is_upper (c : N) : bool := ((65 <=? c) && (c <=? 90))%N.
Definition is_lower (c : N) : bool := ((97 <=? c) && (c <=? 122))%N.
Definition is_digit (c : N) : bool := ((48 <=? c) && (c <=? 57))%N.
Definition is_other (c : N) : bool := negb (is_upper c || is_lower c || is_digit c).

Definition point (b : bool) : nat := if b then 1 else 0.

(** The [score] of [getPasswordStrength] for a non-empty password. *)
Definition score_of (password : jsstring) : nat :=
  point (8 <=? length password)%nat
  + point (12 <=? length password)%nat
  + point (existsb is_upper password)
  + point (existsb is_lower password)
  + point (existsb is_digit password)
  + point (existsb is_other password).

Definition getPasswordStrength (password : jsstring) : level * nat :=
  match password with
  | [] => (weak, 0%nat)
  | _ :: _ =>
      let score := score_of password in
      if (score <=? 2)%nat then (weak, score)
      else if (score <=? 4)%nat then (medium, score)
      else (strong, score)
  end.

Definition isFormValid (data : FormData) : bool :=
  match validateEmail (email data), validatePassword (password data) with
  | [], [] => true
  | _, _ => false
  end.

Definition handleSubmit := submit validatePassword.

(** weak < medium < strong *)
Definition rank (l : level) : nat :=
  match l with
  | weak => 0
  | medium => 1
  | strong => 2
  end.

End SignupForm.

Module LoginForm.

Definition validatePassword (password : jsstring) : jsstring :=
  match password with
  | [] => js "Password is required"
  | _ :: _ => []
  end.

Definition isFormValid (data : FormData) : bool :=
  match validateEmail (email data), validatePassword (password data) with
  | [], [] => true
  | _, _ => false
  end.

Definition handleSubmit := submit validatePassword.

End LoginForm.

End AuthForms.

(* ====================================================================== *)
(** * services/api.ts: what an exchange leaves in the console *)
(* ====================================================================== *)

Module ApiTrace.

Import ApiClient.

(** The line of the request interceptor for a request to [url] issued in
    the browser state [b]. *)
Definition request_line (b : Browser) (url : jsstring)
    : console_level * list console_arg :=
  match localStorage b !! js "auth_token" with
  | Some (_ :: _) => (LevelLog, [CStr (outbox ++ js " Attaching token to:"); CStr url])
  | _ => (LevelLog, [CStr (outbox ++ js " No token, using cookies for:"); CStr url])
  end.

(** The first argument-object of [console.error] in the response
    interceptor. *)
Definition api_error (url : jsstring) (status : option Z) (message : jsstring)
    : console_level * list console_arg :=
  (LevelError,
   [CStr (cross_mark ++ js " API Error:");
    CVal (JObj [(js "url", JStr url);
                (js "status", status_value status);
                (js "message", JStr message)])]).

(** The line of the response interceptor for the answer [r] to a request to
    [url]: the status of a 2xx answer, the error of every other. *)
Definition answer_line `{Platform} (url : jsstring) (r : http_result)
    : console_level * list console_arg :=
  match r with
  | HttpResponse status _ =>
      if validateStatus status
      then (LevelLog, [CStr (check_mark ++ js " Response from:"); CStr url;
                       CVal (JNum status)])
      else api_error url (Some status)
             (js "Request failed with status code " ++ ToString (JNum status))
  | HttpFailure message => api_error url None message
  end.

End ApiTrace.

(* ====================================================================== *)
(** * More concrete inputs *)
(* ====================================================================== *)

Module MoreExamples.

Import ApiClient.

(** Two cookies, the second the session. *)
Definition two_cookies : list (jsstring * jsstring) :=
  [(js "theme", js "light"); (js "auth_token", js "abc123")].

(** An ok answer that carries no token. *)
Definition confirms_without_token (req : AuthApi.request) : AuthApi.fetch_result :=
  AuthApi.FetchResponse 200 (Returned (JObj [(js "message", JStr (js "Check your inbox"))])).

(** A backend that serves the history on GET and is unreachable otherwise. *)
Definition reads_only (cfg : config) : http_result :=
  match cfg_verb cfg with
  | GET => HttpResponse 200 Examples.history_body
  | _ => HttpFailure (js "Network Error")
  end.

(** An envelope without [data]. *)
Definition answers_empty_envelope (cfg : config) : http_result :=
  HttpResponse 200 (JObj [(js "success", JBool true)]).

(** A history response without pagination metadata. *)
Definition unpaginated_body : jsval :=
  JObj [(js "success", JBool true); (js "data", JObj [(js "items", JArr [])])].

Definition serves_unpaginated (cfg : config) : http_result :=
  HttpResponse 200 unpaginated_body.

(** A create form with a padded title and a blank description. *)
Definition typed_form : TaskForm.FormState :=
  TaskForm.mkForm (js "  Buy milk ") (js "   ") [js "Shopping"] [] false ∅.

Definition classify_medium (title : jsstring) : Priority := MEDIUM.

Definition submitted_task : Task :=
  mkTask (js "7f9c") (js "Buy milk") None None MEDIUM NOT_STARTED (Some [js "Shopping"])
    (js "2023-11-14T22:13:20.000Z") (js "2023-11-14T22:13:21.000Z").

(** The modal with the same inputs. *)
Definition typed_modal : TaskModal.ModalState :=
  TaskModal.mkModal (js "  Buy milk ") (js "   ") MEDIUM [js "Shopping"] false [].

Definition saves (submission : TaskModal.Submission) : outcome unit := Returned tt.

Definition describe (e : exn) : jsstring := js "Failed to save task".

(** A stored task with six tags, one of them twice. *)
Definition overtagged : Task :=
  mkTask (js "c") (js "Plan the week") None None LOW NOT_STARTED
    (Some [js "Work"; js "Urgent"; js "Work"; js "Home"; js "Health"; js "Finance"])
    (js "2023-11-14T22:13:20.000Z") (js "2023-11-14T22:13:20.000Z").

(** A failed login of a FastAPI backend: the validation errors come as an
    array. *)
Definition rejects_as_unprocessable (req : AuthApi.request) : AuthApi.fetch_result :=
  AuthApi.FetchResponse 422
    (Returned (JObj [(js "detail",
                       JArr [JObj [(js "msg", JStr (js "field required"))]])])).

(** An ok answer with the body [null]. *)
Definition answers_null (req : AuthApi.request) : AuthApi.fetch_result :=
  AuthApi.FetchResponse 200 (Returned JNull).

End MoreExamples.

(* ====================================================================== *)
(** * Equations of the effect combinators *)
(* ====================================================================== *)

Section Combinators.

Context {A B : Type}.

Lemma bind_returned (m : M A) (k : A -> M B) b b1 a :
  m b = (b1, Returned a) -> bind m k b = k a b1.
Proof. unfold bind. intros ->. reflexivity. Qed.

Lemma bind_thrown (m : M A) (k : A -> M B) b b1 e :
  m b = (b1, Thrown e) -> bind m k b = (b1, Thrown e).
Proof. unfold bind. intros ->. reflexivity. Qed.

Lemma try_catch_returned (m : M A) (h : exn -> M A) b b1 a :
  m b = (b1, Returned a) -> try_catch m h b = (b1, Returned a).
Proof. unfold try_catch. intros ->. reflexivity. Qed.

Lemma try_catch_thrown (m : M A) (h : exn -> M A) b b1 e :
  m b = (b1, Thrown e) -> try_catch m h b = h e b1.
Proof. unfold try_catch. intros ->. reflexivity. Qed.

Lemma try_catch_bind_returned (m : M A) (k : A -> M B) (h : exn -> M B) b b1 a :
  m b = (b1, Returned a) -> try_catch (bind m k) h b = try_catch (k a) h b1.
Proof. unfold try_catch, bind. intros ->. reflexivity. Qed.

Lemma try_catch_bind_thrown (m : M A) (k : A -> M B) (h : exn -> M B) b b1 e :
  m b = (b1, Thrown e) -> try_catch (bind m k) h b = h e b1.
Proof. unfold try_catch, bind. intros ->. reflexivity. Qed.

(** Whatever the body does, a cleanup that cannot throw leaves the browser
    in a state it produced. *)
Lemma try_finally_state (body : M A) (cleanup : M unit) (Q : Browser -> Prop) b :
  (forall b1 r, body b = (b1, r) -> exists b2, cleanup b1 = (b2, Returned tt) /\ Q b2) ->
  Q (fst (try_finally body cleanup b)).
Proof.
  intros Hc. unfold try_finally.
  destruct (body b) as [b1 r].
  destruct (Hc b1 r eq_refl) as (b2 & -> & HQ). exact HQ.
Qed.

(** ... and the body's outcome stands. *)
Lemma try_finally_outcome (body : M A) (cleanup : M unit) b :
  (forall b1, exists b2, cleanup b1 = (b2, Returned tt)) ->
  snd (try_finally body cleanup b) = snd (body b).
Proof.
  intros Hc. unfold try_finally.
  destruct (body b) as [b1 r].
  destruct (Hc b1) as (b2 & ->). reflexivity.
Qed.

End Combinators.

(* ====================================================================== *)
(** * The cookie store *)
(* ====================================================================== *)

Section CookieStore.

Context `{Platform}.

Lemma auth_token_deletion_parts :
  split_on semicolon auth_token_deletion
  = [js "auth_token="; js "expires=Thu, 01 Jan 1970 00:00:00 UTC"; js "path=/"; []].
Proof. vm_compute. reflexivity. Qed.

Lemma store_cookie_auth_token_deletion now jar :
  epoch_parses -> 0 <= now ->
  store_cookie now auth_token_deletion jar = delete (js "auth_token") jar.
Proof.
  intros Hepoch Hnow. unfold store_cookie.
  rewrite auth_token_deletion_parts.
  change (cut_at equals_sign (js "auth_token=")) with (js "auth_token", @nil N).
  cbv beta iota.
  change (cookie_expires _) with (Date_parse epoch_literal).
  rewrite Hepoch.
  destruct (Z.leb_spec 0 now); [reflexivity | lia].
Qed.

End CookieStore.

(* ====================================================================== *)
(** * Results on services/authApi.ts *)
(* ====================================================================== *)

Section AuthApiFacts.

Import AuthApi.

Context `{Platform}.
Variable NEXT_PUBLIC_API_URL : option jsstring.
Variable network : request -> fetch_result.

Abbreviation logout := (logout NEXT_PUBLIC_API_URL network).
Abbreviation getCurrentUser := (getCurrentUser NEXT_PUBLIC_API_URL network).
Abbreviation isAuthenticated := (isAuthenticated NEXT_PUBLIC_API_URL network).
Abbreviation login := (login NEXT_PUBLIC_API_URL network).
Abbreviation signup := (signup NEXT_PUBLIC_API_URL network).

Lemma logout_cleanup_clears b1 :
  epoch_parses -> 0 <= clock b1 ->
  exists b2,
    (deleteCookie (js "auth_token") ;;
     localStorage_removeItem (js "auth_token") ;;
     localStorage_removeItem (js "user") ;;
     console_log [CStr (check_mark ++ js " User logged out and token cleared")]) b1
    = (b2, Returned tt)
    /\ credentials_cleared b2.
Proof.
  intros Hepoch Hclock. destruct b1 as [storage jar writes href out now].
  cbn in Hclock.
  eexists. split; [reflexivity |].
  unfold credentials_cleared; cbn.
  repeat split.
  - rewrite lookup_delete_ne by discriminate. apply lookup_delete_eq.
  - apply lookup_delete_eq.
  - change (js "auth_token" ++ _) with auth_token_deletion.
    rewrite store_cookie_auth_token_deletion by assumption.
    apply lookup_delete_eq.
Qed.

(** Neither the exchange with the server nor the error construction
    touches the browser. *)
Lemma fetch_json_state req b : fst (fetch_json network req b) = b.
Proof.
  unfold fetch_json.
  destruct (network req) as [e | status [data | e]]; reflexivity.
Qed.

Lemma throw_detail_state {A} data fallback b :
  fst (throw_detail (A := A) data fallback b) = b.
Proof.
  unfold throw_detail, bind, lift, get_prop.
  destruct (nullish data); reflexivity.
Qed.

Lemma guarded_exchange_state req fallback b :
  fst ((let* '(status, data) := fetch_json network req in
        if negb (response_ok status) then throw_detail data fallback
        else ret data) b) = b.
Proof.
  unfold bind.
  pose proof (fetch_json_state req b) as Hf.
  destruct (fetch_json network req b) as [b1 [[status data] | e]]; cbn in Hf; subst b1.
  - destruct (negb (response_ok status)).
    + apply throw_detail_state.
    + reflexivity.
  - reflexivity.
Qed.

(** C2. However the remote /auth/logout call ends (fetch rejects, the body
    does not parse, the response is not ok, or it succeeds), when [logout]
    returns or throws the auth_token cookie has been deleted and the
    localStorage entries auth_token and user are gone. *)
Theorem logout_always_clears_credentials (b : Browser) :
  epoch_parses -> 0 <= clock b ->
  credentials_cleared (fst (logout b)).
Proof.
  intros Hepoch Hclock. unfold AuthApi.logout.
  erewrite bind_returned by reflexivity.
  apply try_finally_state. intros b1 r Hbody.
  pose proof (guarded_exchange_state
                (logout_request NEXT_PUBLIC_API_URL (localStorage b !! js "auth_token"))
                (js "Logout failed. Please try again.") b) as Hstate.
  rewrite Hbody in Hstate. cbn in Hstate. subst b1.
  apply logout_cleanup_clears; assumption.
Qed.

(** How [logout] ends: with the parsed body of an ok response, and with the
    exception of every other exchange. *)
Lemma logout_outcome b :
  snd (logout b)
  = match network (logout_request NEXT_PUBLIC_API_URL (localStorage b !! js "auth_token")) with
    | FetchRejected e => Thrown e
    | FetchResponse _ (Thrown e) => Thrown e
    | FetchResponse status (Returned data) =>
        if response_ok status then Returned data
        else match get_prop data (js "detail") with
             | Returned detail =>
                 Thrown (Error (ToString (js_or detail
                                            (JStr (js "Logout failed. Please try again.")))))
             | Thrown e => Thrown e
             end
    end.
Proof.
  unfold AuthApi.logout.
  erewrite bind_returned by reflexivity.
  rewrite try_finally_outcome
    by (intros [storage jar writes href out now]; eexists; reflexivity).
  unfold bind, fetch_json.
  destruct (network _) as [e | status [data | e]]; try reflexivity.
  cbn. destruct (response_ok status); cbn; [reflexivity |].
  unfold throw_detail, bind, lift.
  destruct (get_prop data (js "detail")); reflexivity.
Qed.

(** ** getCurrentUser and isAuthenticated *)

Lemma getCurrentUser_outcome b :
  snd (getCurrentUser b)
  = match network (me_request NEXT_PUBLIC_API_URL (localStorage b !! js "auth_token")) with
    | FetchRejected e => Thrown e
    | FetchResponse _ (Thrown e) => Thrown e
    | FetchResponse status (Returned data) =>
        if response_ok status then Returned data
        else match get_prop data (js "detail") with
             | Returned detail =>
                 Thrown (Error (ToString (js_or detail
                                            (JStr (js "Session validation failed.")))))
             | Thrown e => Thrown e
             end
    end.
Proof.
  unfold AuthApi.getCurrentUser.
  erewrite bind_returned by reflexivity.
  unfold bind, fetch_json.
  destruct (network _) as [e | status [data | e]]; try reflexivity.
  cbn. destruct (response_ok status); cbn; [reflexivity |].
  unfold throw_detail, bind, lift.
  destruct (get_prop data (js "detail")); reflexivity.
Qed.

Lemma getCurrentUser_state b : fst (getCurrentUser b) = b.
Proof.
  unfold AuthApi.getCurrentUser.
  erewrite bind_returned by reflexivity.
  apply guarded_exchange_state.
Qed.

(** C9. [isAuthenticated] always returns a boolean: [true] exactly when
    [getCurrentUser] resolves, and [false] when fetch rejects, when the body
    does not parse, and when the response is not ok. *)
Theorem isAuthenticated_never_throws (b : Browser) :
  exists v : bool,
    snd (isAuthenticated b) = Returned v
    /\ (v = true <-> exists user, snd (getCurrentUser b) = Returned user)
    /\ (forall e, snd (getCurrentUser b) = Thrown e -> v = false)
    /\ let req := me_request NEXT_PUBLIC_API_URL (localStorage b !! js "auth_token") in
       (forall e, network req = FetchRejected e -> v = false)
       /\ (forall status e, network req = FetchResponse status (Thrown e) -> v = false)
       /\ (forall status data,
             network req = FetchResponse status (Returned data) ->
             response_ok status = false -> v = false).
Proof.
  pose proof (getCurrentUser_outcome b) as Hout.
  unfold AuthApi.isAuthenticated, try_catch, bind at 1.
  destruct (getCurrentUser b) as [b1 [user | e]] eqn:Hget; cbn in Hout |- *.
  - exists true. repeat split; try (intros; discriminate); eauto.
    + intros e Hnet. rewrite Hnet in Hout. discriminate.
    + intros status e Hnet. rewrite Hnet in Hout. discriminate.
    + intros status data Hnet Hok. rewrite Hnet, Hok in Hout.
      destruct (get_prop data (js "detail")); discriminate.
  - exists false. repeat split; try reflexivity; try discriminate.
    intros [user Huser]. discriminate.
Qed.

(** A failed exchange ends the call there: the browser is as before and
    the error of the exchange is thrown. *)
Lemma failed_exchange_throws (req : request) (fallback : jsstring)
    (k : jsval -> M jsval) (b : Browser) :
  AuthFailure.exchange_failed (network req) ->
  (let* '(status, data) := fetch_json network req in
   if negb (response_ok status) then throw_detail data fallback else k data) b
  = (b, Thrown (AuthFailure.failure_thrown (network req) fallback)).
Proof.
  unfold AuthFailure.exchange_failed, AuthFailure.failure_thrown, fetch_json, bind.
  destruct (network req) as [e | status [data | e]]; try reflexivity.
  intros Hok. cbn. rewrite Hok. cbn. unfold throw_detail, bind, lift, get_prop.
  destruct (nullish data); reflexivity.
Qed.

(** ** signup and login *)

Lemma store_token_effect data token message b :
  ToString_of_string ->
  prop data (js "token") = JStr token -> token <> [] ->
  exists b',
    store_token data message b = (b', Returned tt)
    /\ token_stored data token b b'.
Proof.
  intros Hstr Htoken Hne.
  assert (Hobj : nullish data = false).
  { destruct data; try reflexivity; discriminate. }
  unfold store_token, lift, get_prop. rewrite Hobj, Htoken.
  erewrite bind_returned by reflexivity.
  assert (Htruthy : truthy (JStr token) = true).
  { destruct token; [contradiction | reflexivity]. }
  rewrite Htruthy, Hstr.
  destruct b as [storage jar writes href out now].
  eexists. split; [reflexivity |].
  unfold token_stored, token_cookie; cbn.
  repeat split.
  - rewrite Hstr, <- !app_assoc. reflexivity.
  - rewrite lookup_insert_ne by discriminate. apply lookup_insert_eq.
  - apply lookup_insert_eq.
Qed.

(** C8. A successful login or signup response that carries a token writes
    the token to the auth_token cookie, with an expiry thirty days ahead,
    path=/, SameSite=Lax and Secure, and to localStorage under auth_token,
    with the user under user. *)
Theorem login_and_signup_store_token
    (email password : jsstring) (b : Browser) (status : Z) (data : jsval)
    (token : jsstring) :
  ToString_of_string ->
  response_ok status = true ->
  prop data (js "token") = JStr token ->
  token <> [] ->
  (network (login_request NEXT_PUBLIC_API_URL email password)
     = FetchResponse status (Returned data) ->
   snd (login email password b) = Returned data
   /\ token_stored data token b (fst (login email password b)))
  /\ (network (signup_request NEXT_PUBLIC_API_URL email password)
       = FetchResponse status (Returned data) ->
     snd (signup email password b) = Returned data
     /\ token_stored data token b (fst (signup email password b))).
Proof.
  intros Hstr Hok Htoken Hne.
  split; intros Hnet.
  - destruct (store_token_effect data token (js " User logged in and token stored") b
                Hstr Htoken Hne) as (b' & Hstore & Hstored).
    unfold AuthApi.login, fetch_json. rewrite Hnet.
    erewrite bind_returned by reflexivity.
    cbv iota beta. rewrite Hok. cbn [negb].
    erewrite bind_returned by exact Hstore.
    split; [reflexivity | exact Hstored].
  - destruct (store_token_effect data token (js " User signed up and token stored") b
                Hstr Htoken Hne) as (b' & Hstore & Hstored).
    unfold AuthApi.signup, fetch_json. rewrite Hnet.
    erewrite bind_returned by reflexivity.
    cbv iota beta. rewrite Hok. cbn [negb].
    erewrite bind_returned by exact Hstore.
    split; [reflexivity | exact Hstored].
Qed.

(** ** The four calls on a failed exchange *)

(** None of them navigates; [logout] removes the two localStorage entries
    on its way out, the other three leave the browser as it was; each
    throws the error of the exchange. *)
Lemma auth_run_failed (c : AuthFailure.auth_call) (b : Browser) :
  AuthFailure.exchange_failed (network (AuthFailure.auth_request NEXT_PUBLIC_API_URL b c)) ->
  snd (AuthFailure.auth_run NEXT_PUBLIC_API_URL network c b)
  = Thrown (AuthFailure.failure_thrown
              (network (AuthFailure.auth_request NEXT_PUBLIC_API_URL b c))
              (AuthFailure.auth_fallback c))
  /\ location_href (fst (AuthFailure.auth_run NEXT_PUBLIC_API_URL network c b))
     = location_href b
  /\ (c <> AuthFailure.Logout ->
      fst (AuthFailure.auth_run NEXT_PUBLIC_API_URL network c b) = b)
  /\ (c = AuthFailure.Logout ->
      localStorage (fst (AuthFailure.auth_run NEXT_PUBLIC_API_URL network c b))
      = delete (js "user") (delete (js "auth_token") (localStorage b))).
Proof.
  intros Hfailed.
  destruct c as [email password | email password | |];
    cbn [AuthFailure.auth_run AuthFailure.auth_request AuthFailure.auth_fallback]
      in Hfailed |- *.
  - unfold AuthApi.signup. rewrite failed_exchange_throws by exact Hfailed.
    repeat split. discriminate.
  - unfold AuthApi.login. rewrite failed_exchange_throws by exact Hfailed.
    repeat split. discriminate.
  - unfold AuthApi.logout.
    erewrite bind_returned by reflexivity.
    unfold try_finally.
    rewrite (failed_exchange_throws _ _ (fun data => ret data)) by exact Hfailed.
    destruct b as [storage jar writes href out now].
    repeat split. intros Hother. contradiction.
  - unfold AuthApi.getCurrentUser.
    erewrite bind_returned by reflexivity.
    rewrite (failed_exchange_throws _ _ (fun data => ret data)) by exact Hfailed.
    repeat split. discriminate.
Qed.

End AuthApiFacts.

(* ====================================================================== *)
(** * Results on services/api.ts *)
(* ====================================================================== *)

Section ApiClientFacts.

Import ApiClient AuthFailure.

Context `{Platform}.
Variable adapter : config -> http_result.
Variable sessionExpired : outcome unit.
Variable window_defined : bool.

(** The environment of the fetch-based auth service. *)
Variable NEXT_PUBLIC_API_URL : option jsstring.
Variable network : AuthApi.request -> AuthApi.fetch_result.

Abbreviation request := (request adapter sessionExpired window_defined).
Abbreviation run := (run adapter sessionExpired window_defined).

Lemma same_but_console_refl b : same_but_console b b.
Proof. repeat split. Qed.

Lemma same_but_console_trans b1 b2 b3 :
  same_but_console b1 b2 -> same_but_console b2 b3 -> same_but_console b1 b3.
Proof.
  unfold same_but_console.
  intros (-> & -> & -> & -> & ->) (-> & -> & -> & -> & ->). repeat split.
Qed.

Lemma console_write_same lvl args b :
  same_but_console b (fst (console_write lvl args b)).
Proof. destruct b. repeat split. Qed.

(** The request interceptor hands [sent_config] to the adapter and only
    writes to the console. *)
Lemma request_interceptor_effect v url data b :
  exists b0,
    request_interceptor (mkConfig API_BASE_URL API_TIMEOUT v url data None) b
    = (b0, Returned (sent_config b v url data))
    /\ same_but_console b b0.
Proof.
  unfold request_interceptor, sent_config, localStorage_getItem, bind.
  destruct b as [storage jar writes href out now]; cbn [localStorage].
  destruct (storage !! js "auth_token") as [[| c t] |];
    eexists; (split; [reflexivity | repeat split]).
Qed.

(** An exchange that ends in a 2xx response yields its body. *)
Lemma request_fulfilled v url data b status body :
  adapter (sent_config b v url data) = HttpResponse status body ->
  validateStatus status = true ->
  exists b1,
    request v url data b = (b1, Returned body) /\ same_but_console b b1.
Proof.
  intros Hanswer Hvalid.
  destruct (request_interceptor_effect v url data b) as (b0 & Hint & Hsame).
  unfold ApiClient.request.
  erewrite bind_returned by exact Hint.
  rewrite Hanswer, Hvalid.
  destruct b0 as [storage jar writes href out now].
  eexists. split; [reflexivity |].
  eapply same_but_console_trans; [exact Hsame | repeat split].
Qed.

(** What the rejection handler of the response interceptor leaves. *)
Lemma response_rejected_effect {A} cfg e b0 :
  exists b1,
    response_rejected sessionExpired window_defined (A := A) cfg e b0 = (b1, Thrown e)
    /\ (status_is e 401 = true ->
        localStorage b1 = delete (js "user") (delete (js "auth_token") (localStorage b0))
        /\ location_href b1
           = if window_defined then js "/login" else location_href b0)
    /\ (status_is e 401 = false -> same_but_console b0 b1).
Proof.
  unfold response_rejected.
  destruct b0 as [storage jar writes href out now].
  destruct (status_is e 401).
  - destruct sessionExpired as [[] | e'], window_defined;
      (eexists; split; [reflexivity | split; [intros _; split; reflexivity | discriminate]]).
  - eexists. split; [reflexivity | split; [discriminate | intros _; repeat split]].
Qed.

(** An exchange that fails is rejected with its AxiosError. *)
Lemma request_rejected v url data b e :
  failure_of (adapter (sent_config b v url data)) = Some e ->
  exists b1,
    request v url data b = (b1, Thrown e)
    /\ (status_is e 401 = true ->
        localStorage b1 = delete (js "user") (delete (js "auth_token") (localStorage b))
        /\ location_href b1
           = if window_defined then js "/login" else location_href b)
    /\ (status_is e 401 = false -> same_but_console b b1).
Proof.
  intros Hfail.
  destruct (request_interceptor_effect v url data b) as (b0 & Hint & Hsame).
  unfold ApiClient.request.
  erewrite bind_returned by exact Hint.
  unfold failure_of in Hfail.
  destruct (adapter (sent_config b v url data)) as [status body | message].
  - destruct (validateStatus status); [discriminate |].
    injection Hfail as <-.
    destruct (response_rejected_effect (A := jsval) (sent_config b v url data)
                (AxiosError (Some status) body
                   (js "Request failed with status code " ++ ToString (JNum status))) b0)
      as (b1 & Hrej & H401 & Hother).
    exists b1. split; [exact Hrej |].
    pose proof Hsame as (Hls & _ & _ & Hhref & _).
    split.
    + intros Hs. destruct (H401 Hs) as [-> ->]. rewrite Hls, Hhref. split; reflexivity.
    + intros Hs. exact (same_but_console_trans _ _ _ Hsame (Hother Hs)).
  - injection Hfail as <-.
    destruct (response_rejected_effect (A := jsval) (sent_config b v url data)
                (AxiosError None JUndefined message) b0)
      as (b1 & Hrej & H401 & Hother).
    exists b1. split; [exact Hrej |].
    pose proof Hsame as (Hls & _ & _ & Hhref & _).
    split.
    + intros Hs. destruct (H401 Hs) as [-> ->]. rewrite Hls, Hhref. split; reflexivity.
    + intros Hs. exact (same_but_console_trans _ _ _ Hsame (Hother Hs)).
Qed.

(** ** The methods on a failed exchange *)

Ltac unfold_methods :=
  unfold getHealth, getTasks, getTask, createTask, updateTask, completeTask,
    incompleteTask, deleteTask, getHistory, deleteHistoryEntry, getWeeklyStats,
    getNotifications, markNotificationAsRead, markAllNotificationsAsRead,
    getUnreadCount.

Lemma run_rejected c b b1 e :
  (let '(v, url, data) := call_request c in request v url data b) = (b1, Thrown e) ->
  run c b
  = (fst (console_error [CStr (call_label c); CExn e] b1),
     match c with
     | GetHealth => Returned health_down
     | _ => Thrown e
     end).
Proof.
  destruct c; cbn [call_request ApiClient.run call_label]; intros Hreq; unfold_methods;
    first [ erewrite try_catch_bind_thrown by exact Hreq
          | erewrite try_catch_thrown by exact Hreq ];
    clear Hreq; destruct b1; reflexivity.
Qed.

Lemma run_fails c b e :
  failure_of (answer adapter b c) = Some e ->
  exists b1,
    run c b
    = (fst (console_error [CStr (call_label c); CExn e] b1),
       match c with
       | GetHealth => Returned health_down
       | _ => Thrown e
       end)
    /\ (status_is e 401 = true ->
        localStorage b1 = delete (js "user") (delete (js "auth_token") (localStorage b))
        /\ location_href b1
           = if window_defined then js "/login" else location_href b).
Proof.
  unfold answer. intros Hfail.
  destruct (call_request c) as [[v url] data] eqn:Hcall.
  destruct (request_rejected v url data b e Hfail) as (b1 & Hreq & H401 & _).
  exists b1. split; [| exact H401].
  apply run_rejected. rewrite Hcall. exact Hreq.
Qed.


(** ** The methods on a 2xx response *)

Lemma run_fulfilled c b status body :
  answer adapter b c = HttpResponse status body ->
  validateStatus status = true ->
  exists b1,
    (let '(v, url, data) := call_request c in request v url data b)
    = (b1, Returned body).
Proof.
  unfold answer. intros Hanswer Hvalid.
  destruct (call_request c) as [[v url] data].
  destruct (request_fulfilled v url data b status body Hanswer Hvalid) as (b1 & Hreq & _).
  exists b1. exact Hreq.
Qed.

Lemma getHistory_fulfilled page limit taskId actionType b status body :
  answer adapter b (GetHistory page limit taskId actionType) = HttpResponse status body ->
  validateStatus status = true ->
  nullish (prop (prop body (js "data")) (js "pagination")) = false ->
  snd (getHistory adapter sessionExpired window_defined page limit taskId actionType b)
  = Returned (expected_history body).
Proof.
  intros Hanswer Hvalid Hpagination.
  destruct (run_fulfilled _ b status body Hanswer Hvalid) as (b1 & Hreq).
  cbn [call_request] in Hreq.
  assert (Hdata : nullish (prop body (js "data")) = false).
  { destruct (prop body (js "data")); try reflexivity; discriminate. }
  assert (Hbody : nullish body = false).
  { destruct body; try reflexivity; discriminate. }
  unfold getHistory.
  erewrite try_catch_bind_returned by exact Hreq.
  unfold lift, get_prop, try_catch, bind, ret.
  rewrite Hbody, Hdata, Hpagination. reflexivity.
Qed.

(** C1. Whenever the backend's history response carries pagination
    metadata, the value [getHistory] returns exposes a pagination object
    whose page is current_page, whose limit is page_size, and whose
    total_count, total_pages, has_next and has_prev are carried over; the
    metadata (2, 10, 25, 3, true, true) becomes page 2, limit 10, 25, 3,
    true, true. *)
Theorem getHistory_maps_pagination
    (page limit : option Z) (taskId actionType : option jsstring)
    (b : Browser) (status : Z) (body : jsval) :
  let backend := prop (prop body (js "data")) (js "pagination") in
  answer adapter b (GetHistory page limit taskId actionType) = HttpResponse status body ->
  validateStatus status = true ->
  nullish backend = false ->
  exists result,
    snd (getHistory adapter sessionExpired window_defined page limit taskId actionType b)
    = Returned result
    /\ (let pagination := prop result (js "pagination") in
        prop pagination (js "page") = prop backend (js "current_page")
        /\ prop pagination (js "limit") = prop backend (js "page_size")
        /\ prop pagination (js "total_count") = prop backend (js "total_count")
        /\ prop pagination (js "total_pages") = prop backend (js "total_pages")
        /\ prop pagination (js "has_next") = prop backend (js "has_next")
        /\ prop pagination (js "has_prev") = prop backend (js "has_prev"))
    /\ (backend = JObj [(js "current_page", JNum 2); (js "page_size", JNum 10);
                        (js "total_count", JNum 25); (js "total_pages", JNum 3);
                        (js "has_next", JBool true); (js "has_prev", JBool true)] ->
        prop result (js "pagination")
        = JObj [(js "page", JNum 2); (js "limit", JNum 10);
                (js "total_count", JNum 25); (js "total_pages", JNum 3);
                (js "has_next", JBool true); (js "has_prev", JBool true)]).
Proof.
  intros backend Hanswer Hvalid Hbackend.
  exists (expected_history body). split; [| split].
  - apply (getHistory_fulfilled _ _ _ _ _ status); assumption.
  - repeat split.
  - intros Hexample.
    change (prop (expected_history body) (js "pagination"))
      with (expected_pagination backend).
    rewrite Hexample. reflexivity.
Qed.

(** C7, as the code has it. On a failed exchange every method logs the
    error under its label; every method but [getHealth] then re-throws the
    same error, and [getHealth] returns its "down" status instead. On a 2xx
    response with a body, the methods that unwrap return the [data] field
    of the envelope; [getTasks] and [markNotificationAsRead] replace a
    falsy [data] by the empty list and by the whole body; [getUnreadCount]
    returns [data.count]; [getNotifications] returns the whole body; the two
    deletions return nothing; [getHistory] returns the paginated envelope. *)
Theorem api_client_outcomes (c : call) (b : Browser) :
  (forall e,
     failure_of (answer adapter b c) = Some e ->
     head (console (fst (run c b))) = Some (LevelError, [CStr (call_label c); CExn e])
     /\ snd (run c b) = match c with
                        | GetHealth => Returned health_down
                        | _ => Thrown e
                        end)
  /\ (forall status body,
        answer adapter b c = HttpResponse status body ->
        validateStatus status = true ->
        nullish body = false ->
        let data := prop body (js "data") in
        match c with
        | GetHealth | GetTask _ | CreateTask _ _ _ _ | UpdateTask _ _
        | CompleteTask _ | IncompleteTask _ | GetWeeklyStats
        | MarkAllNotificationsAsRead =>
            snd (run c b) = Returned data
        | GetTasks =>
            snd (run c b) = Returned (js_or data (JArr []))
        | MarkNotificationAsRead _ =>
            snd (run c b) = Returned (js_or data body)
        | GetUnreadCount =>
            nullish data = false ->
            snd (run c b) = Returned (prop data (js "count"))
        | GetNotifications _ =>
            snd (run c b) = Returned body
        | DeleteTask _ | DeleteHistoryEntry _ =>
            snd (run c b) = Returned JUndefined
        | GetHistory _ _ _ _ =>
            nullish (prop data (js "pagination")) = false ->
            snd (run c b) = Returned (expected_history body)
        end).
Proof.
  split.
  - intros e Hfail.
    destruct (run_fails c b e Hfail) as (b1 & -> & _).
    destruct b1; split; reflexivity.
  - intros status body Hanswer Hvalid Hbody data.
    destruct (run_fulfilled c b status body Hanswer Hvalid) as (b1 & Hreq).
    destruct c; cbn [call_request] in Hreq; cbn [ApiClient.run];
      lazymatch goal with
      | |- _ -> _ => intros Hextra
      | _ => idtac
      end;
      lazymatch goal with
      | |- context [getHistory] =>
          apply (getHistory_fulfilled _ _ _ _ _ status); assumption
      | _ => idtac
      end;
      unfold_methods;
      first [ erewrite try_catch_bind_returned by exact Hreq
            | erewrite try_catch_returned by exact Hreq ];
      unfold lift, get_prop, try_catch, bind, ret;
      rewrite ?Hbody; fold data; rewrite ?Hextra; reflexivity.
Qed.

End ApiClientFacts.

(* ====================================================================== *)
(** * Results on app/tasks/page.tsx *)
(* ====================================================================== *)

Section TrimFacts.

Lemma trimStart_whitespace (s : jsstring) :
  forallb is_whitespace s = true -> trimStart s = [].
Proof.
  induction s as [| c s IH]; cbn; [reflexivity |].
  intros Hall. apply andb_prop in Hall as [Hc Hs].
  rewrite Hc. exact (IH Hs).
Qed.

(** A string of whitespace trims to the empty string. *)
Lemma trim_whitespace (s : jsstring) :
  forallb is_whitespace s = true -> trim s = [].
Proof.
  intros Hall. unfold trim, trimEnd.
  rewrite (trimStart_whitespace s Hall). reflexivity.
Qed.

Lemma filter_all_true {A} (p : A -> bool) (l : list A) :
  (forall x, p x = true) -> List.filter p l = l.
Proof.
  intros Hp. induction l as [| x l IH]; cbn; [reflexivity |].
  rewrite Hp, IH. reflexivity.
Qed.

Lemma list_filter_sublist {A} (p : A -> bool) (l : list A) :
  sublist (List.filter p l) l.
Proof.
  induction l as [| x l IH]; cbn; [constructor |].
  destruct (p x); [apply sublist_skip | apply sublist_cons]; exact IH.
Qed.

End TrimFacts.

Section TasksPageFacts.

Import TasksPage.

Context `{Platform}.
Variables FilterState SortState : Type.
Variable useFilters : FilterState -> list Task -> list Task.
Variable useSort : SortState -> list Task -> list Task.

Abbreviation render := (render FilterState SortState useFilters useSort).

(** C10. With a search query of whitespace only, the empty one included,
    the page shows the filtered and sorted list unchanged. *)
Theorem whitespace_search_is_identity
    (tasks : list Task) (filterState : FilterState) (sortState : SortState)
    (searchQuery : jsstring) :
  forallb is_whitespace searchQuery = true ->
  searchedTasks (render tasks filterState sortState searchQuery)
  = sortedTasks (render tasks filterState sortState searchQuery).
Proof.
  intros Hblank. unfold TasksPage.render; cbn [searchedTasks sortedTasks].
  apply filter_all_true. intros task.
  unfold search_matches. rewrite (trim_whitespace _ Hblank). reflexivity.
Qed.

Lemma startsWith_spec (s q : jsstring) :
  startsWith s q = true <-> exists after, s = q ++ after.
Proof.
  revert s. induction q as [| cq q IH]; intros s.
  - split; [intros _; exists s; reflexivity | intros _; destruct s; reflexivity].
  - destruct s as [| cs s]; cbn [startsWith].
    + split; [discriminate | intros [after Heq]; discriminate].
    + rewrite andb_true_iff, N.eqb_eq, IH. split.
      * intros [-> [after ->]]. exists after. reflexivity.
      * intros [after [= -> ->]]. split; [reflexivity | exists after; reflexivity].
Qed.

(** [s.includes(q)] holds exactly when [q] occurs in [s]. *)
Lemma includes_spec (s q : jsstring) :
  includes s q = true <-> occurs_in q s.
Proof.
  unfold occurs_in. induction s as [| c s IH]; cbn [includes].
  - rewrite orb_false_r, startsWith_spec. split.
    + intros [after Heq]. exists [], after. exact Heq.
    + intros (before & after & Heq).
      destruct before; [| discriminate]. exists after. exact Heq.
  - rewrite orb_true_iff, startsWith_spec, IH. split.
    + intros [[after Heq] | (before & after & Heq)].
      * exists [], after. exact Heq.
      * exists (c :: before), after. rewrite Heq. reflexivity.
    + intros (before & after & Heq). destruct before as [| c' before].
      * left. exists after. exact Heq.
      * right. injection Heq as _ Heq. exists before, after. exact Heq.
Qed.

(** The callback keeps a task exactly when the query is blank or found. *)
Lemma search_matches_spec (searchQuery : jsstring) (task : Task) :
  search_matches searchQuery task = true
  <-> trim searchQuery = [] \/ found_in searchQuery task.
Proof.
  unfold search_matches, found_in.
  destruct (trim searchQuery) as [| c rest] eqn:Htrim.
  - split; [intros _; left; reflexivity | reflexivity].
  - rewrite !orb_true_iff, includes_spec. split.
    + intros [[Htitle | Hdescription] | Htags]; right.
      * left. exact Htitle.
      * right; left. destruct (description task) as [d |]; [| discriminate].
        exists d. split; [reflexivity | apply includes_spec; exact Hdescription].
      * right; right. destruct (tags task) as [ts |]; [| discriminate].
        apply existsb_exists in Htags as (tag & Hin & Htag).
        exists ts, tag. split; [reflexivity |]. split; [exact Hin |].
        apply includes_spec. exact Htag.
    + intros [Hblank | [Htitle | [(d & Hd & Hfound) | (ts & tag & Hts & Hin & Hfound)]]].
      * discriminate.
      * left; left. exact Htitle.
      * left; right. rewrite Hd. apply includes_spec. exact Hfound.
      * right. rewrite Hts. apply existsb_exists. exists tag.
        split; [exact Hin | apply includes_spec; exact Hfound].
Qed.

(** C4. The list the page shows is the search applied to the sort applied
    to the filter of the task list: it holds, in the order of the sorted
    list, exactly the filtered and sorted tasks for which the query is
    blank or occurs, without regard to letter case, in the title, the
    description or a tag. With a filter that keeps the NOT_STARTED tasks,
    the tasks "Buy milk" (COMPLETED) and "Write report" (NOT_STARTED) and
    the query "report" leave exactly the second task; and where the filter
    keeps both tasks, the search alone still leaves exactly the second. *)
Theorem page_filters_then_sorts_then_searches
    (filterState : FilterState) (sortState : SortState) :
  (forall tasks searchQuery,
     let page := render tasks filterState sortState searchQuery in
     filteredTasks page = useFilters filterState tasks
     /\ sortedTasks page = useSort sortState (filteredTasks page)
     /\ searchedTasks page = List.filter (search_matches searchQuery) (sortedTasks page)
     /\ sublist (searchedTasks page) (useSort sortState (useFilters filterState tasks))
     /\ (forall task,
           In task (searchedTasks page)
           <-> In task (useSort sortState (useFilters filterState tasks))
               /\ (trim searchQuery = [] \/ found_in searchQuery task)))
  /\ (forall task, search_matches (js "report") task = true
                   <-> found_in (js "report") task)
  /\ (forall A B : Task,
        toLowerCase_on_ascii ->
        (forall ts, Permutation (useSort sortState ts) ts) ->
        title A = js "Buy milk" ->
        title B = js "Write report" -> status B = NOT_STARTED ->
        ((forall ts, useFilters filterState ts
                     = List.filter (fun t => TaskStatus_eqb (status t) NOT_STARTED) ts) ->
         status A = COMPLETED ->
         searchedTasks (render [A; B] filterState sortState (js "report")) = [B])
        /\ ((forall ts, useFilters filterState ts = ts) ->
            description A = None -> default [] (tags A) = [] ->
            searchedTasks (render [A; B] filterState sortState (js "report")) = [B])).
Proof.
  assert (Hreport : trim (js "report") <> []) by discriminate.
  split; [| split].
  - intros tasks searchQuery. cbv zeta.
    unfold TasksPage.render; cbn [filteredTasks sortedTasks searchedTasks].
    split; [reflexivity |]. split; [reflexivity |]. split; [reflexivity |]. split.
    + apply list_filter_sublist.
    + intros task. rewrite filter_In, search_matches_spec. reflexivity.
  - intros task. rewrite search_matches_spec. tauto.
  - intros A B Hlower Hsort HtA HtB HsB.
    assert (Hmatch : search_matches (js "report") B = true).
    { unfold search_matches.
      change (trim (js "report")) with (js "report").
      rewrite HtB, !Hlower by reflexivity.
      reflexivity. }
    split.
    + intros Hfilter HsA.
      unfold TasksPage.render; cbn [searchedTasks].
      rewrite Hfilter. cbn [List.filter]. rewrite HsA, HsB. cbn [TaskStatus_eqb].
      assert (Hsorted : useSort sortState [B] = [B]).
      { apply Permutation_length_1_inv. symmetry. apply Hsort. }
      rewrite Hsorted. cbn [List.filter].
      rewrite Hmatch. reflexivity.
    + intros Hfilter HdA HgA.
      assert (Hmiss : search_matches (js "report") A = false).
      { unfold search_matches.
        change (trim (js "report")) with (js "report").
        rewrite HtA, HdA, !Hlower by reflexivity.
        destruct (tags A) as [ts |]; cbn in HgA; [subst ts |]; reflexivity. }
      unfold TasksPage.render; cbn [searchedTasks].
      rewrite Hfilter.
      destruct (Permutation_length_2_inv (Permutation_sym (Hsort [A; B])))
        as [Hsorted | Hsorted];
        rewrite Hsorted; cbn [List.filter]; rewrite Hmatch, Hmiss; reflexivity.
Qed.

End TasksPageFacts.

(* ====================================================================== *)
(** * Results on components/tasks/TaskForm.tsx *)
(* ====================================================================== *)

Section TaskFormFacts.

Import TaskForm.

Variable task : option Task.
Variable classifyPriority : jsstring -> Priority.
Variable randomUUID : jsstring.
Variables createdAt_now updatedAt_now : jsstring.
Variables tag_limit_message tag_duplicate_message : jsstring.

Abbreviation handleSubmit :=
  (handleSubmit task classifyPriority randomUUID createdAt_now updatedAt_now).
Abbreviation handleAddTag := (handleAddTag tag_limit_message tag_duplicate_message).
Abbreviation apply_ops := (apply_ops tag_limit_message tag_duplicate_message).

(** ** Validation *)

Lemma size_insert_nonzero (k : jsstring) (v : jsval) (m : gmap jsstring jsval) :
  (size (<[k := v]> m) =? 0)%nat = false.
Proof.
  apply Nat.eqb_neq. intros Hsize.
  apply map_size_empty_iff in Hsize.
  exact (insert_non_empty m k v Hsize).
Qed.

(** [validateForm] passes exactly on the valid inputs. *)
Lemma validateForm_passes (st : FormState) :
  snd (validateForm st) = true
  <-> trim (title st) <> []
      /\ (length (trim (title st)) <= 200)%nat
      /\ (length (description st) <= 2000)%nat.
Proof.
  unfold validateForm; cbn [snd].
  destruct (trim (title st)) as [| c rest] eqn:Htitle.
  - split; [| intros [Hne _]; contradiction].
    destruct (2000 <? length (description st))%nat;
      rewrite ?size_insert_nonzero; discriminate.
  - destruct (Nat.ltb_spec 200 (length (c :: rest))) as [Hlong | Hshort];
      destruct (Nat.ltb_spec 2000 (length (description st))) as [Hdlong | Hdshort];
      rewrite ?size_insert_nonzero, ?map_size_empty;
      (split; [intros Hpass; try discriminate | intros (_ & Ht & Hd)]);
      try lia; try reflexivity.
    repeat split; [discriminate | lia | lia].
Qed.

(** A failed validation leaves a message in [errors]. *)
Lemma validateForm_fails_with_message (st : FormState) :
  snd (validateForm st) = false ->
  exists field message,
    errors (fst (validateForm st)) !! field = Some (JStr message) /\ message <> [].
Proof.
  unfold validateForm; cbn [fst snd errors].
  destruct (2000 <? length (description st))%nat.
  - intros _. eexists (js "description"), _. split; [apply lookup_insert_eq | discriminate].
  - destruct (trim (title st)) as [| c rest].
    + intros _. eexists (js "title"), _. split; [apply lookup_insert_eq | discriminate].
    + destruct (200 <? length (c :: rest))%nat.
      * intros _. eexists (js "title"), _. split; [apply lookup_insert_eq | discriminate].
      * rewrite map_size_empty. discriminate.
Qed.

(** C5. Submission is rejected, with [onSubmit] not called and an error
    message set, exactly when the trimmed title is empty, the trimmed title
    is longer than 200, or the description is longer than 2000; every other
    form passes validation and is submitted with the trimmed title. *)
Theorem submission_rejected_exactly_when_invalid (st : FormState) :
  let trimmedTitle := trim (title st) in
  let invalid :=
    trimmedTitle = []
    \/ (200 < length trimmedTitle)%nat
    \/ (2000 < length (description st))%nat in
  (invalid ->
     snd (handleSubmit st) = None
     /\ exists field message,
          errors (fst (handleSubmit st)) !! field = Some (JStr message)
          /\ message <> [])
  /\ (~ invalid ->
      snd (validateForm st) = true
      /\ errors (fst (handleSubmit st)) = ∅
      /\ exists submitted,
           snd (handleSubmit st) = Some submitted
           /\ TaskTypes.title submitted = trimmedTitle)
  /\ (snd (handleSubmit st) = None <-> invalid).
Proof.
  intros trimmedTitle invalid.
  pose proof (validateForm_passes st) as Hpass.
  pose proof (validateForm_fails_with_message st) as Hmessage.
  fold trimmedTitle in Hpass.
  assert (Hdecide : invalid <-> snd (validateForm st) = false).
  { unfold invalid. destruct (snd (validateForm st)).
    - split; [| discriminate].
      destruct Hpass as [Hvalid _]. destruct (Hvalid eq_refl) as (Hne & Ht & Hd).
      intros [Hempty | [Hlong | Hdlong]]; [contradiction | lia | lia].
    - split; [reflexivity |]. intros _.
      destruct trimmedTitle as [| c rest] eqn:Htitle; [left; reflexivity |].
      destruct (Nat.ltb_spec 200 (length (c :: rest))); [right; left; assumption |].
      destruct (Nat.ltb_spec 2000 (length (description st)));
        [right; right; assumption |].
      destruct Hpass as [_ Hvalid]. discriminate Hvalid.
      repeat split; [discriminate | assumption | assumption]. }
  unfold TaskForm.handleSubmit.
  destruct (validateForm st) as [st1 ok] eqn:Hvalidate. cbn [fst snd] in *.
  destruct ok; cbn [negb fst snd].
  - split; [| split].
    + intros Hinvalid. apply Hdecide in Hinvalid. discriminate.
    + intros _. split; [reflexivity |]. split.
      * unfold validateForm in Hvalidate. injection Hvalidate as <- Hsize.
        destruct (isEditMode task); cbn [errors]; [| reflexivity].
        apply map_size_empty_iff, Nat.eqb_eq. exact Hsize.
      * eexists. split; reflexivity.
    + split; [discriminate |]. intros Hinvalid. apply Hdecide in Hinvalid. discriminate.
  - split; [| split].
    + intros _. split; [reflexivity | exact (Hmessage eq_refl)].
    + intros Hvalid. exfalso. apply Hvalid, Hdecide. reflexivity.
    + split; [intros _; apply Hdecide; reflexivity | reflexivity].
Qed.

(** ** Tags *)

Lemma handleAddTag_rejects (st : FormState) (tag : jsstring) :
  tag ∈ tags st \/ (5 <= length (tags st))%nat ->
  tags (handleAddTag st tag) = tags st
  /\ exists message,
       message ∈ [tag_duplicate_message; tag_limit_message]
       /\ errors (handleAddTag st tag) !! js "tags" = Some (JStr message).
Proof.
  intros Hreject. unfold TaskForm.handleAddTag, validateSingleTag.
  destruct (bool_decide_reflect (tag ∈ tags st)) as [Hin | Hnotin];
    [| destruct (Nat.leb_spec 5 (length (tags st))) as [Hfull | Hroom]];
    cbn [negb valid tags errors first_error errors_of].
  - split; [reflexivity |]. exists tag_duplicate_message.
    split; [apply elem_of_cons; left; reflexivity | apply lookup_insert_eq].
  - split; [reflexivity |]. exists tag_limit_message.
    split; [| apply lookup_insert_eq].
    apply elem_of_cons; right. apply list_elem_of_singleton. reflexivity.
  - destruct Hreject; [contradiction | lia].
Qed.

Lemma handleAddTag_accepts (st : FormState) (tag : jsstring) :
  tag ∉ tags st -> (length (tags st) < 5)%nat ->
  tags (handleAddTag st tag) = tags st ++ [tag].
Proof.
  intros Hnotin Hroom. unfold TaskForm.handleAddTag, validateSingleTag.
  rewrite bool_decide_eq_false_2 by assumption.
  destruct (Nat.leb_spec 5 (length (tags st))); [lia | reflexivity].
Qed.

Lemma handleAddTag_keeps_tags_ok (st : FormState) (tag : jsstring) :
  tags_ok st -> tags_ok (handleAddTag st tag).
Proof.
  intros [Hlen Hnodup].
  destruct (decide (tag ∈ tags st)) as [Hin | Hnotin].
  - destruct (handleAddTag_rejects st tag (or_introl Hin)) as [Htags _].
    unfold tags_ok. rewrite Htags. split; assumption.
  - destruct (le_lt_dec 5 (length (tags st))) as [Hfull | Hroom].
    + destruct (handleAddTag_rejects st tag (or_intror Hfull)) as [Htags _].
      unfold tags_ok. rewrite Htags. split; assumption.
    + unfold tags_ok. rewrite (handleAddTag_accepts st tag Hnotin Hroom).
      split.
      * rewrite length_app. cbn. lia.
      * apply NoDup_app. repeat split.
        -- assumption.
        -- intros x Hx Hx'. apply list_elem_of_singleton in Hx'. subst x. contradiction.
        -- apply NoDup_singleton.
Qed.

Lemma handleRemoveTag_keeps_tags_ok (st : FormState) (tag : jsstring) :
  tags_ok st -> tags_ok (handleRemoveTag st tag).
Proof.
  intros [Hlen Hnodup]. unfold tags_ok, handleRemoveTag; cbn [tags].
  split.
  - etransitivity; [apply List.filter_length_le | exact Hlen].
  - apply NoDup_ListNoDup, List.NoDup_filter, NoDup_ListNoDup. exact Hnodup.
Qed.

Lemma apply_ops_keeps_tags_ok (ops : list tag_op) (st : FormState) :
  tags_ok st -> tags_ok (apply_ops st ops).
Proof.
  revert st. induction ops as [| op ops IH]; intros st Hok; [exact Hok |].
  cbn. apply IH. destruct op as [tag | tag]; cbn.
  - apply handleAddTag_keeps_tags_ok. exact Hok.
  - apply handleRemoveTag_keeps_tags_ok. exact Hok.
Qed.


End TaskFormFacts.

(* ====================================================================== *)
(** * The results on concrete inputs *)
(* ====================================================================== *)

Section Instances.

Import Examples ApiClient.

#[local] Existing Instance Reference.platform.

Lemma reference_epoch_parses : epoch_parses.
Proof. reflexivity. Qed.

Lemma reference_ToString_of_string : ToString_of_string.
Proof. intros s. reflexivity. Qed.

Lemma reference_toLowerCase_on_ascii : toLowerCase_on_ascii.
Proof. intros s _. reflexivity. Qed.


(** C7, as the spec states it, fails on [getHealth]: with the backend
    unreachable the exchange fails, and the method returns its "down"
    status instead of throwing. *)
Lemma getHealth_swallows_failure :
  failure_of (answer unreachable signed_in GetHealth)
  = Some (AxiosError None JUndefined (js "Network Error"))
  /\ snd (ApiClient.run unreachable (Returned tt) true
            GetHealth signed_in)
     = Returned health_down
  /\ ~ (exists e,
          snd (ApiClient.run unreachable (Returned tt) true
                 GetHealth signed_in)
          = Thrown e).
Proof.
  split; [reflexivity |]. split; [reflexivity |].
  intros [e He]. discriminate He.
Qed.


(** ** The theorems at the examples *)

(** The second page of a history of 25 entries, ten to a page. *)
Lemma getHistory_maps_pagination_witness :
  answer serves_history signed_in
    (GetHistory (Some 2) (Some 10) None None)
  = HttpResponse 200 history_body
  /\ validateStatus 200 = true
  /\ nullish backend_pagination = false
  /\ exists result,
       snd (getHistory serves_history (Returned tt) true
              (Some 2) (Some 10) None None signed_in)
       = Returned result
       /\ prop result (js "pagination")
          = JObj [(js "page", JNum 2); (js "limit", JNum 10);
                  (js "total_count", JNum 25); (js "total_pages", JNum 3);
                  (js "has_next", JBool true); (js "has_prev", JBool true)].
Proof.
  split; [reflexivity |]. split; [reflexivity |]. split; [reflexivity |].
  destruct (getHistory_maps_pagination (H := Reference.platform)
              serves_history (Returned tt) true (Some 2) (Some 10) None None
              signed_in 200 history_body eq_refl eq_refl eq_refl)
    as (result & Hresult & _ & Hexample).
  exists result. split; [exact Hresult | apply Hexample; reflexivity].
Defined.

(** Logging out while offline: [fetch] rejects, the credentials still go. *)
Lemma logout_always_clears_credentials_witness :
  epoch_parses
  /\ 0 <= clock signed_in
  /\ credentials_cleared
       (fst (AuthApi.logout None offline signed_in)).
Proof.
  split; [reflexivity |]. split; [vm_compute; discriminate |].
  apply logout_always_clears_credentials; [reflexivity | vm_compute; discriminate].
Defined.


(** [getTasks] answered with a 401: logged under its label and re-thrown. *)
Lemma api_client_outcomes_witness :
  let e := AxiosError (Some 401) (JObj [(js "detail", JStr (js "Not authenticated"))])
             (js "Request failed with status code 401") in
  failure_of (answer answers_401 signed_in GetTasks) = Some e
  /\ head (console (fst (ApiClient.run answers_401 (Returned tt) true GetTasks signed_in)))
     = Some (LevelError, [CStr (js "Failed to fetch tasks:"); CExn e])
  /\ snd (ApiClient.run answers_401 (Returned tt) true GetTasks signed_in) = Thrown e.
Proof.
  cbv zeta. split; [reflexivity |].
  apply (proj1 (api_client_outcomes answers_401 (Returned tt) true GetTasks signed_in)).
  reflexivity.
Defined.

Lemma order_by_direction_permutes (descending : bool) (tasks : list Task) :
  Permutation (order_by_direction descending tasks) tasks.
Proof.
  destruct descending; cbn; [| reflexivity].
  symmetry. apply Permutation_rev.
Qed.

(** The two tasks of the example in descending order, searched for
    "report": once filtered by NOT_STARTED, once unfiltered. *)
Lemma page_filters_then_sorts_then_searches_witness :
  TasksPage.searchedTasks
    (TasksPage.render (option TaskStatus) bool
       filter_by_status order_by_direction
       [buy_milk; write_report] (Some NOT_STARTED) true (js "report"))
  = [write_report]
  /\ TasksPage.searchedTasks
       (TasksPage.render (option TaskStatus) bool
          filter_by_status order_by_direction
          [buy_milk; write_report] None true (js "report"))
     = [write_report].
Proof.
  split.
  - apply (proj1
             (proj2 (proj2 (page_filters_then_sorts_then_searches (H := Reference.platform)
                              (option TaskStatus) bool filter_by_status order_by_direction
                              (Some NOT_STARTED) true))
                buy_milk write_report reference_toLowerCase_on_ascii
                (order_by_direction_permutes true) eq_refl eq_refl eq_refl)).
    + intros ts. reflexivity.
    + reflexivity.
  - apply (proj2
             (proj2 (proj2 (page_filters_then_sorts_then_searches (H := Reference.platform)
                              (option TaskStatus) bool filter_by_status order_by_direction
                              None true))
                buy_milk write_report reference_toLowerCase_on_ascii
                (order_by_direction_permutes true) eq_refl eq_refl eq_refl)).
    + intros ts. reflexivity.
    + reflexivity.
    + reflexivity.
Defined.

(** A query of two spaces. *)
Lemma whitespace_search_is_identity_witness :
  forallb is_whitespace (js "  ") = true
  /\ TasksPage.searchedTasks
       (TasksPage.render (option TaskStatus) bool
          filter_by_status order_by_direction
          [buy_milk; write_report] None false (js "  "))
     = TasksPage.sortedTasks
         (TasksPage.render (option TaskStatus) bool
            filter_by_status order_by_direction
            [buy_milk; write_report] None false (js "  ")).
Proof.
  split; [reflexivity |].
  apply whitespace_search_is_identity. reflexivity.
Defined.


(** A login that is answered with a token and a user. *)
Lemma login_and_signup_store_token_witness :
  ToString_of_string
  /\ AuthApi.response_ok 200 = true
  /\ prop session_response (js "token") = JStr (js "abc123")
  /\ js "abc123" <> []
  /\ token_stored session_response (js "abc123") signed_out
       (fst (AuthApi.login None issues_token
               (js "ada@example.com") (js "correct horse") signed_out)).
Proof.
  split; [exact reference_ToString_of_string |]. split; [reflexivity |].
  split; [reflexivity |]. split; [discriminate |].
  apply (proj1 (login_and_signup_store_token None issues_token
                  (js "ada@example.com") (js "correct horse") signed_out 200
                  session_response (js "abc123")
                  reference_ToString_of_string eq_refl eq_refl ltac:(discriminate))).
  reflexivity.
Defined.

End Instances.

(* ====================================================================== *)
(** * Further results on services/authApi.ts *)
(* ====================================================================== *)

Section SplitFacts.

Lemma split_on_app (sep : N) (a rest : jsstring) :
  forallb (fun c => negb (c =? sep)%N) a = true ->
  split_on sep (a ++ sep :: rest) = a :: split_on sep rest.
Proof.
  induction a as [| c a IH]; cbn [app forallb]; intros Hclean.
  - cbn. rewrite N.eqb_refl. reflexivity.
  - apply andb_prop in Hclean as [Hc Ha]. cbn [split_on].
    apply negb_true_iff in Hc. rewrite Hc, (IH Ha). reflexivity.
Qed.

Lemma split_on_clean (sep : N) (a : jsstring) :
  forallb (fun c => negb (c =? sep)%N) a = true ->
  split_on sep a = [a].
Proof.
  induction a as [| c a IH]; cbn [forallb]; intros Hclean; [reflexivity |].
  apply andb_prop in Hclean as [Hc Ha]. cbn [split_on].
  apply negb_true_iff in Hc. rewrite Hc, (IH Ha). reflexivity.
Qed.

(** The first piece of a split is the text before the first separator. *)
Lemma split_on_head (sep : N) (s : jsstring) :
  exists pieces, split_on sep s = fst (cut_at sep s) :: pieces.
Proof.
  induction s as [| c s (pieces & IH)]; cbn [split_on cut_at].
  - eexists. reflexivity.
  - destruct (c =? sep)%N.
    + eexists. reflexivity.
    + rewrite IH. destruct (cut_at sep s). eexists. reflexivity.
Qed.

Lemma trimStart_clean (s : jsstring) :
  forallb (fun c => negb (is_whitespace c)) s = true -> trimStart s = s.
Proof.
  destruct s as [| c s]; cbn [forallb trimStart]; [reflexivity |].
  intros Hclean. apply andb_prop in Hclean as [Hc _].
  apply negb_true_iff in Hc. rewrite Hc. reflexivity.
Qed.

Lemma forallb_reverse {A} (p : A -> bool) (l : list A) :
  forallb p (rev l) = forallb p l.
Proof.
  induction l as [| x l IH]; [reflexivity |].
  cbn [rev forallb]. rewrite forallb_app, IH. cbn. rewrite andb_true_r. apply andb_comm.
Qed.

(** Text without whitespace is its own trim. *)
Lemma trim_clean (s : jsstring) :
  forallb (fun c => negb (is_whitespace c)) s = true -> trim s = s.
Proof.
  intros Hclean. unfold trim, trimEnd.
  rewrite (trimStart_clean s Hclean).
  rewrite trimStart_clean, rev_involutive; [reflexivity |].
  rewrite forallb_reverse. exact Hclean.
Qed.

Lemma trim_leading_space (s : jsstring) : trim (32%N :: s) = trim s.
Proof. reflexivity. Qed.

End SplitFacts.

Section CookieReaderFacts.

Import CookieReader.

Lemma name_char_spec (s : jsstring) :
  forallb name_char s = true ->
  forallb (fun c => negb (c =? semicolon)%N) s = true
  /\ forallb (fun c => negb (c =? equals_sign)%N) s = true
  /\ forallb (fun c => negb (is_whitespace c)) s = true.
Proof.
  induction s as [| c s IH]; cbn [forallb]; [repeat split |].
  intros Hs. apply andb_prop in Hs as [Hc Hs].
  destruct (IH Hs) as (H1 & H2 & H3). unfold name_char in Hc.
  apply andb_prop in Hc as [Hc Hw]. apply andb_prop in Hc as [Hsemi Heq].
  rewrite H1, H2, H3, Hsemi, Heq, Hw. repeat split.
Qed.

Lemma value_char_spec (s : jsstring) :
  forallb value_char s = true ->
  forallb (fun c => negb (c =? semicolon)%N) s = true
  /\ forallb (fun c => negb (is_whitespace c)) s = true.
Proof.
  induction s as [| c s IH]; cbn [forallb]; [repeat split |].
  intros Hs. apply andb_prop in Hs as [Hc Hs].
  destruct (IH Hs) as (H1 & H2). unfold value_char in Hc.
  apply andb_prop in Hc as [Hsemi Hw].
  rewrite H1, H2, Hsemi, Hw. repeat split.
Qed.

(** What the loop makes of one well-formed piece, with or without the
    space that follows a semicolon. *)
Lemma scan_cookies_piece (name value : jsstring) (lead : jsstring) (rest : list jsstring) :
  well_formed (name, value) = true ->
  lead = [] \/ lead = [32%N] ->
  scan_cookies (@cons jsstring (lead ++ name ++ equals_sign :: value) rest)
  = if jsstring_eqb name (js "auth_token")
    then JStr (fst (cut_at equals_sign value))
    else scan_cookies rest.
Proof.
  intros Hwf Hlead. unfold well_formed in Hwf; cbn [fst snd] in Hwf.
  apply andb_prop in Hwf as [Hname Hvalue].
  destruct (name_char_spec name Hname) as (_ & Hname_eq & Hname_ws).
  destruct (value_char_spec value Hvalue) as (_ & Hvalue_ws).
  assert (Htrim : trim (lead ++ name ++ equals_sign :: value)
                  = name ++ equals_sign :: value).
  { assert (Hclean : trim (name ++ equals_sign :: value) = name ++ equals_sign :: value).
    { apply trim_clean. rewrite forallb_app, Hname_ws. cbn. exact Hvalue_ws. }
    destruct Hlead as [-> | ->]; [exact Hclean |].
    cbn [app]. rewrite trim_leading_space. exact Hclean. }
  cbn [scan_cookies]. rewrite Htrim, (split_on_app _ _ _ Hname_eq).
  destruct (split_on_head equals_sign value) as (pieces & ->).
  reflexivity.
Qed.

Lemma scan_cookie_string (pairs : list (jsstring * jsstring)) (lead : jsstring) :
  forallb well_formed pairs = true ->
  lead = [] \/ lead = [32%N] ->
  scan_cookies (split_on semicolon (lead ++ cookie_string pairs))
  = match first_named (js "auth_token") pairs with
    | Some value => JStr (fst (cut_at equals_sign value))
    | None => JNull
    end.
Proof.
  revert lead. induction pairs as [| [name value] rest IH]; intros lead Hwf Hlead.
  - destruct Hlead as [-> | ->]; reflexivity.
  - cbn [forallb] in Hwf. apply andb_prop in Hwf as [Hpair Hrest].
    pose proof Hpair as Hpair'. unfold well_formed in Hpair'; cbn [fst snd] in Hpair'.
    apply andb_prop in Hpair' as [Hname Hvalue].
    destruct (name_char_spec name Hname) as (Hname_semi & _ & _).
    destruct (value_char_spec value Hvalue) as (Hvalue_semi & _).
    assert (Hpiece : forallb (fun c => negb (c =? semicolon)%N)
                       (lead ++ name ++ equals_sign :: value) = true).
    { rewrite !forallb_app, Hname_semi. cbn. rewrite Hvalue_semi.
      destruct Hlead as [-> | ->]; reflexivity. }
    cbn [first_named].
    destruct rest as [| next rest].
    + cbn [cookie_string]. rewrite (split_on_clean _ _ Hpiece).
      rewrite (scan_cookies_piece name value lead [] Hpair Hlead).
      destruct (jsstring_eqb name (js "auth_token")); reflexivity.
    + change (cookie_string ((name, value) :: next :: rest))
        with (name ++ equals_sign :: value ++ semicolon :: 32%N :: cookie_string (next :: rest)).
      replace (lead ++ name ++ equals_sign :: value ++ semicolon :: 32%N :: cookie_string (next :: rest))
        with ((lead ++ name ++ equals_sign :: value)
                ++ semicolon :: ([32%N] ++ cookie_string (next :: rest)))
        by (rewrite <- !app_assoc; reflexivity).
      rewrite (split_on_app _ _ _ Hpiece).
      rewrite (scan_cookies_piece name value lead _ Hpair Hlead).
      destruct (jsstring_eqb name (js "auth_token")); [reflexivity |].
      apply IH; [exact Hrest | right; reflexivity].
Qed.

(** X1. On a document.cookie of well-formed [name=value] pairs,
    getTokenFromCookie returns the value of the first cookie named
    auth_token, cut at its first equals sign, and null when there is none;
    a value without an equals sign is returned whole. *)
Theorem getTokenFromCookie_reads_auth_token (pairs : list (jsstring * jsstring)) :
  forallb well_formed pairs = true ->
  getTokenFromCookie (cookie_string pairs)
  = match first_named (js "auth_token") pairs with
    | Some value => JStr (fst (cut_at equals_sign value))
    | None => JNull
    end
  /\ (forall value,
        first_named (js "auth_token") pairs = Some value ->
        forallb (fun c => negb (c =? equals_sign)%N) value = true ->
        getTokenFromCookie (cookie_string pairs) = JStr value).
Proof.
  intros Hwf.
  assert (Hscan := scan_cookie_string pairs [] Hwf (or_introl eq_refl)).
  cbn [app] in Hscan. unfold getTokenFromCookie.
  split; [exact Hscan |].
  intros value Hfirst Hclean. rewrite Hscan, Hfirst. f_equal.
  clear - Hclean. induction value as [| c value IH]; cbn [cut_at forallb] in *; [reflexivity |].
  apply andb_prop in Hclean as [Hc Hvalue]. apply negb_true_iff in Hc. rewrite Hc.
  specialize (IH Hvalue). destruct (cut_at equals_sign value). cbn in *. congruence.
Qed.

End CookieReaderFacts.

Section AuthApiMore.

Import AuthApi AuthFailure.

Context `{Platform}.
Variable NEXT_PUBLIC_API_URL : option jsstring.
Variable network : request -> fetch_result.

Abbreviation logout := (logout NEXT_PUBLIC_API_URL network).
Abbreviation getCurrentUser := (getCurrentUser NEXT_PUBLIC_API_URL network).
Abbreviation isAuthenticated := (isAuthenticated NEXT_PUBLIC_API_URL network).
Abbreviation login := (login NEXT_PUBLIC_API_URL network).
Abbreviation signup := (signup NEXT_PUBLIC_API_URL network).


(** X3. An ok response without a token (a missing, null, empty or otherwise
    falsy [token]) stores nothing, the browser stays as it was: a body that
    is not null is returned to the caller as it is, and a null body makes
    the call throw the TypeError of reading its [token]. *)
Theorem login_without_token_stores_nothing
    (email password : jsstring) (b : Browser) (status : Z) (data : jsval) :
  response_ok status = true ->
  truthy (prop data (js "token")) = false ->
  (network (login_request NEXT_PUBLIC_API_URL email password)
     = FetchResponse status (Returned data) ->
   login email password b
   = (b, if nullish data then Thrown (TypeError (js "token")) else Returned data))
  /\ (network (signup_request NEXT_PUBLIC_API_URL email password)
        = FetchResponse status (Returned data) ->
      signup email password b
      = (b, if nullish data then Thrown (TypeError (js "token")) else Returned data)).
Proof.
  intros Hok Htoken.
  split; intros Hnet.
  - unfold AuthApi.login, fetch_json. rewrite Hnet.
    erewrite bind_returned by reflexivity.
    cbv iota beta. rewrite Hok. cbn [negb].
    unfold store_token, lift, get_prop, bind.
    destruct (nullish data); [reflexivity |]. rewrite Htoken. reflexivity.
  - unfold AuthApi.signup, fetch_json. rewrite Hnet.
    erewrite bind_returned by reflexivity.
    cbv iota beta. rewrite Hok. cbn [negb].
    unfold store_token, lift, get_prop, bind.
    destruct (nullish data); [reflexivity |]. rewrite Htoken. reflexivity.
Qed.

(** The cookie store keeps every other cookie when auth_token is deleted,
    however it reads the date. *)
Lemma store_cookie_deletion_other now jar name :
  name <> js "auth_token" ->
  store_cookie now auth_token_deletion jar !! name = jar !! name.
Proof.
  intros Hname. unfold store_cookie.
  rewrite auth_token_deletion_parts.
  change (cut_at equals_sign (js "auth_token=")) with (js "auth_token", @nil N).
  cbv beta iota.
  destruct (cookie_expires _) as [t |].
  - destruct (t <=? now).
    + apply lookup_delete_ne. congruence.
    + apply lookup_insert_ne. congruence.
  - apply lookup_insert_ne. congruence.
Qed.

(** X4. Whatever the exchange, [logout] touches nothing but the
    credentials: every other localStorage entry and every other cookie
    stays, and so do the location and the clock. *)
Theorem logout_keeps_everything_else (b : Browser) :
  let b' := fst (logout b) in
  (forall key, key <> js "auth_token" -> key <> js "user" ->
     localStorage b' !! key = localStorage b !! key)
  /\ (forall name, name <> js "auth_token" -> cookies b' !! name = cookies b !! name)
  /\ location_href b' = location_href b
  /\ clock b' = clock b.
Proof.
  unfold AuthApi.logout.
  erewrite bind_returned by reflexivity.
  apply try_finally_state. intros b1 r Hbody.
  pose proof (guarded_exchange_state network
                (logout_request NEXT_PUBLIC_API_URL (localStorage b !! js "auth_token"))
                (js "Logout failed. Please try again.") b) as Hstate.
  rewrite Hbody in Hstate. cbn in Hstate. subst b1.
  destruct b as [storage jar writes href out now].
  eexists. split; [reflexivity |]. cbn.
  repeat split.
  - intros key Htoken Huser.
    rewrite lookup_delete_ne by congruence. apply lookup_delete_ne. congruence.
  - intros name Hname.
    change (js "auth_token" ++ _) with auth_token_deletion.
    apply store_cookie_deletion_other. exact Hname.
Qed.

(** X5. Checking the session changes nothing: [isAuthenticated] and
    [getCurrentUser] leave the browser exactly as it was, whatever the
    server answers, so a failed check by itself never logs the user out. *)
Theorem session_check_changes_nothing (b : Browser) :
  fst (isAuthenticated b) = b /\ fst (getCurrentUser b) = b.
Proof.
  pose proof (getCurrentUser_state NEXT_PUBLIC_API_URL network b) as Hstate.
  split; [| exact Hstate].
  unfold AuthApi.isAuthenticated, try_catch, bind at 1.
  destruct (getCurrentUser b) as [b1 [user | e]]; cbn in Hstate |- *; exact Hstate.
Qed.

End AuthApiMore.

(* ====================================================================== *)
(** * Further results on services/api.ts *)
(* ====================================================================== *)

Section ApiClientMore.

Import ApiClient.

Context `{Platform}.
Variable sessionExpired : outcome unit.
Variable window_defined : bool.

Ltac unfold_api_methods :=
  unfold getHealth, getTasks, getTask, createTask, updateTask, completeTask,
    incompleteTask, deleteTask, getHistory, deleteHistoryEntry, getWeeklyStats,
    getNotifications, markNotificationAsRead, markAllNotificationsAsRead,
    getUnreadCount.

(** A request reads the backend once, at the configuration it sends. *)
Lemma request_reads_one_answer (adapter1 adapter2 : config -> http_result)
    v url data b :
  adapter1 (sent_config b v url data) = adapter2 (sent_config b v url data) ->
  request adapter1 sessionExpired window_defined v url data b
  = request adapter2 sessionExpired window_defined v url data b.
Proof.
  intros Hsame.
  destruct (request_interceptor_effect v url data b) as (b0 & Hint & _).
  unfold request.
  erewrite !bind_returned by exact Hint.
  rewrite Hsame. reflexivity.
Qed.

Ltac pick_later :=
  first [ exists []; reflexivity
        | refine (ex_intro _ [_] _); reflexivity
        | refine (ex_intro _ [_; _] _); reflexivity
        | refine (ex_intro _ [_; _; _] _); reflexivity ].

(** A request writes the line of the request interceptor, then the line of
    the response interceptor for the answer it got, and after that only what
    the handling of a 401 logs. *)
Lemma request_trace (adapter : config -> http_result) v url data b :
  exists later,
    console (fst (request adapter sessionExpired window_defined v url data b))
    = later ++ ApiTrace.answer_line url (adapter (sent_config b v url data))
        :: ApiTrace.request_line b url :: console b.
Proof.
  unfold request, request_interceptor, sent_config, ApiTrace.request_line,
    ApiTrace.answer_line, ApiTrace.api_error, localStorage_getItem, bind.
  destruct b as [storage jar writes href out now]; cbn [localStorage console].
  destruct (storage !! js "auth_token") as [[| ch t] |];
    cbn [console_log console_write ret cfg_url cfg_baseURL cfg_timeout cfg_verb cfg_data];
    (match goal with
     | |- context [adapter ?cfg] => destruct (adapter cfg) as [status body | message]
     end;
     [ destruct (validateStatus status); [pick_later |] | ]);
    unfold response_rejected, status_is, error_status, bind; cbn [console_error console_write];
    repeat match goal with
           | |- context [(?x =? 401)%Z] => destruct (x =? 401)%Z
           end;
    destruct sessionExpired; destruct window_defined; pick_later.
Qed.

(** After its request a method only adds to the console. *)
Lemma run_extends_console (adapter : config -> http_result) c b b1 r :
  (let '(v, url, data) := call_request c in
   request adapter sessionExpired window_defined v url data b) = (b1, r) ->
  exists more,
    console (fst (run adapter sessionExpired window_defined c b)) = more ++ console b1.
Proof.
  destruct r as [body | e]; intros Hreq.
  - destruct c; cbn [call_request] in Hreq; cbn [ApiClient.run]; unfold_api_methods;
      first [ erewrite try_catch_bind_returned by exact Hreq
            | erewrite try_catch_returned by exact Hreq ];
      clear Hreq;
      unfold lift, get_prop, try_catch, bind, ret, log_and_rethrow, console_error,
        console_write, throw;
      repeat match goal with
             | |- context [nullish ?x] => destruct (nullish x)
             end;
      destruct b1; pick_later.
  - rewrite (run_rejected adapter sessionExpired window_defined c b b1 e Hreq).
    destruct b1; pick_later.
Qed.


Variable adapter : config -> http_result.

Abbreviation request := (request adapter sessionExpired window_defined).
Abbreviation run := (run adapter sessionExpired window_defined).

(** A request either yields the body of a 2xx answer or is rejected with
    the error of a failed exchange. *)
Lemma request_cases v url data b :
  (exists b1 status body,
     adapter (sent_config b v url data) = HttpResponse status body
     /\ validateStatus status = true
     /\ request v url data b = (b1, Returned body)
     /\ same_but_console b b1)
  \/ (exists b1 e,
        failure_of (adapter (sent_config b v url data)) = Some e
        /\ request v url data b = (b1, Thrown e)).
Proof.
  destruct (adapter (sent_config b v url data)) as [status body | message] eqn:Hanswer.
  - destruct (validateStatus status) eqn:Hvalid.
    + left.
      destruct (request_fulfilled adapter sessionExpired window_defined
                  v url data b status body Hanswer Hvalid) as (b1 & Hreq & Hsame).
      exists b1, status, body.
      split; [reflexivity |]. split; [exact Hvalid |]. split; [exact Hreq | exact Hsame].
    + right.
      destruct (request_rejected adapter sessionExpired window_defined v url data b
                  (AxiosError (Some status) body
                     (js "Request failed with status code " ++ ToString (JNum status))))
        as (b1 & Hreq & _).
      { rewrite Hanswer. cbn. rewrite Hvalid. reflexivity. }
      exists b1. eexists. split; [| exact Hreq]. cbn. rewrite Hvalid. reflexivity.
  - right.
    destruct (request_rejected adapter sessionExpired window_defined v url data b
                (AxiosError None JUndefined message))
      as (b1 & Hreq & _).
    { rewrite Hanswer. reflexivity. }
    exists b1. eexists. split; [reflexivity | exact Hreq].
Qed.

(** After its request, a method only writes to the console. *)
Lemma run_after_request c b b1 r :
  (let '(v, url, data) := call_request c in request v url data b) = (b1, r) ->
  same_but_console b1 (fst (run c b)).
Proof.
  destruct r as [body | e]; intros Hreq.
  - destruct c; cbn [call_request] in Hreq; cbn [ApiClient.run]; unfold_api_methods;
      first [ erewrite try_catch_bind_returned by exact Hreq
            | erewrite try_catch_returned by exact Hreq ];
      clear Hreq;
      unfold lift, get_prop, try_catch, bind, ret, log_and_rethrow, console_error,
        console_write, throw;
      repeat match goal with
             | |- context [nullish ?x] => destruct (nullish x)
             end;
      destruct b1; repeat split.
  - rewrite (run_rejected adapter sessionExpired window_defined c b b1 e Hreq).
    destruct b1; repeat split.
Qed.

Lemma failure_is_401 (r : http_result) (e : exn) :
  failure_of r = Some e ->
  status_is e 401 = true -> exists body, r = HttpResponse 401 body.
Proof.
  unfold failure_of. destruct r as [status body | message].
  - destruct (validateStatus status); [discriminate |].
    intros [= <-]. unfold status_is; cbn. intros Hstatus.
    apply Z.eqb_eq in Hstatus. subst status. exists body. reflexivity.
  - intros [= <-]. discriminate.
Qed.

(** X7. Only a 401 ends the session: a call whose request is answered with
    anything else (a 2xx response, another error status, no response at
    all) leaves localStorage, the cookies and the location as they were and
    only writes to the console. *)
Theorem only_a_401_ends_the_session (c : call) (b : Browser) :
  (forall body, answer adapter b c <> HttpResponse 401 body) ->
  same_but_console b (fst (run c b)).
Proof.
  unfold answer. intros Hnot401.
  destruct (call_request c) as [[v url] data] eqn:Hcall.
  assert (Hrequest : exists b1 r,
             request v url data b = (b1, r) /\ same_but_console b b1).
  { destruct (request_cases v url data b)
      as [(b1 & status & body & _ & _ & Hreq & Hsame) | (b1 & e & Hfail & Hreq)].
    - exists b1, (Returned body). split; assumption.
    - destruct (request_rejected adapter sessionExpired window_defined
                  v url data b e Hfail) as (b1' & Hreq' & _ & Hother).
      exists b1', (Thrown e). split; [exact Hreq' |]. apply Hother.
      destruct (status_is e 401) eqn:Hstatus; [| reflexivity].
      destruct (failure_is_401 _ e Hfail Hstatus) as [body Hanswer].
      exfalso. exact (Hnot401 body Hanswer). }
  destruct Hrequest as (b1 & r & Hreq & Hsame).
  apply (same_but_console_trans b b1); [exact Hsame |].
  apply (run_after_request c b b1 r). rewrite Hcall. exact Hreq.
Qed.

(** What a 401 leaves behind, field by field. *)
Lemma request_rejected_401 v url data b body :
  adapter (sent_config b v url data) = HttpResponse 401 body ->
  exists b1 e,
    request v url data b = (b1, Thrown e)
    /\ localStorage b1 = delete (js "user") (delete (js "auth_token") (localStorage b))
    /\ cookies b1 = cookies b
    /\ document_cookie_writes b1 = document_cookie_writes b
    /\ location_href b1 = (if window_defined then js "/login" else location_href b).
Proof.
  intros Hanswer.
  destruct (request_interceptor_effect v url data b)
    as (b0 & Hint & Hls & Hjar & Hwrites & Hhref & _).
  unfold ApiClient.request.
  erewrite bind_returned by exact Hint.
  rewrite Hanswer. change (validateStatus 401) with false. cbv iota.
  rewrite <- Hls, <- Hjar, <- Hwrites, <- Hhref.
  unfold response_rejected. change (status_is _ 401) with true. cbv iota.
  destruct b0 as [storage jar writes href out now].
  destruct sessionExpired as [[] | e'], window_defined;
    (eexists; eexists; split; [reflexivity | repeat split]).
Qed.

(** X8. A 401 removes the two localStorage entries and nothing else that is
    stored: every other localStorage entry stays and the cookies are not
    touched, so the auth_token cookie outlives the forced logout; outside a
    browser window the location stays too. *)
Theorem a_401_keeps_the_cookies (c : call) (b : Browser) (body : jsval) :
  answer adapter b c = HttpResponse 401 body ->
  let b' := fst (run c b) in
  cookies b' = cookies b
  /\ document_cookie_writes b' = document_cookie_writes b
  /\ (forall key, key <> js "auth_token" -> key <> js "user" ->
        localStorage b' !! key = localStorage b !! key)
  /\ location_href b' = (if window_defined then js "/login" else location_href b).
Proof.
  unfold answer. intros Hanswer.
  destruct (call_request c) as [[v url] data] eqn:Hcall.
  destruct (request_rejected_401 v url data b body Hanswer)
    as (b1 & e & Hreq & Hls & Hjar & Hwrites & Hhref).
  destruct (run_after_request c b b1 (Thrown e))
    as (Hls' & Hjar' & Hwrites' & Hhref' & _).
  { rewrite Hcall. exact Hreq. }
  cbv zeta. rewrite Hls', Hjar', Hwrites', Hhref', Hls, Hjar, Hwrites, Hhref.
  repeat split.
  intros key Htoken Huser.
  rewrite lookup_delete_ne by congruence. apply lookup_delete_ne. congruence.
Qed.

(** X9. [getHealth] never throws: whatever the backend does, it returns,
    either the [data] of a 2xx body or the "down" status. *)
Theorem getHealth_never_throws (b : Browser) :
  exists status_report,
    snd (getHealth adapter sessionExpired window_defined b) = Returned status_report
    /\ (status_report = health_down
        \/ exists status body,
             answer adapter b GetHealth = HttpResponse status body
             /\ validateStatus status = true
             /\ status_report = prop body (js "data")).
Proof.
  unfold answer; cbn [call_request].
  destruct (request_cases GET (js "/health") JUndefined b)
    as [(b1 & status & body & Hanswer & Hvalid & Hreq & _) | (b1 & e & _ & Hreq)].
  - unfold getHealth. erewrite try_catch_bind_returned by exact Hreq.
    unfold lift, get_prop, try_catch.
    destruct (nullish body).
    + exists health_down. split; [destruct b1; reflexivity | left; reflexivity].
    + exists (prop body (js "data")). split; [reflexivity |].
      right. exists status, body. repeat split; assumption.
  - unfold getHealth. erewrite try_catch_bind_thrown by exact Hreq.
    exists health_down. split; [destruct b1; reflexivity | left; reflexivity].
Qed.

(** X10. Whatever [getTasks] returns is truthy: where the envelope has no
    [data], or a null or otherwise falsy one, the caller gets the empty
    list. *)
Theorem getTasks_never_returns_falsy (b : Browser) (tasks : jsval) :
  snd (getTasks adapter sessionExpired window_defined b) = Returned tasks ->
  truthy tasks = true
  /\ (forall status body,
        answer adapter b GetTasks = HttpResponse status body ->
        truthy (prop body (js "data")) = false -> tasks = JArr []).
Proof.
  unfold answer; cbn [call_request].
  destruct (request_cases GET (js "/tasks") JUndefined b)
    as [(b1 & status & body & Hanswer & Hvalid & Hreq & _) | (b1 & e & _ & Hreq)].
  - unfold getTasks. erewrite try_catch_bind_returned by exact Hreq.
    unfold lift, get_prop, try_catch, bind, ret.
    destruct (nullish body) eqn:Hbody.
    + destruct b1. discriminate.
    + cbn. intros [= <-]. split.
      * unfold js_or. destruct (truthy (prop body (js "data"))) eqn:Hdata;
          [exact Hdata | reflexivity].
      * intros status' body' Hanswer' Hfalsy. rewrite Hanswer in Hanswer'.
        injection Hanswer' as <- <-. unfold js_or. rewrite Hfalsy. reflexivity.
  - unfold getTasks. erewrite try_catch_bind_thrown by exact Hreq.
    destruct b1. discriminate.
Qed.

(** X11. A 2xx history response without pagination metadata makes
    [getHistory] throw a TypeError, logged under its label: for the
    property it could not read of a missing body, of a missing [data], or
    of the missing [pagination]. *)
Theorem getHistory_without_pagination_throws
    (page limit : option Z) (taskId actionType : option jsstring)
    (b : Browser) (status : Z) (body : jsval) :
  answer adapter b (GetHistory page limit taskId actionType) = HttpResponse status body ->
  validateStatus status = true ->
  nullish (prop (prop body (js "data")) (js "pagination")) = true ->
  let unread :=
    if nullish body then js "data"
    else if nullish (prop body (js "data")) then js "pagination"
    else js "current_page" in
  snd (getHistory adapter sessionExpired window_defined page limit taskId actionType b)
  = Thrown (TypeError unread)
  /\ head (console (fst (getHistory adapter sessionExpired window_defined
                           page limit taskId actionType b)))
     = Some (LevelError, [CStr (js "Failed to fetch history:"); CExn (TypeError unread)]).
Proof.
  intros Hanswer Hvalid Hpagination unread.
  destruct (run_fulfilled adapter sessionExpired window_defined _ b status body
              Hanswer Hvalid) as (b1 & Hreq).
  cbn [call_request] in Hreq.
  unfold getHistory. erewrite try_catch_bind_returned by exact Hreq.
  unfold lift, get_prop, try_catch, bind, ret. subst unread.
  destruct (nullish body); [destruct b1; split; reflexivity |].
  destruct (nullish (prop body (js "data"))); [destruct b1; split; reflexivity |].
  rewrite Hpagination. destruct b1; split; reflexivity.
Qed.

End ApiClientMore.

(* ====================================================================== *)
(** * Further results on app/tasks/page.tsx *)
(* ====================================================================== *)

Section MoreTrimFacts.

Lemma trimStart_empty (s : jsstring) :
  trimStart s = [] -> forallb is_whitespace s = true.
Proof.
  induction s as [| c s IH]; cbn [trimStart forallb]; [reflexivity |].
  destruct (is_whitespace c); [exact IH | discriminate].
Qed.

Lemma trimStart_head (s : jsstring) (c : N) (rest : jsstring) :
  trimStart s = c :: rest -> is_whitespace c = false.
Proof.
  induction s as [| d s IH]; cbn [trimStart]; [discriminate |].
  destruct (is_whitespace d) eqn:Hd; [exact IH |].
  intros [= -> _]. exact Hd.
Qed.

(** A string trims to the empty string exactly when it is whitespace. *)
Lemma trim_empty_iff (s : jsstring) :
  trim s = [] <-> forallb is_whitespace s = true.
Proof.
  split; [| apply trim_whitespace].
  unfold trim, trimEnd. intros Hempty.
  apply (f_equal (@rev N)) in Hempty. rewrite rev_involutive in Hempty. cbn in Hempty.
  apply trimStart_empty in Hempty. rewrite forallb_reverse in Hempty.
  destruct (trimStart s) as [| c rest] eqn:Hstart.
  - apply trimStart_empty. exact Hstart.
  - apply trimStart_head in Hstart. cbn in Hempty. rewrite Hstart in Hempty. discriminate.
Qed.

Lemma length_trimStart (s : jsstring) : (length (trimStart s) <= length s)%nat.
Proof.
  induction s as [| c s IH]; cbn [trimStart]; [lia |].
  destruct (is_whitespace c); cbn; lia.
Qed.

(** Trimming never lengthens. *)
Lemma length_trim (s : jsstring) : (length (trim s) <= length s)%nat.
Proof.
  unfold trim, trimEnd. rewrite length_rev.
  etransitivity; [apply length_trimStart |].
  rewrite length_rev. apply length_trimStart.
Qed.

Lemma filter_partition_length {A} (p : A -> bool) (l : list A) :
  (length (List.filter p l) + length (List.filter (fun x => negb (p x)) l)
   = length l)%nat.
Proof.
  induction l as [| x l IH]; cbn; [reflexivity |].
  destruct (p x); cbn; lia.
Qed.

Lemma filter_all_true_on {A} (p : A -> bool) (l : list A) :
  (forall x, In x l -> p x = true) -> List.filter p l = l.
Proof.
  induction l as [| x l IH]; cbn; intros Hp; [reflexivity |].
  rewrite (Hp x) by (left; reflexivity).
  rewrite IH; [reflexivity |]. intros y Hy. apply Hp. right. exact Hy.
Qed.

End MoreTrimFacts.

Section TasksPageMore.

Import TasksPage TasksPageStats.

(** X12. The two counters of the page split the task list: the incomplete
    count is the number of tasks whose status is not COMPLETED, it is never
    negative, and the urgent count never exceeds the number of tasks. *)
Theorem counters_split_the_tasks (tasks : list Task) :
  incompleteTasks tasks
  = Z.of_nat (length (List.filter
                        (fun t => negb (TaskStatus_eqb (status t) COMPLETED)) tasks))
  /\ 0 <= incompleteTasks tasks <= Z.of_nat (length tasks)
  /\ (urgentTasks tasks <= length tasks)%nat.
Proof.
  unfold incompleteTasks, completedTasks, urgentTasks.
  pose proof (filter_partition_length
                (fun t => TaskStatus_eqb (status t) COMPLETED) tasks) as Hsplit.
  pose proof (List.filter_length_le is_urgent tasks) as Hurgent.
  cbv beta in Hsplit.
  repeat split; lia.
Qed.

(** X13. [handleEditTask] opens the first task that has the given id, and
    leaves the editor as it is when no task has it. *)
Theorem handleEditTask_opens_the_first_match
    (tasks : list Task) (editingTask : option Task) (taskId : jsstring) :
  ((forall t, In t tasks -> id t <> taskId) ->
   handleEditTask tasks editingTask taskId = editingTask)
  /\ (forall before t after,
        tasks = before ++ t :: after ->
        id t = taskId ->
        (forall x, In x before -> id x <> taskId) ->
        handleEditTask tasks editingTask taskId = Some t).
Proof.
  unfold handleEditTask. split.
  - intros Hnone.
    destruct (List.find _ tasks) as [t |] eqn:Hfind; [| reflexivity].
    apply List.find_some in Hfind as [Hin Hid].
    unfold jsstring_eqb in Hid. apply bool_decide_eq_true in Hid.
    exfalso. exact (Hnone t Hin Hid).
  - intros before t after -> Hid Hbefore.
    induction before as [| x before IH]; cbn [app List.find].
    + unfold jsstring_eqb. rewrite bool_decide_eq_true_2 by exact Hid. reflexivity.
    + unfold jsstring_eqb at 1.
      rewrite bool_decide_eq_false_2 by (apply Hbefore; left; reflexivity).
      apply IH. intros y Hy. apply Hbefore. right. exact Hy.
Qed.

Context `{Platform}.

Lemma whitespace_is_not_a_capital (c : N) :
  is_whitespace (ascii_lower c) = is_whitespace c.
Proof.
  unfold ascii_lower.
  destruct ((65 <=? c) && (c <=? 90))%N eqn:Hrange; [| reflexivity].
  apply andb_prop in Hrange as [Hlow Hhigh].
  apply N.leb_le in Hlow, Hhigh.
  assert (Hall : forallb (fun d => Bool.eqb (is_whitespace (d + 32)) (is_whitespace d))
                   (List.map N.of_nat (seq 65 26)) = true) by (vm_compute; reflexivity).
  rewrite forallb_forall in Hall.
  apply Bool.eqb_prop, Hall, in_map_iff.
  exists (N.to_nat c). split; [apply N2Nat.id |].
  apply in_seq. lia.
Qed.

Lemma blank_up_to_case (q1 q2 : jsstring) :
  List.map ascii_lower q1 = List.map ascii_lower q2 ->
  forallb is_whitespace q1 = forallb is_whitespace q2.
Proof.
  revert q2. induction q1 as [| c q1 IH]; intros [| d q2]; cbn; try discriminate;
    [reflexivity |].
  intros [= Hc Hq]. rewrite (IH q2 Hq).
  rewrite <- (whitespace_is_not_a_capital c), <- (whitespace_is_not_a_capital d), Hc.
  reflexivity.
Qed.

(** X14. The search does not see letter case in the query: two ASCII
    queries that differ only in the case of their letters select the same
    tasks. *)
Theorem search_ignores_query_case (q1 q2 : jsstring) (task : Task) :
  toLowerCase_on_ascii ->
  forallb is_ascii q1 = true ->
  forallb is_ascii q2 = true ->
  List.map ascii_lower q1 = List.map ascii_lower q2 ->
  search_matches q1 task = search_matches q2 task.
Proof.
  intros Hlower Hascii1 Hascii2 Hcase.
  pose proof (blank_up_to_case q1 q2 Hcase) as Hblank.
  pose proof (trim_empty_iff q1) as Hq1. pose proof (trim_empty_iff q2) as Hq2.
  unfold search_matches.
  rewrite (Hlower q1 Hascii1), (Hlower q2 Hascii2), Hcase.
  destruct (trim q1) as [| c1 t1], (trim q2) as [| c2 t2]; try reflexivity.
  - destruct Hq1 as [Hq1 _]. rewrite Hblank in Hq1.
    destruct Hq2 as [_ Hq2]. discriminate (Hq2 (Hq1 eq_refl)).
  - destruct Hq2 as [Hq2 _]. rewrite <- Hblank in Hq2.
    destruct Hq1 as [_ Hq1]. discriminate (Hq1 (Hq2 eq_refl)).
Qed.

End TasksPageMore.

(* ====================================================================== *)
(** * Further results on components/tasks/TaskForm.tsx *)
(* ====================================================================== *)

Section TaskFormMore.

Import TaskForm.

Variable task : option Task.
Variable classifyPriority : jsstring -> Priority.
Variable randomUUID : jsstring.
Variables createdAt_now updatedAt_now : jsstring.

Abbreviation handleSubmit :=
  (handleSubmit task classifyPriority randomUUID createdAt_now updatedAt_now).

(** X15. A rejected submission never loses what the user typed: title,
    description, tags and tag input stay, only the errors change. An
    accepted one clears title, description, tags and errors when creating,
    and keeps them when editing. *)
Theorem handleSubmit_and_the_inputs (st : FormState) :
  let st' := fst (handleSubmit st) in
  tagInput st' = tagInput st
  /\ showTagSuggestions st' = showTagSuggestions st
  /\ (snd (handleSubmit st) = None ->
      title st' = title st /\ description st' = description st /\ tags st' = tags st)
  /\ (forall submitted,
        snd (handleSubmit st) = Some submitted ->
        errors st' = ∅
        /\ if isEditMode task
           then title st' = title st /\ description st' = description st
                /\ tags st' = tags st
           else title st' = [] /\ description st' = [] /\ tags st' = []).
Proof.
  unfold TaskForm.handleSubmit.
  destruct (validateForm st) as [st1 ok] eqn:Hvalidate.
  unfold validateForm in Hvalidate. injection Hvalidate as <- Hok.
  destruct ok; cbn [negb fst snd].
  - apply Nat.eqb_eq, map_size_empty_iff in Hok.
    destruct (isEditMode task); cbn; repeat split; try discriminate; exact Hok.
  - cbn. repeat split; discriminate.
Qed.

(** X16. What is submitted: the due date is never set, the tags are the
    selected ones, the priority is classified from the trimmed title, and
    a description of whitespace only is dropped. Editing keeps the status
    of the task, and its id and creation time where it has them; creating
    starts as NOT_STARTED with a fresh id and the current time. *)
Theorem submitted_task_shape (st : FormState) (submitted : Task) :
  snd (handleSubmit st) = Some submitted ->
  dueDate submitted = None
  /\ TaskTypes.tags submitted = Some (tags st)
  /\ priority submitted = classifyPriority (trim (title st))
  /\ updatedAt submitted = updatedAt_now
  /\ (TaskTypes.description submitted = None
      <-> forallb is_whitespace (description st) = true)
  /\ match task with
     | Some edited =>
         status submitted = status edited
         /\ (id edited <> [] -> id submitted = id edited)
         /\ (createdAt edited <> [] -> createdAt submitted = createdAt edited)
     | None =>
         status submitted = NOT_STARTED
         /\ id submitted = randomUUID
         /\ createdAt submitted = createdAt_now
     end.
Proof.
  unfold TaskForm.handleSubmit.
  destruct (validateForm st) as [st1 ok].
  destruct ok; cbn [negb snd]; [| discriminate].
  intros [= <-]. cbn.
  repeat split.
  - intros Hnone. apply trim_empty_iff.
    destruct (trim (description st)); [reflexivity | discriminate].
  - intros Hblank. apply trim_empty_iff in Hblank. rewrite Hblank. reflexivity.
  - destruct task as [edited |]; cbn; repeat split.
    + intros Hid. destruct (id edited); [contradiction | reflexivity].
    + intros Hcreated. destruct (createdAt edited); [contradiction | reflexivity].
Qed.

(** X17. Removing a tag removes every occurrence of it and nothing else:
    the other tags stay, in their order, the list never grows, removing a
    tag that is not selected changes no tag, and the tag error is reset. *)
Theorem handleRemoveTag_removes_only_that_tag (st : FormState) (tag : jsstring) :
  let st' := handleRemoveTag st tag in
  (tag ∉ tags st')
  /\ (forall other, other <> tag -> (other ∈ tags st' <-> other ∈ tags st))
  /\ sublist (tags st') (tags st)
  /\ (tag ∉ tags st -> tags st' = tags st)
  /\ errors st' !! js "tags" = Some (JStr [])
  /\ title st' = title st /\ description st' = description st.
Proof.
  unfold handleRemoveTag; cbn.
  assert (Hmem : forall x,
             x ∈ List.filter (fun t => negb (jsstring_eqb t tag)) (tags st)
             <-> x ∈ tags st /\ x <> tag).
  { intros x. rewrite !list_elem_of_In, filter_In.
    unfold jsstring_eqb. rewrite negb_true_iff, bool_decide_eq_false. reflexivity. }
  repeat split.
  - intros Hin. apply Hmem in Hin as [_ Hne]. contradiction.
  - intros Hin. apply Hmem in Hin as [Hin _]. exact Hin.
  - intros Hin. apply Hmem. split; assumption.
  - clear Hmem. induction (tags st) as [| t l IH]; cbn; [constructor |].
    destruct (negb (jsstring_eqb t tag)); [apply sublist_skip | apply sublist_cons];
      exact IH.
  - intros Hnotin. apply filter_all_true_on. intros x Hx.
    unfold jsstring_eqb. rewrite negb_true_iff, bool_decide_eq_false.
    intros ->. apply Hnotin, list_elem_of_In. exact Hx.
  - apply lookup_insert_eq.
Qed.

End TaskFormMore.

(* ====================================================================== *)
(** * Results on components/tasks/TaskModal.tsx *)
(* ====================================================================== *)

Section TaskModalFacts.

Import TaskModal.

Variable onSubmit : Submission -> outcome unit.
Variable error_text : exn -> jsstring.

Abbreviation handleSubmit := (handleSubmit onSubmit error_text).

(** The inputs the modal lets through. *)
Lemma modal_submits_iff (st : ModalState) :
  (exists submission, onSubmit_called (snd (handleSubmit st)) = Some submission)
  <-> trim (title st) <> []
      /\ (length (title st) <= 200)%nat
      /\ (length (description st) <= 1000)%nat.
Proof.
  unfold TaskModal.handleSubmit.
  destruct (trim (title st)) as [| c rest] eqn:Htitle.
  - cbn. split; [intros [submission Hs]; discriminate | intros [Hne _]; contradiction].
  - destruct (Nat.ltb_spec 200 (length (title st))) as [Hlong | Hshort].
    + cbn. split; [intros [submission Hs]; discriminate | lia].
    + destruct (Nat.ltb_spec 1000 (length (description st))) as [Hdlong | Hdshort].
      * cbn. split; [intros [submission Hs]; discriminate | lia].
      * split.
        -- intros _. repeat split; [discriminate | lia | lia].
        -- intros _. destruct (onSubmit _); cbn; eexists; reflexivity.
Qed.

(** X18. The modal calls [onSubmit] exactly when the title is not blank,
    the title as typed has at most 200 code units and the description at
    most 1000; it then passes the trimmed title, closes exactly when
    [onSubmit] resolves, shows the error text when it throws, and is no
    longer submitting. Otherwise it sets an error, calls nothing and keeps
    the inputs. *)
Theorem modal_submits_exactly_the_valid (st : ModalState) :
  let st' := fst (handleSubmit st) in
  let effects := snd (handleSubmit st) in
  ((exists submission, onSubmit_called effects = Some submission)
   <-> trim (title st) <> []
       /\ (length (title st) <= 200)%nat
       /\ (length (description st) <= 1000)%nat)
  /\ (forall submission,
        onSubmit_called effects = Some submission ->
        submitted_title submission = trim (title st)
        /\ submitted_tags submission = selectedTags st
        /\ isSubmitting st' = false
        /\ (onClose_called effects = true
            <-> exists u, onSubmit submission = Returned u)
        /\ (forall err, onSubmit submission = Thrown err -> error st' = error_text err))
  /\ (onSubmit_called effects = None ->
      error st' <> [] /\ onClose_called effects = false
      /\ title st' = title st /\ description st' = description st
      /\ selectedTags st' = selectedTags st).
Proof.
  cbv zeta. split; [apply modal_submits_iff |].
  unfold TaskModal.handleSubmit.
  destruct (trim (title st)) as [| c rest] eqn:Htitle.
  - cbn. split; [discriminate | intros _; repeat split; discriminate].
  - destruct (200 <? length (title st))%nat.
    + cbn. split; [discriminate | intros _; repeat split; discriminate].
    + destruct (1000 <? length (description st))%nat.
      * cbn. split; [discriminate | intros _; repeat split; discriminate].
      * destruct (onSubmit _) as [u | err] eqn:Hsettled; cbn.
        -- split; [| discriminate].
           intros submission [= <-]. cbn. repeat split.
           ++ intros _. exists u. exact Hsettled.
           ++ intros err Herr. rewrite Hsettled in Herr. discriminate.
        -- split; [| discriminate].
           intros submission [= <-]. cbn. repeat split.
           ++ discriminate.
           ++ intros [u Hu]. rewrite Hsettled in Hu. discriminate.
           ++ intros err' Herr. rewrite Hsettled in Herr. congruence.
Qed.

(** X19. Whatever the modal lets through, the task form accepts too: a
    title and a description that pass the checks of the modal pass
    [validateForm] of TaskForm.tsx. *)
Theorem modal_is_stricter_than_the_form (modal : ModalState) (form : TaskForm.FormState) :
  TaskForm.title form = title modal ->
  TaskForm.description form = description modal ->
  (exists submission, onSubmit_called (snd (handleSubmit modal)) = Some submission) ->
  snd (TaskForm.validateForm form) = true.
Proof.
  intros Htitle Hdescription Hsubmits.
  apply modal_submits_iff in Hsubmits as (Hne & Hlen & Hdlen).
  apply validateForm_passes. rewrite Htitle, Hdescription.
  pose proof (length_trim (title modal)).
  repeat split; [exact Hne | lia | lia].
Qed.

(** ** Tags *)

Lemma selected_iff (tag : jsstring) (l : list jsstring) :
  existsb (fun t => jsstring_eqb t tag) l = true <-> tag ∈ l.
Proof.
  rewrite existsb_exists, list_elem_of_In. split.
  - intros (t & Hin & Heq). unfold jsstring_eqb in Heq.
    apply bool_decide_eq_true in Heq. subst t. exact Hin.
  - intros Hin. exists tag. split; [exact Hin |].
    unfold jsstring_eqb. apply bool_decide_eq_true. reflexivity.
Qed.

Lemma elem_of_remove (tag x : jsstring) (l : list jsstring) :
  x ∈ List.filter (fun t => negb (jsstring_eqb t tag)) l <-> x ∈ l /\ x <> tag.
Proof.
  rewrite !list_elem_of_In, filter_In.
  unfold jsstring_eqb. rewrite negb_true_iff, bool_decide_eq_false. reflexivity.
Qed.

Lemma NoDup_remove (tag : jsstring) (l : list jsstring) :
  NoDup l -> NoDup (List.filter (fun t => negb (jsstring_eqb t tag)) l).
Proof. intros Hl. apply NoDup_ListNoDup, List.NoDup_filter, NoDup_ListNoDup, Hl. Qed.

(** X20. Toggling a tag flips whether it is selected and leaves every
    other tag as it was; it keeps a list free of duplicates free of them;
    and toggling an unselected tag twice gives the list back. *)
Theorem toggle_flips_one_tag (prev : list jsstring) (tag : jsstring) :
  (tag ∈ toggle prev tag <-> tag ∉ prev)
  /\ (forall other, other <> tag -> (other ∈ toggle prev tag <-> other ∈ prev))
  /\ (NoDup prev -> NoDup (toggle prev tag))
  /\ (tag ∉ prev -> toggle (toggle prev tag) tag = prev).
Proof.
  unfold toggle at 1 2 3.
  destruct (existsb (fun t => jsstring_eqb t tag) prev) eqn:Hselected.
  - apply selected_iff in Hselected. repeat split.
    + intros Hin. apply elem_of_remove in Hin as [_ Hne]. contradiction.
    + intros Hnot. contradiction.
    + intros Hin. apply elem_of_remove in Hin as [Hin _]. exact Hin.
    + intros Hin. apply elem_of_remove. split; assumption.
    + apply NoDup_remove.
    + intros Hnot. contradiction.
  - assert (Hnot : tag ∉ prev).
    { intros Hin. apply selected_iff in Hin. congruence. }
    repeat split.
    + intros _. exact Hnot.
    + intros _. apply elem_of_app. right. apply list_elem_of_singleton. reflexivity.
    + intros Hin. apply elem_of_app in Hin as [Hin | Hin]; [exact Hin |].
      apply list_elem_of_singleton in Hin. contradiction.
    + intros Hin. apply elem_of_app. left. exact Hin.
    + intros Hnodup. apply NoDup_app. repeat split; [exact Hnodup | | apply NoDup_singleton].
      intros x Hx Hx'. apply list_elem_of_singleton in Hx'. subst x. contradiction.
    + intros _. unfold toggle. rewrite Hselected.
      assert (Hnow : existsb (fun t => jsstring_eqb t tag) (prev ++ [tag]) = true).
      { apply selected_iff, elem_of_app. right. apply list_elem_of_singleton. reflexivity. }
      rewrite Hnow, List.filter_app. cbn.
      unfold jsstring_eqb at 2. rewrite bool_decide_eq_true_2 by reflexivity. cbn.
      rewrite app_nil_r. apply filter_all_true_on. intros x Hx.
      unfold jsstring_eqb. rewrite negb_true_iff, bool_decide_eq_false.
      intros ->. apply Hnot, list_elem_of_In. exact Hx.
Qed.

Lemma click_tag_keeps_selection_ok (st : ModalState) (tag : jsstring) :
  selection_ok st -> selection_ok (click_tag st tag).
Proof.
  intros [Hlen Hnodup]. unfold click_tag, tag_button_disabled.
  destruct (existsb (fun t => jsstring_eqb t tag) (selectedTags st)) eqn:Hselected;
    cbn [negb andb].
  - unfold selection_ok, toggleTag, toggle; cbn. rewrite Hselected. split.
    + etransitivity; [apply List.filter_length_le | exact Hlen].
    + apply NoDup_remove. exact Hnodup.
  - destruct (Nat.leb_spec 5 (length (selectedTags st))) as [Hfull | Hroom].
    + split; assumption.
    + unfold selection_ok, toggleTag, toggle; cbn. rewrite Hselected. split.
      * rewrite length_app. cbn. lia.
      * apply NoDup_app. repeat split; [exact Hnodup | | apply NoDup_singleton].
        intros x Hx Hx'. apply list_elem_of_singleton in Hx'. subst x.
        apply selected_iff in Hx. congruence.
Qed.

(** X21. Through the tag buttons the selection never grows beyond five
    tags and never holds a tag twice: from a selection of at most five
    distinct tags, such as the empty one of a new task, every sequence of
    clicks leaves such a selection, because the button of an unselected tag
    is disabled once five are selected. *)
Theorem modal_selection_stays_within_five (st : ModalState) (clicks : list jsstring) :
  selection_ok st ->
  selection_ok (click_tags st clicks)
  /\ (forall tag,
        tag ∉ selectedTags st -> length (selectedTags st) = 5%nat ->
        tag_button_disabled st tag = true /\ click_tag st tag = st).
Proof.
  intros Hok. split.
  - revert st Hok. induction clicks as [| tag clicks IH]; intros st Hok; [exact Hok |].
    cbn. apply IH. apply click_tag_keeps_selection_ok. exact Hok.
  - intros tag Hnot Hfull.
    assert (Hdisabled : tag_button_disabled st tag = true).
    { unfold tag_button_disabled. rewrite Hfull.
      destruct (existsb _ (selectedTags st)) eqn:Hselected; [| reflexivity].
      apply selected_iff in Hselected. contradiction. }
    split; [exact Hdisabled |]. unfold click_tag. rewrite Hdisabled. reflexivity.
Qed.

End TaskModalFacts.

(* ====================================================================== *)
(** * Results on app/notifications/page.tsx *)
(* ====================================================================== *)

Section NotificationsPageFacts.

Import NotificationsPage.

Lemma filter_split_permutation {A} (p : A -> bool) (l : list A) :
  Permutation (List.filter p l ++ List.filter (fun x => negb (p x)) l) l.
Proof.
  induction l as [| x l IH]; cbn; [constructor |].
  destruct (p x); cbn.
  - constructor. exact IH.
  - symmetry. apply Permutation_cons_app. symmetry. exact IH.
Qed.

(** X22. The read and the unread filter split the notifications: each
    notification is shown under exactly one of the two, together they show
    all of them, and the filter "all" shows the list as it is. *)
Theorem read_and_unread_split (notifications : list Notification) :
  filteredNotifications all notifications = notifications
  /\ Permutation
       (filteredNotifications read notifications
          ++ filteredNotifications unread notifications)
       notifications
  /\ (forall n,
        In n notifications ->
        (In n (filteredNotifications unread notifications)
         <-> ~ In n (filteredNotifications read notifications)))
  /\ (length (filteredNotifications read notifications)
      + length (filteredNotifications unread notifications)
      = length notifications)%nat.
Proof.
  unfold filteredNotifications. repeat split.
  - apply filter_all_true. reflexivity.
  - apply filter_split_permutation.
  - intros Hunread Hread.
    apply filter_In in Hunread as [_ Hunread]. apply filter_In in Hread as [_ Hread].
    rewrite Hread in Hunread. discriminate.
  - intros Hnot. apply filter_In. split; [assumption |].
    destruct (is_read n) eqn:Hread; [| reflexivity].
    exfalso. apply Hnot, filter_In. split; assumption.
  - apply filter_partition_length.
Qed.

Context `{Platform}.

(** X23. [formatTime] picks the unit so that the number shown is never
    zero and never a full next unit: less than a minute, also for a
    timestamp in the future, reads "Just now"; then 1 to 59 minutes, 1 to 23
    hours, and from one day on whole days, each the elapsed time divided
    down. *)
Theorem formatTime_buckets (date now : Z) :
  let elapsed := now - date in
  (elapsed < 60000 -> formatTime date now = js "Just now")
  /\ (60000 <= elapsed < 3600000 ->
      1 <= elapsed / 60000 <= 59
      /\ formatTime date now = ago (elapsed / 60000) (js "min"))
  /\ (3600000 <= elapsed < 86400000 ->
      1 <= elapsed / 3600000 <= 23
      /\ formatTime date now = ago (elapsed / 3600000) (js "hr"))
  /\ (86400000 <= elapsed ->
      1 <= elapsed / 86400000
      /\ formatTime date now = ago (elapsed / 86400000) (js "day")).
Proof.
  intros elapsed. unfold formatTime. fold elapsed.
  split; [| split; [| split]].
  - intros Hless.
    assert (elapsed / 60000 < 1) by (apply Z.div_lt_upper_bound; lia).
    destruct (Z.ltb_spec (elapsed / 60000) 1); [reflexivity | lia].
  - intros [Hlow Hhigh].
    assert (1 <= elapsed / 60000) by (apply Z.div_le_lower_bound; lia).
    assert (elapsed / 60000 < 60) by (apply Z.div_lt_upper_bound; lia).
    split; [lia |].
    destruct (Z.ltb_spec (elapsed / 60000) 1); [lia |].
    destruct (Z.ltb_spec (elapsed / 60000) 60); [reflexivity | lia].
  - intros [Hlow Hhigh].
    assert (60 <= elapsed / 60000) by (apply Z.div_le_lower_bound; lia).
    assert (1 <= elapsed / 3600000) by (apply Z.div_le_lower_bound; lia).
    assert (elapsed / 3600000 < 24) by (apply Z.div_lt_upper_bound; lia).
    split; [lia |].
    destruct (Z.ltb_spec (elapsed / 60000) 1); [lia |].
    destruct (Z.ltb_spec (elapsed / 60000) 60); [lia |].
    destruct (Z.ltb_spec (elapsed / 3600000) 24); [reflexivity | lia].
  - intros Hlow.
    assert (60 <= elapsed / 60000) by (apply Z.div_le_lower_bound; lia).
    assert (24 <= elapsed / 3600000) by (apply Z.div_le_lower_bound; lia).
    assert (1 <= elapsed / 86400000) by (apply Z.div_le_lower_bound; lia).
    split; [lia |].
    destruct (Z.ltb_spec (elapsed / 60000) 1); [lia |].
    destruct (Z.ltb_spec (elapsed / 60000) 60); [lia |].
    destruct (Z.ltb_spec (elapsed / 3600000) 24); [lia | reflexivity].
Qed.

End NotificationsPageFacts.

(* ====================================================================== *)
(** * Regular expressions: the matcher decides the language *)
(* ====================================================================== *)

Section RegexFacts.

Import Regex.

Lemma nullable_spec (r : regex) : nullable r = true <-> lang r [].
Proof.
  split.
  - induction r as [| | p | r1 IH1 r2 IH2 | r1 IH1 r2 IH2 | r IH]; cbn; intros Hn;
      try discriminate.
    + constructor.
    + apply andb_prop in Hn as [H1 H2].
      change (@nil N) with (@nil N ++ @nil N). constructor; auto.
    + apply orb_prop in Hn as [H1 | H2]; [apply lang_alt_l | apply lang_alt_r]; auto.
    + constructor.
  - intros Hl. remember (@nil N) as s eqn:Hs.
    induction Hl as [| p c Hp | r1 r2 s1 s2 H1 IH1 H2 IH2 | r1 r2 s H1 IH1
                     | r1 r2 s H2 IH2 | r | r s1 s2 H1 IH1 H2 IH2]; cbn;
      try reflexivity; try discriminate.
    + apply app_eq_nil in Hs as [-> ->]. rewrite IH1, IH2; reflexivity.
    + rewrite IH1; [reflexivity | exact Hs].
    + rewrite IH2; [apply orb_true_r | exact Hs].
Qed.

Lemma deriv_sound (c : N) (r : regex) (s : jsstring) :
  lang (deriv c r) s -> lang r (c :: s).
Proof.
  revert s.
  induction r as [| | p | r1 IH1 r2 IH2 | r1 IH1 r2 IH2 | r IH]; cbn; intros s Hl.
  - inversion Hl.
  - inversion Hl.
  - destruct (p c) eqn:Hp; inversion Hl; subst. constructor. exact Hp.
  - destruct (nullable r1) eqn:Hn.
    + inversion Hl as [| | | ? ? ? Hleft | ? ? ? Hright | |]; subst.
      * inversion Hleft as [| | ? ? s1 s2 H1 H2 | | | |]; subst.
        change (c :: s1 ++ s2) with ((c :: s1) ++ s2). constructor; auto.
      * change (c :: s) with ([] ++ c :: s). constructor; [| auto].
        apply nullable_spec. exact Hn.
    + inversion Hl as [| | ? ? s1 s2 H1 H2 | | | |]; subst.
      change (c :: s1 ++ s2) with ((c :: s1) ++ s2). constructor; auto.
  - inversion Hl; subst; [apply lang_alt_l | apply lang_alt_r]; auto.
  - inversion Hl as [| | ? ? s1 s2 H1 H2 | | | |]; subst.
    change (c :: s1 ++ s2) with ((c :: s1) ++ s2). constructor; auto.
Qed.

Lemma deriv_complete (c : N) (r : regex) (s : jsstring) :
  lang r (c :: s) -> lang (deriv c r) s.
Proof.
  intros Hl. remember (c :: s) as w eqn:Hw. revert s Hw.
  induction Hl as [| p d Hp | r1 r2 s1 s2 H1 IH1 H2 IH2 | r1 r2 w H1 IH1
                   | r1 r2 w H2 IH2 | r | r s1 s2 H1 IH1 H2 IH2];
    intros s Hw; cbn.
  - discriminate.
  - injection Hw as -> <-. rewrite Hp. constructor.
  - destruct s1 as [| d s1]; cbn in Hw.
    + subst s2. apply nullable_spec in H1. rewrite H1.
      apply lang_alt_r. apply IH2. reflexivity.
    + injection Hw as -> <-.
      assert (Hseq : lang (Seq (deriv c r1) r2) (s1 ++ s2)).
      { constructor; [apply IH1; reflexivity | exact H2]. }
      destruct (nullable r1); [apply lang_alt_l |]; exact Hseq.
  - apply lang_alt_l. apply IH1. exact Hw.
  - apply lang_alt_r. apply IH2. exact Hw.
  - discriminate.
  - destruct s1 as [| d s1]; cbn in Hw.
    + apply IH2. exact Hw.
    + injection Hw as -> <-. constructor; [apply IH1; reflexivity | exact H2].
Qed.

(** The matcher accepts exactly the strings of the pattern. *)
Lemma test_spec (r : regex) (s : jsstring) : test r s = true <-> lang r s.
Proof.
  unfold test. revert r. induction s as [| c s IH]; intros r; cbn.
  - apply nullable_spec.
  - rewrite IH. split; [apply deriv_sound | apply deriv_complete].
Qed.

Lemma lang_star_class (p : N -> bool) (s : jsstring) :
  lang (Star (Class p)) s <-> forallb p s = true.
Proof.
  split.
  - intros Hl. remember (Star (Class p)) as r eqn:Hr.
    induction Hl as [| | | | | r' | r' s1 s2 H1 IH1 H2 IH2]; try discriminate.
    + reflexivity.
    + injection Hr as ->. inversion H1; subst. cbn.
      rewrite IH2 by reflexivity. rewrite andb_true_r. assumption.
  - induction s as [| c s IH]; cbn; intros Hall; [constructor |].
    apply andb_prop in Hall as [Hc Hs].
    change (c :: s) with ([c] ++ s). constructor; [constructor; exact Hc | auto].
Qed.

(** [[p]+] is a non-empty run of the class. *)
Lemma lang_plus_class (p : N -> bool) (s : jsstring) :
  lang (Plus (Class p)) s <-> s <> [] /\ forallb p s = true.
Proof.
  unfold Plus. split.
  - intros Hl. inversion Hl as [| | ? ? s1 s2 H1 H2 | | | |]; subst.
    inversion H1; subst. apply lang_star_class in H2. cbn.
    split; [discriminate |]. rewrite H2, andb_true_r. assumption.
  - intros [Hne Hall]. destruct s as [| c s]; [contradiction |].
    cbn in Hall. apply andb_prop in Hall as [Hc Hs].
    change (c :: s) with ([c] ++ s).
    constructor; [constructor; exact Hc | apply lang_star_class; exact Hs].
Qed.

Lemma lang_char (d : N) (s : jsstring) : lang (Class (N.eqb d)) s <-> s = [d].
Proof.
  split.
  - intros Hl. inversion Hl as [| p c Hc | | | | |]; subst.
    apply N.eqb_eq in Hc. subst. reflexivity.
  - intros ->. constructor. apply N.eqb_refl.
Qed.

End RegexFacts.

(* ====================================================================== *)
(** * Results on the signup and login forms *)
(* ====================================================================== *)

Section AuthFormsFacts.

Import Regex AuthForms.

Lemma EMAIL_REGEX_spec (s : jsstring) :
  test EMAIL_REGEX s = true <-> address_shaped s.
Proof.
  rewrite test_spec. unfold EMAIL_REGEX, address_shaped, segment. split.
  - intros Hl.
    inversion Hl as [| | ? ? local s1 Hlocal H1 | | | |]; subst.
    inversion H1 as [| | ? ? at' s2 Hat H2 | | | |]; subst.
    inversion H2 as [| | ? ? domain s3 Hdomain H3 | | | |]; subst.
    inversion H3 as [| | ? ? dot tld Hdot Htld | | | |]; subst.
    apply lang_char in Hat, Hdot. subst.
    apply lang_plus_class in Hlocal, Hdomain, Htld.
    exists local, domain, tld. repeat split; tauto.
  - intros (local & domain & tld & -> & Hlocal & Hdomain & Htld).
    apply lang_plus_class in Hlocal, Hdomain, Htld.
    constructor; [exact Hlocal |].
    change (at_sign :: domain ++ full_stop :: tld)
      with ([at_sign] ++ domain ++ [full_stop] ++ tld).
    constructor; [apply lang_char; reflexivity |].
    constructor; [exact Hdomain |].
    constructor; [apply lang_char; reflexivity | exact Htld].
Qed.

Lemma segment_facts (s : jsstring) :
  forallb not_space_or_at s = true ->
  forallb (fun c => negb (is_whitespace c)) s = true
  /\ count_occ N.eq_dec s at_sign = 0%nat.
Proof.
  induction s as [| c s IH]; cbn [forallb count_occ]; [split; reflexivity |].
  intros Hall. apply andb_prop in Hall as [Hc Hs].
  destruct (IH Hs) as [Hws Hcount]. unfold not_space_or_at in Hc.
  apply andb_prop in Hc as [Hspace Hat].
  rewrite Hspace, Hws. split; [reflexivity |].
  apply negb_true_iff, N.eqb_neq in Hat.
  destruct (N.eq_dec c at_sign); [contradiction | exact Hcount].
Qed.

Lemma address_shaped_facts (s : jsstring) :
  address_shaped s ->
  forallb (fun c => negb (is_whitespace c)) s = true
  /\ count_occ N.eq_dec s at_sign = 1%nat
  /\ trim s <> [].
Proof.
  intros (local & domain & tld & -> & [Hlocal_ne Hlocal] & [_ Hdomain] & [_ Htld]).
  destruct (segment_facts _ Hlocal) as [Hl1 Hl2].
  destruct (segment_facts _ Hdomain) as [Hd1 Hd2].
  destruct (segment_facts _ Htld) as [Ht1 Ht2].
  assert (Hclean : forallb (fun c => negb (is_whitespace c))
                     (local ++ at_sign :: domain ++ full_stop :: tld) = true).
  { rewrite forallb_app, Hl1. cbn. rewrite forallb_app, Hd1. cbn. exact Ht1. }
  split; [exact Hclean |]. split.
  - rewrite count_occ_app, Hl2. cbn. rewrite count_occ_app, Hd2. cbn. rewrite Ht2.
    reflexivity.
  - rewrite (trim_clean _ Hclean). destruct local; [contradiction | discriminate].
Qed.

(** [validateEmail] reports no error exactly on the address-shaped strings. *)
Lemma validateEmail_accepts_address_shape (email : jsstring) :
  (validateEmail email = [] <-> address_shaped email)
  /\ (forallb is_whitespace email = true -> validateEmail email = js "Email is required").
Proof.
  split.
  - unfold validateEmail. split.
    + destruct (trim email); [discriminate |].
      destruct (test EMAIL_REGEX email) eqn:Htest; [| discriminate].
      intros _. apply EMAIL_REGEX_spec. exact Htest.
    + intros Hshape. destruct (address_shaped_facts email Hshape) as (_ & _ & Htrim).
      apply EMAIL_REGEX_spec in Hshape. rewrite Hshape.
      destruct (trim email); [contradiction | reflexivity].
  - intros Hblank. unfold validateEmail. rewrite (trim_whitespace _ Hblank). reflexivity.
Qed.

(** X24. [validateEmail] reports no error exactly on the addresses of the
    shape local@domain.tld whose three parts are non-empty and hold neither
    whitespace nor '@': such an address has no whitespace at all and
    exactly one '@'. The examples of the source hold: user@example.com is
    valid; invalid-email, @example.com and user@ are not. *)
Theorem validateEmail_accepts_exactly_addresses (email : jsstring) :
  (validateEmail email = [] <-> address_shaped email)
  /\ (validateEmail email = [] ->
      forallb (fun c => negb (is_whitespace c)) email = true
      /\ count_occ N.eq_dec email at_sign = 1%nat)
  /\ (forallb is_whitespace email = true -> validateEmail email = js "Email is required")
  /\ validateEmail (js "user@example.com") = []
  /\ validateEmail (js "invalid-email") = js "Invalid email format"
  /\ validateEmail (js "@example.com") = js "Invalid email format"
  /\ validateEmail (js "user@") = js "Invalid email format".
Proof.
  destruct (validateEmail_accepts_address_shape email) as [Hiff Hblank].
  split; [exact Hiff |]. split; [| split].
  - intros Hvalid. apply Hiff, address_shaped_facts in Hvalid. tauto.
  - exact Hblank.
  - repeat split; vm_compute; reflexivity.
Qed.

Import SignupForm.

Lemma first_code_unit_scores (c : N) (password : jsstring) :
  (1 <= point (existsb is_upper (c :: password))
        + point (existsb is_lower (c :: password))
        + point (existsb is_digit (c :: password))
        + point (existsb is_other (c :: password)))%nat.
Proof.
  cbn [existsb]. unfold is_other.
  destruct (is_upper c), (is_lower c), (is_digit c); cbn;
    repeat match goal with |- context [point ?b] => destruct b; cbn end; lia.
Qed.

Lemma point_le_1 (b : bool) : (point b <= 1)%nat.
Proof. destruct b; cbn; lia. Qed.

(** X25. The strength meter: the score is at most six and at least one for
    a non-empty password; the level is weak up to two points, medium up to
    four and strong from five; a password shorter than eight code units is
    never strong; and a password the signup form accepts scores at least
    two. *)
Theorem password_strength_bounds (password : jsstring) :
  let level := fst (getPasswordStrength password) in
  let score := snd (getPasswordStrength password) in
  (score <= 6)%nat
  /\ (password <> [] -> 1 <= score)%nat
  /\ (level = weak <-> score <= 2)%nat
  /\ (level = medium <-> 3 <= score <= 4)%nat
  /\ (level = strong <-> 5 <= score)%nat
  /\ (level = strong -> 8 <= length password)%nat
  /\ (validatePassword password = [] -> 2 <= score)%nat.
Proof.
  cbv zeta. unfold getPasswordStrength.
  destruct password as [| c password].
  - cbn. repeat split; try lia; try discriminate; try contradiction.
  - pose proof (first_code_unit_scores c password) as Hfirst.
    set (pw := c :: password) in *.
    assert (Hscore : score_of pw
                     = (point (8 <=? length pw) + point (12 <=? length pw)
                        + point (existsb is_upper pw) + point (existsb is_lower pw)
                        + point (existsb is_digit pw) + point (existsb is_other pw))%nat)
      by reflexivity.
    pose proof (point_le_1 (8 <=? length pw)%nat) as H8.
    pose proof (point_le_1 (12 <=? length pw)%nat) as H12.
    pose proof (point_le_1 (existsb is_upper pw)).
    pose proof (point_le_1 (existsb is_lower pw)).
    pose proof (point_le_1 (existsb is_digit pw)).
    pose proof (point_le_1 (existsb is_other pw)).
    assert (Hshort : (length pw < 8 -> score_of pw <= 4)%nat).
    { intros Hlen. rewrite Hscore.
      destruct (Nat.leb_spec 8 (length pw)); [lia |].
      destruct (Nat.leb_spec 12 (length pw)); [lia |]. cbn [point]. lia. }
    assert (Hvalid : validatePassword pw = [] -> (2 <= score_of pw)%nat).
    { unfold validatePassword, pw at 1, MIN_PASSWORD_LENGTH.
      destruct (Nat.ltb_spec (length pw) 8); [discriminate |].
      intros _. rewrite Hscore.
      destruct (Nat.leb_spec 8 (length pw)); [| lia]. cbn [point]. lia. }
    assert (Hlong : (5 <= score_of pw -> 8 <= length pw)%nat).
    { intros Hfive. destruct (le_lt_dec 8 (length pw)) as [Hge | Hlt]; [exact Hge |].
      specialize (Hshort Hlt). lia. }
    assert (Hscored : (score_of pw <= 6)%nat) by (rewrite Hscore; lia).
    assert (Hsome : (1 <= score_of pw)%nat) by (rewrite Hscore; lia).
    clearbody pw. clear Hscore.
    destruct (Nat.leb_spec (score_of pw) 2) as [Hweak | Hnotweak]; cbn [fst snd];
      [| destruct (Nat.leb_spec (score_of pw) 4) as [Hmedium | Hstrong]; cbn [fst snd]];
      repeat split; intros;
      try discriminate; try lia;
      try (apply Hvalid; assumption); try (apply Hlong; lia).
Qed.

Lemma point_mono (b1 b2 : bool) : (b1 = true -> b2 = true) -> (point b1 <= point b2)%nat.
Proof. destruct b1, b2; cbn; intros Himp; try lia; discriminate (Himp eq_refl). Qed.

Lemma existsb_app_mono (p : N -> bool) (s more : jsstring) :
  existsb p s = true -> existsb p (s ++ more) = true.
Proof. intros Hs. rewrite existsb_app, Hs. reflexivity. Qed.

Lemma score_of_mono (password more : jsstring) :
  (score_of password <= score_of (password ++ more))%nat.
Proof.
  unfold score_of.
  pose proof (point_mono (8 <=? length password)%nat (8 <=? length (password ++ more))%nat).
  pose proof (point_mono (12 <=? length password)%nat (12 <=? length (password ++ more))%nat).
  pose proof (point_mono _ _ (existsb_app_mono is_upper password more)).
  pose proof (point_mono _ _ (existsb_app_mono is_lower password more)).
  pose proof (point_mono _ _ (existsb_app_mono is_digit password more)).
  pose proof (point_mono _ _ (existsb_app_mono is_other password more)).
  assert (Hlen : (length password <= length (password ++ more))%nat)
    by (rewrite length_app; lia).
  assert ((8 <=? length password)%nat = true -> (8 <=? length (password ++ more))%nat = true).
  { rewrite !Nat.leb_le. lia. }
  assert ((12 <=? length password)%nat = true -> (12 <=? length (password ++ more))%nat = true).
  { rewrite !Nat.leb_le. lia. }
  intuition lia.
Qed.

(** X26. Typing on never lowers the meter: appending code units to a
    password lowers neither its score nor its level. *)
Theorem strength_never_drops_when_typing (password more : jsstring) :
  (snd (getPasswordStrength password) <= snd (getPasswordStrength (password ++ more)))%nat
  /\ (rank (fst (getPasswordStrength password))
      <= rank (fst (getPasswordStrength (password ++ more))))%nat.
Proof.
  destruct password as [| c password]; [cbn; split; lia |].
  pose proof (score_of_mono (c :: password) more) as Hmono.
  unfold getPasswordStrength. cbn [app] in *.
  destruct (Nat.leb_spec (score_of (c :: password)) 2);
    destruct (Nat.leb_spec (score_of (c :: password ++ more)) 2);
    destruct (Nat.leb_spec (score_of (c :: password)) 4);
    destruct (Nat.leb_spec (score_of (c :: password ++ more)) 4);
    cbn; split; lia.
Qed.

(** X27. The signup form calls the service exactly when [isFormValid]
    holds, that is with an address-shaped email and a password of at least
    eight code units, and passes both as typed; it then is loading.
    Otherwise it calls nothing, marks both fields as touched, sets both
    errors and keeps the input. *)
Theorem signup_submits_exactly_the_valid (st : FormState) :
  let st' := fst (SignupForm.handleSubmit st) in
  let called := snd (SignupForm.handleSubmit st) in
  (called = Some (email (formData st), password (formData st))
   \/ called = None)
  /\ (called <> None <-> SignupForm.isFormValid (formData st) = true)
  /\ (SignupForm.isFormValid (formData st) = true
      <-> address_shaped (email (formData st))
          /\ (8 <= length (password (formData st)))%nat)
  /\ formData st' = formData st
  /\ (called <> None -> isLoading st' = true /\ errors st' = errors st)
  /\ (called = None ->
      touched st' = (Some true, Some true)
      /\ errors st' = (Some (validateEmail (email (formData st))),
                       Some (SignupForm.validatePassword (password (formData st))))
      /\ isLoading st' = isLoading st).
Proof.
  cbv zeta. unfold SignupForm.handleSubmit, submit, SignupForm.isFormValid.
  pose proof (proj1 (validateEmail_accepts_address_shape (email (formData st)))) as Hemail.
  assert (Hpassword : SignupForm.validatePassword (password (formData st)) = []
                      <-> (8 <= length (password (formData st)))%nat).
  { unfold SignupForm.validatePassword, MIN_PASSWORD_LENGTH.
    destruct (password (formData st)) as [| c pw]; [cbn; split; [discriminate | lia] |].
    destruct (Nat.ltb_spec (length (c :: pw)) 8); split; try discriminate; try lia.
    reflexivity. }
  destruct (validateEmail (email (formData st))) as [| e1 e];
    destruct (SignupForm.validatePassword (password (formData st))) as [| p1 p];
    cbn [fst snd formData isLoading errors touched];
    (split; [first [left; reflexivity | right; reflexivity] |]);
    intuition (try discriminate; try reflexivity; try congruence).
Qed.

(** X28. The login form calls the service exactly when [isFormValid]
    holds, that is with an address-shaped email and a non-empty password,
    of any length, and passes both as typed; otherwise it calls nothing
    and sets both errors. *)
Theorem login_submits_exactly_the_valid (st : FormState) :
  let st' := fst (LoginForm.handleSubmit st) in
  let called := snd (LoginForm.handleSubmit st) in
  (called = Some (email (formData st), password (formData st))
   \/ called = None)
  /\ (called <> None <-> LoginForm.isFormValid (formData st) = true)
  /\ (LoginForm.isFormValid (formData st) = true
      <-> address_shaped (email (formData st)) /\ password (formData st) <> [])
  /\ formData st' = formData st
  /\ (called = None ->
      errors st' = (Some (validateEmail (email (formData st))),
                    Some (LoginForm.validatePassword (password (formData st))))).
Proof.
  cbv zeta. unfold LoginForm.handleSubmit, submit, LoginForm.isFormValid.
  pose proof (proj1 (validateEmail_accepts_address_shape (email (formData st)))) as Hemail.
  unfold LoginForm.validatePassword.
  destruct (validateEmail (email (formData st))) as [| e1 e];
    destruct (password (formData st)) as [| p1 p];
    cbn [fst snd formData isLoading errors touched];
    (split; [first [left; reflexivity | right; reflexivity] |]);
    intuition (try discriminate; try reflexivity; try congruence).
Qed.

End AuthFormsFacts.

(* ====================================================================== *)
(** * The further results on concrete inputs *)
(* ====================================================================== *)

Section MoreInstances.

Import Examples MoreExamples ApiClient.

#[local] Existing Instance Reference.platform.

(** The session cookie is read back behind another cookie. *)
Lemma getTokenFromCookie_reads_auth_token_witness :
  forallb CookieReader.well_formed two_cookies = true
  /\ CookieReader.getTokenFromCookie (CookieReader.cookie_string two_cookies)
     = JStr (js "abc123").
Proof.
  split; [reflexivity |].
  apply (proj2 (getTokenFromCookie_reads_auth_token two_cookies eq_refl) (js "abc123"));
    reflexivity.
Defined.

(** A signup that is confirmed without a session, and a login answered
    with the body [null]. *)
Lemma login_without_token_stores_nothing_witness :
  AuthApi.response_ok 200 = true
  /\ AuthApi.signup None confirms_without_token (js "ada@example.com") (js "correct horse")
       signed_out
     = (signed_out, Returned (JObj [(js "message", JStr (js "Check your inbox"))]))
  /\ AuthApi.login None answers_null (js "ada@example.com") (js "correct horse") signed_out
     = (signed_out, Thrown (TypeError (js "token"))).
Proof.
  split; [reflexivity |]. split.
  - apply (proj2 (login_without_token_stores_nothing None confirms_without_token
                    (js "ada@example.com") (js "correct horse") signed_out 200
                    (JObj [(js "message", JStr (js "Check your inbox"))])
                    eq_refl eq_refl)).
    reflexivity.
  - apply (proj1 (login_without_token_stores_nothing None answers_null
                    (js "ada@example.com") (js "correct horse") signed_out 200
                    JNull eq_refl eq_refl)).
    reflexivity.
Defined.



(** Offline, [getTasks] fails and the session stays. *)
Lemma only_a_401_ends_the_session_witness :
  (forall body, answer unreachable signed_in GetTasks <> HttpResponse 401 body)
  /\ same_but_console signed_in
       (fst (ApiClient.run unreachable (Returned tt) true GetTasks signed_in)).
Proof.
  assert (Hnot : forall body, answer unreachable signed_in GetTasks <> HttpResponse 401 body)
    by (intros body Hanswer; discriminate Hanswer).
  split; [exact Hnot |].
  apply only_a_401_ends_the_session. exact Hnot.
Defined.

(** After a 401 the session cookie is still in the store. *)
Lemma a_401_keeps_the_cookies_witness :
  answer answers_401 signed_in GetTasks
  = HttpResponse 401 (JObj [(js "detail", JStr (js "Not authenticated"))])
  /\ cookies (fst (ApiClient.run answers_401 (Returned tt) true GetTasks signed_in))
     = cookies signed_in.
Proof.
  split; [reflexivity |].
  apply (a_401_keeps_the_cookies (Returned tt) true answers_401 GetTasks signed_in
           (JObj [(js "detail", JStr (js "Not authenticated"))]) eq_refl).
Defined.

(** An envelope without data reads as the empty task list. *)
Lemma getTasks_never_returns_falsy_witness :
  snd (getTasks answers_empty_envelope (Returned tt) true signed_in) = Returned (JArr [])
  /\ truthy (JArr []) = true.
Proof.
  split; [reflexivity |].
  apply (getTasks_never_returns_falsy (Returned tt) true answers_empty_envelope
           signed_in (JArr []) eq_refl).
Defined.

(** A history without pagination fails at current_page. *)
Lemma getHistory_without_pagination_throws_witness :
  answer serves_unpaginated signed_in (GetHistory None None None None)
  = HttpResponse 200 unpaginated_body
  /\ validateStatus 200 = true
  /\ snd (getHistory serves_unpaginated (Returned tt) true None None None None signed_in)
     = Thrown (TypeError (js "current_page")).
Proof.
  split; [reflexivity |]. split; [reflexivity |].
  apply (getHistory_without_pagination_throws (Returned tt) true serves_unpaginated
           None None None None signed_in 200 unpaginated_body eq_refl eq_refl eq_refl).
Defined.

(** REPORT and report find the same task. *)
Lemma search_ignores_query_case_witness :
  forallb is_ascii (js "REPORT") = true
  /\ List.map ascii_lower (js "REPORT") = List.map ascii_lower (js "report")
  /\ TasksPage.search_matches (js "REPORT") write_report
     = TasksPage.search_matches (js "report") write_report.
Proof.
  split; [reflexivity |]. split; [reflexivity |].
  apply search_ignores_query_case;
    [exact reference_toLowerCase_on_ascii | reflexivity | reflexivity | reflexivity].
Defined.

(** The padded title is trimmed and the blank description dropped. *)
Lemma submitted_task_shape_witness :
  snd (TaskForm.handleSubmit None classify_medium (js "7f9c")
         (js "2023-11-14T22:13:20.000Z") (js "2023-11-14T22:13:21.000Z") typed_form)
  = Some submitted_task
  /\ TaskTypes.description submitted_task = None
  /\ id submitted_task = js "7f9c".
Proof.
  split; [reflexivity |].
  pose proof (submitted_task_shape None classify_medium (js "7f9c")
                (js "2023-11-14T22:13:20.000Z") (js "2023-11-14T22:13:21.000Z")
                typed_form submitted_task eq_refl)
    as (_ & _ & _ & _ & Hdescription & _ & Hid & _).
  split; [apply Hdescription; reflexivity | exact Hid].
Defined.

(** What the modal saves, the form validates. *)
Lemma modal_is_stricter_than_the_form_witness :
  TaskForm.title typed_form = TaskModal.title typed_modal
  /\ TaskForm.description typed_form = TaskModal.description typed_modal
  /\ snd (TaskForm.validateForm typed_form) = true.
Proof.
  split; [reflexivity |]. split; [reflexivity |].
  apply (modal_is_stricter_than_the_form saves describe typed_modal typed_form
           eq_refl eq_refl).
  eexists. reflexivity.
Defined.

(** From the empty selection, any clicks. *)
Lemma modal_selection_stays_within_five_witness :
  TaskModal.selection_ok (TaskModal.initial_state None)
  /\ forall clicks,
       TaskModal.selection_ok (TaskModal.click_tags (TaskModal.initial_state None) clicks).
Proof.
  assert (Hempty : TaskModal.selection_ok (TaskModal.initial_state None)).
  { split; [cbn; lia | apply NoDup_nil_2]. }
  split; [exact Hempty |].
  intros clicks.
  exact (proj1 (modal_selection_stays_within_five (TaskModal.initial_state None) clicks Hempty)).
Defined.

End MoreInstances.
